(** * function_plotter: a shallow embedding of the plotting pipeline

    The development follows [function_plotter.py] (the command-line
    program) and [plotter_gui.py] (the desktop front end).  Python strings
    are [string]s, Python floats are IEEE-754 values ([spec_float]), the
    file system, the console and the drawing library are threaded through
    an explicit [World], and the calls into sympy, numpy and matplotlib are
    parameters of the model ([Lib]): every theorem holds whatever those
    libraries answer. *)

From Stdlib Require Import String Ascii List ZArith NArith Lia Bool Arith
     FinFun.
From Stdlib Require Import DecimalString DecimalNat.
From Stdlib Require Import Floats.SpecFloat.
Import ListNotations.
Open Scope string_scope.

(** ** Python string primitives *)

Module PyStr.

(** [str.replace(old, new)] for a non-empty [old]: scan from the left, and
    at every position where [old] starts emit [new] and jump over the
    occurrence ([skip] counts the characters of it still to jump). *)
Fixpoint replace_from (old new : string) (skip : nat) (s : string) : string :=
  match s with
  | EmptyString => EmptyString
  | String c s' =>
      match skip with
      | S k => replace_from old new k s'
      | O =>
          if prefix old s
          then new ++ replace_from old new (String.length old - 1) s'
          else String c (replace_from old new 0 s')
      end
  end.

Definition replace (old new s : string) : string := replace_from old new 0 s.

(** [sub in s] *)
Fixpoint contains (sub s : string) : bool :=
  prefix sub s ||
  match s with
  | EmptyString => false
  | String _ s' => contains sub s'
  end.

(** [s.endswith(suf)] *)
Definition endswith (s suf : string) : bool :=
  Nat.leb (String.length suf) (String.length s) &&
  String.eqb
    (substring (String.length s - String.length suf) (String.length suf) s)
    suf.

(** [s.split(sep)] for a one-character separator: every occurrence cuts. *)
Fixpoint split (sep : ascii) (s : string) : list string :=
  match s with
  | EmptyString => [EmptyString]
  | String c s' =>
      if Ascii.eqb c sep then EmptyString :: split sep s'
      else match split sep s' with
           | h :: t => String c h :: t
           | [] => [String c EmptyString]
           end
  end.

(** [s.rfind(ch)] for a class of characters: the highest index holding one,
    [-1] when there is none. *)
Fixpoint rfind (is_ch : ascii -> bool) (s : string) : Z :=
  match s with
  | EmptyString => (-1)%Z
  | String c s' =>
      let r := rfind is_ch s' in
      if (0 <=? r)%Z then (r + 1)%Z
      else if is_ch c then 0%Z else (-1)%Z
  end.

(** slices [s[:i]] and [s[i:]] for [0 <= i] *)
Definition slice_to (s : string) (i : Z) : string :=
  substring 0 (Z.to_nat i) s.

Definition slice_from (s : string) (i : Z) : string :=
  substring (Z.to_nat i) (String.length s - Z.to_nat i) s.

(** [str(n)] / [f"{n}"] for a non-negative integer *)
Definition str_of_nat (n : nat) : string :=
  NilEmpty.string_of_uint (Nat.to_uint n).

(** ASCII white space, as [str.strip()] removes it *)
Definition is_space (c : ascii) : bool :=
  let n := nat_of_ascii c in
  ((n =? 32) || ((9 <=? n) && (n <=? 13)) || ((28 <=? n) && (n <=? 31)))%nat.

Fixpoint lstrip (s : string) : string :=
  match s with
  | EmptyString => EmptyString
  | String c s' => if is_space c then lstrip s' else s
  end.

Fixpoint rstrip (s : string) : string :=
  match s with
  | EmptyString => EmptyString
  | String c s' =>
      match rstrip s' with
      | EmptyString => if is_space c then EmptyString else String c EmptyString
      | r => String c r
      end
  end.

Definition strip (s : string) : string := rstrip (lstrip s).

End PyStr.

(** ** [os.path] *)

Module OsPath.

Definition is_sep (c : ascii) : bool := Ascii.eqb c "/".
Definition is_extsep (c : ascii) : bool := Ascii.eqb c ".".

(** The scan of [genericpath._splitext] over the leading dots of the last
    component: [n] positions are left before [dotIndex]. *)
Fixpoint skip_leading_dots (p : string) (filenameIndex : Z) (n : nat) : bool :=
  match n with
  | O => false
  | S n' =>
      match get (Z.to_nat filenameIndex) p with
      | Some c =>
          if is_extsep c then skip_leading_dots p (filenameIndex + 1) n'
          else true
      | None => true
      end
  end.

(** [os.path.splitext] (POSIX flavour: separator [/], extension mark [.]).
    The extension starts at the last dot of the last component, unless
    only dots precede it there. *)
Definition splitext (p : string) : string * string :=
  let sepIndex := PyStr.rfind is_sep p in
  let dotIndex := PyStr.rfind is_extsep p in
  if (sepIndex <? dotIndex)%Z
     && skip_leading_dots p (sepIndex + 1) (Z.to_nat (dotIndex - (sepIndex + 1)))
  then (PyStr.slice_to p dotIndex, PyStr.slice_from p dotIndex)
  else (p, EmptyString).

End OsPath.

(** ** Safe output names: [get_safe_filename] *)

Section SafeFilename.

(** [os.path.exists], the one capability the resolution needs *)
Variable path_exists : string -> bool.

(** the body of the [while] loop builds this name from [counter] *)
Definition candidate (base_filename : string) (counter : nat) : string :=
  let (name, ext) := OsPath.splitext base_filename in
  name ++ "_" ++ PyStr.str_of_nat counter ++ ext.

(** [while os.path.exists(final_filename): ...], at most [fuel] tests *)
Fixpoint safe_loop (fuel : nat) (base_filename : string)
         (counter : nat) (final_filename : string) : option string :=
  match fuel with
  | O => None
  | S fuel' =>
      if path_exists final_filename
      then safe_loop fuel' base_filename (S counter)
                     (candidate base_filename counter)
      else Some final_filename
  end.

(** the two assignments before the loop *)
Definition with_extension (base_filename format : string) : string :=
  let base_filename :=
    if String.eqb base_filename "" then "output" else base_filename in
  if negb (PyStr.endswith base_filename ("." ++ format))
  then base_filename ++ "." ++ format
  else base_filename.

Definition get_safe_filename (fuel : nat) (base_filename format : string)
  : option string :=
  let base_filename := with_extension base_filename format in
  safe_loop fuel base_filename 1 base_filename.

End SafeFilename.

(** ** Exceptions, outcomes and the world *)

(** What the libraries and the program raise: subclasses of [Exception].
    [ValueError] is kept apart because [main] handles it on its own. *)
Inductive exception :=
| ValueError (msg : string)
| OtherError (msg : string).

Definition str_of_exception (e : exception) : string :=
  match e with ValueError m => m | OtherError m => m end.

(** What can travel up the stack: an [Exception], or the interrupt that
    [input()] receives on Ctrl-C (a [BaseException]). *)
Inductive raised :=
| Exc (e : exception)
| KeyboardInterrupt.

Inductive outcome (A : Type) :=
| Ok (a : A)
| Raise (r : raised)
| Diverge.
Arguments Ok {A} a.
Arguments Raise {A} r.
Arguments Diverge {A}.

(** calls of [matplotlib.pyplot] (and of a figure or axes object) *)
Inductive plt_call (nd : Type) :=
| Figure (width height : nat)
| Plot (x_vals y_vals : nd) (color label : string)
| Contour (X Y Z : nd)
| Grid
| Xlabel (s : string)
| Ylabel (s : string)
| Title (s : string)
| Legend (loc : string) (anchored_outside : bool)
| Axhline
| Axvline
| TightLayout
| Close.
Arguments Figure {nd}.
Arguments Plot {nd}.
Arguments Contour {nd}.
Arguments Grid {nd}.
Arguments Xlabel {nd}.
Arguments Ylabel {nd}.
Arguments Title {nd}.
Arguments Legend {nd}.
Arguments Axhline {nd}.
Arguments Axvline {nd}.
Arguments TightLayout {nd}.
Arguments Close {nd}.

(** what the program does to the outside, in order *)
Inductive action (nd : Type) :=
| Print (s : string)
| Prompt (s : string)
| Linspace (start stop : spec_float) (num : nat)
| Meshgrid (x_vals y_vals : nd)
| Evaluate (args : list nd)
| Plt (c : plt_call nd)
| Savefig (filename format : string).
Arguments Print {nd}.
Arguments Prompt {nd}.
Arguments Linspace {nd}.
Arguments Meshgrid {nd}.
Arguments Evaluate {nd}.
Arguments Plt {nd}.
Arguments Savefig {nd}.

(** The libraries the program calls.  Nothing is assumed of them: each is
    a parameter that may answer or raise. *)
Record Lib := {
  Expr : Type;
  ndarray : Type;
  callable : Type;
  (* sympy *)
  sympify : string -> exception + Expr;
  sub : Expr -> Expr -> exception + Expr;
  Eq_ : Expr -> Expr -> exception + Expr;
  zero : Expr;
  latex : Expr -> exception + string;
  str_of_expr : Expr -> string;
  lambdify : list string -> Expr -> exception + callable;
  (* numpy *)
  linspace : spec_float -> spec_float -> nat -> exception + ndarray;
  meshgrid : ndarray -> ndarray -> exception + (ndarray * ndarray);
  apply_callable : callable -> list ndarray -> exception + ndarray;
  (* matplotlib: what a call raises, given all that happened before *)
  plt_raises : list (action ndarray) -> plt_call ndarray -> option exception;
  savefig_raises :
    list (action ndarray) -> string -> string -> option exception;
  (* builtins *)
  hash : string -> Z;
  float_of_string : string -> exception + spec_float
}.

(** a line typed at the console, or Ctrl-C *)
Inductive stdin_item :=
| Line (s : string)
| Interrupt.

Record World (nd : Type) := mkWorld {
  files : list string;
  stdin : list stdin_item;
  trace : list (action nd)
}.
Arguments mkWorld {nd}.
Arguments files {nd}.
Arguments stdin {nd}.
Arguments trace {nd}.

Definition file_exists {nd} (w : World nd) (p : string) : bool :=
  existsb (String.eqb p) (files w).

(** ** The state-and-exception monad of the program *)

Definition M (nd A : Type) : Type := World nd -> outcome A * World nd.

Definition ret {nd A} (a : A) : M nd A := fun w => (Ok a, w).

Definition bind {nd A B} (m : M nd A) (k : A -> M nd B) : M nd B :=
  fun w =>
    match m w with
    | (Ok a, w') => k a w'
    | (Raise r, w') => (Raise r, w')
    | (Diverge, w') => (Diverge, w')
    end.

Definition raise {nd A} (e : exception) : M nd A := fun w => (Raise (Exc e), w).

Declare Scope py_scope.
Delimit Scope py_scope with py.
Notation "x <- m ;; k" := (bind m (fun x => k))
  (at level 100, m at next level, right associativity) : py_scope.
Notation "m ;;; k" := (bind m (fun _ => k))
  (at level 100, right associativity) : py_scope.
Open Scope py_scope.

Definition log {nd} (a : action nd) : M nd unit :=
  fun w => (Ok tt, mkWorld (files w) (stdin w) (trace w ++ [a])%list).

(** a library answer becomes a result or an exception of the program *)
Definition call {nd A} (r : exception + A) : M nd A :=
  match r with
  | inr a => ret a
  | inl e => raise e
  end.

(** [try: body  except Exception as e: handler(e)] *)
Definition try_except_Exception {nd A}
           (body : M nd A) (handler : exception -> M nd A) : M nd A :=
  fun w =>
    match body w with
    | (Raise (Exc e), w') => handler e w'
    | r => r
    end.

Definition print {nd} (s : string) : M nd unit := log (Print s).

(** [input(prompt)]: the prompt is written, one line is consumed; at the
    end of the input [EOFError] is raised. *)
Definition input {nd} (prompt : string) : M nd string :=
  fun w =>
    let w1 := mkWorld (files w) (stdin w) (trace w ++ [Prompt prompt])%list in
    match stdin w with
    | [] => (Raise (Exc (OtherError "EOF when reading a line")), w1)
    | Line s :: rest => (Ok s, mkWorld (files w) rest (trace w1))
    | Interrupt :: rest =>
        (Raise KeyboardInterrupt, mkWorld (files w) rest (trace w1))
    end.

(** the line feed of the messages *)
Definition LF : string := String (ascii_of_nat 10) EmptyString.

(** ** Operations shared by the two programs *)

Section Shared.

Variable L : Lib.
Local Abbreviation nd := (ndarray L).
Local Abbreviation Py := (M (ndarray L)).

(** [try: body  except: handler] (the bare form catches everything) *)
Definition try_except_all {A} (body : Py A) (handler : Py A) : Py A :=
  fun w =>
    match body w with
    | (Raise _, w') => handler w'
    | r => r
    end.

Definition plt (c : plt_call nd) : Py unit :=
  fun w =>
    let w' := mkWorld (files w) (stdin w) (trace w ++ [Plt c])%list in
    match plt_raises L (trace w) c with
    | Some e => (Raise (Exc e), w')
    | None => (Ok tt, w')
    end.

(** [savefig(filename, format=format, ...)]: a write that succeeds leaves
    the file behind, one that raises leaves the files as they were. *)
Definition savefig (filename format : string) : Py unit :=
  fun w =>
    let t := (trace w ++ [Savefig filename format])%list in
    match savefig_raises L (trace w) filename format with
    | Some e => (Raise (Exc e), mkWorld (files w) (stdin w) t)
    | None => (Ok tt, mkWorld (filename :: files w) (stdin w) t)
    end.

Definition np_linspace (start stop : spec_float) (num : nat) : Py nd :=
  log (Linspace start stop num) ;;; call (linspace L start stop num).

Definition np_meshgrid (x_vals y_vals : nd) : Py (nd * nd) :=
  log (Meshgrid x_vals y_vals) ;;; call (meshgrid L x_vals y_vals).

Definition evaluate (f : callable L) (args : list nd) : Py nd :=
  log (Evaluate args) ;;; call (apply_callable L f args).

(** the three [replace] calls of [clean_latex_expression] *)
Definition sanitize (tex : string) : string :=
  let tex := PyStr.replace "$" "" tex in
  PyStr.replace "\right" "" (PyStr.replace "\left" "" tex).

(** [left, right = equation_str.split('=')] *)
Definition unpack2 (parts : list string) : Py (string * string) :=
  match parts with
  | [left_; right_] => ret (left_, right_)
  | [] | [_] =>
      raise (ValueError "not enough values to unpack (expected 2)")
  | _ => raise (ValueError "too many values to unpack (expected 2)")
  end.

(** The parsing of an equation, the same lines in [plot_equation] and in
    [plot_equation_gui_preview]: the result is [(equation_str, eq, expr)]
    with [equation_str] normalised. *)
Definition parse_equation (equation_str : string)
  : Py (string * Expr L * Expr L) :=
  let equation_str := PyStr.replace "^" "**" equation_str in
  if PyStr.contains "=" equation_str then
    lr <- unpack2 (PyStr.split "=" equation_str) ;;
    let (left_, right_) := (lr : string * string) in
    l1 <- call (sympify L left_) ;;
    r1 <- call (sympify L right_) ;;
    eq <- call (Eq_ L l1 r1) ;;
    l2 <- call (sympify L left_) ;;
    r2 <- call (sympify L right_) ;;
    expr <- call (sub L l2 r2) ;;
    ret (equation_str, eq, expr)
  else
    e1 <- call (sympify L equation_str) ;;
    eq <- call (Eq_ L e1 (zero L)) ;;
    expr <- call (sympify L equation_str) ;;
    ret (equation_str, eq, expr).

(** [get_safe_filename] run against the files of the world; the loop
    cannot need more tests than there are files, plus one. *)
Definition get_safe_filename_io (base_filename format : string)
  : Py string :=
  fun w =>
    match get_safe_filename (file_exists w) (S (List.length (files w)))
                            base_filename format with
    | Some final_filename => (Ok final_filename, w)
    | None => (Diverge, w)
    end.

End Shared.

(** ** [function_plotter.py] *)

Module FunctionPlotter.
Section Program.

Variable L : Lib.
Local Abbreviation nd := (ndarray L).
Local Abbreviation Py := (M (ndarray L)).

Definition validate_function (func_str : string) : Py string :=
  try_except_all L
    (let func_str := PyStr.replace "^" "**" func_str in
     _ <- call (sympify L func_str) ;;
     ret func_str)
    (raise (ValueError "Invalid function expression")).

Definition clean_latex_expression (expr : Expr L) : Py string :=
  try_except_Exception
    (tex <- call (latex L expr) ;;
     ret (sanitize tex))
    (fun e =>
       print ("Warning: LaTeX conversion failed: " ++ str_of_exception e) ;;;
       ret (str_of_expr L expr)).

Definition format_text (text : string) (math for_legend : bool) : string :=
  if math && for_legend
  then "$" ++ PyStr.replace "$" "" text ++ "$"
  else text.

(** [f"output_{hash(s) % 10000}.{format}"] *)
Definition default_filename (s format : string) : string :=
  "output_" ++ PyStr.str_of_nat (Z.to_nat (hash L s mod 10000))
            ++ "." ++ format.

(** the inner [try] of both plot functions: the write, then the one
    fallback *)
Definition save_with_fallback (input_str filename format : string)
  : Py string :=
  try_except_Exception
    (savefig L filename format ;;; ret filename)
    (fun e =>
       print ("Error saving file: " ++ str_of_exception e) ;;;
       let default_filename := default_filename input_str format in
       print ("Attempting to save as " ++ default_filename) ;;;
       savefig L default_filename format ;;;
       ret default_filename).

(** the [try] block of [plot_function] *)
Definition plot_function_body (func_str : string) (x_min x_max : spec_float)
           (filename format : string) : Py bool :=
  expr <- call (sympify L func_str) ;;
  f <- call (lambdify L ["x"] expr) ;;
  x_vals <- np_linspace L x_min x_max 1000 ;;
  y_vals <- evaluate L f [x_vals] ;;
  tex_expr <- clean_latex_expression expr ;;
  let legend_label := "$f(x) = " ++ tex_expr ++ "$" in
  plt L (Figure 10 6) ;;;
  plt L (Plot x_vals y_vals "b-" legend_label) ;;;
  plt L Grid ;;;
  plt L (Xlabel "$x$") ;;;
  plt L (Ylabel "$f(x)$") ;;;
  plt L (Title ("$f(x) = " ++ tex_expr ++ "$")) ;;;
  (if Nat.ltb 30 (String.length tex_expr)
   then plt L (Legend "upper left" true)
   else plt L (Legend "best" false)) ;;;
  plt L Axhline ;;;
  plt L Axvline ;;;
  plt L TightLayout ;;;
  _ <- save_with_fallback func_str filename format ;;
  plt L Close ;;;
  ret true.

Definition plot_function (func_str : string) (x_min x_max : spec_float)
           (filename format : string) : Py bool :=
  try_except_Exception
    (plot_function_body func_str x_min x_max filename format)
    (fun e =>
       print ("Error plotting function: " ++ str_of_exception e) ;;;
       ret false).

(** the [try] block of [plot_equation] *)
Definition plot_equation_body (equation_str : string)
           (x_min x_max y_min y_max : spec_float)
           (filename format : string) : Py bool :=
  parsed <- parse_equation L equation_str ;;
  let '(equation_str, eq, expr) :=
    (parsed : string * Expr L * Expr L) in
  tex_expr <- clean_latex_expression eq ;;
  x_vals <- np_linspace L x_min x_max 400 ;;
  y_vals <- np_linspace L y_min y_max 400 ;;
  XY <- np_meshgrid L x_vals y_vals ;;
  let (X, Y) := (XY : nd * nd) in
  f_lambdified <- call (lambdify L ["x"; "y"] expr) ;;
  Z <- evaluate L f_lambdified [X; Y] ;;
  plt L (Figure 8 8) ;;;
  plt L (Contour X Y Z) ;;;
  plt L Grid ;;;
  plt L (Xlabel "$x$") ;;;
  plt L (Ylabel "$y$") ;;;
  raw <- call (latex L eq) ;;
  plt L (Title ("$" ++ raw ++ "$")) ;;;
  plt L TightLayout ;;;
  _ <- save_with_fallback equation_str filename format ;;
  plt L Close ;;;
  ret true.

Definition plot_equation (equation_str : string)
           (x_min x_max y_min y_max : spec_float)
           (filename format : string) : Py bool :=
  try_except_Exception
    (plot_equation_body equation_str x_min x_max y_min y_max
                        filename format)
    (fun e =>
       print ("Error plotting equation: " ++ str_of_exception e) ;;;
       ret false).

(** [get_output_format]: every turn of its loop reads one line, so the
    lines left on the input bound the turns. *)
Fixpoint get_output_format_loop (fuel : nat) : Py string :=
  match fuel with
  | O => fun w => (Diverge, w)
  | S fuel' =>
      print (LF ++ "Choose output format:") ;;;
      print "1. SVG" ;;;
      print "2. PDF" ;;;
      choice <- input "Enter your choice (1 or 2): " ;;
      let choice := PyStr.strip choice in
      if String.eqb choice "1" then ret "svg"
      else if String.eqb choice "2" then ret "pdf"
      else
        print "Invalid choice. Please enter 1 for SVG or 2 for PDF." ;;;
        get_output_format_loop fuel'
  end.

Definition get_output_format : Py string :=
  fun w => get_output_format_loop (S (List.length (stdin w))) w.

(** [float(input(prompt))] *)
Definition input_float (prompt : string) : Py spec_float :=
  s <- input prompt ;;
  call (float_of_string L s).

(** [x_min >= x_max] on floats *)
Definition float_ge (a b : spec_float) : bool := SFleb b a.

Definition ask_filename (format : string) : Py string :=
  filename <- input ("Enter output filename (default: output." ++ format
                                              ++ "): ") ;;
  get_safe_filename_io L (PyStr.strip filename) format.

(** The [try] block inside the loop of [main]; the result says whether
    the loop is left ([break]) or goes round again ([continue]). *)
Definition main_try : Py bool :=
  plot_type <- input "Enter 1 for function, 2 for equation: " ;;
  let plot_type := PyStr.strip plot_type in
  if negb (String.eqb plot_type "1" || String.eqb plot_type "2") then
    print ("Invalid choice. Please enter 1 or 2." ++ LF) ;;;
    ret false
  else if String.eqb plot_type "1" then
    func_str <- input "Enter function f(x) = " ;;
    func_str <- validate_function func_str ;;
    x_min <- input_float "Enter minimum x value: " ;;
    x_max <- input_float "Enter maximum x value: " ;;
    if float_ge x_min x_max then
      raise (ValueError "Minimum x value must be less than maximum x value")
    else
      format <- get_output_format ;;
      filename <- ask_filename format ;;
      ok <- plot_function func_str x_min x_max filename format ;;
      (if (ok : bool)
       then print (LF ++ "Function plotted successfully and saved as '"
                      ++ filename ++ "'")
       else ret tt) ;;;
      ret true
  else
    equation_str <- input "Enter equation in x and y (e.g., x^2 + y^2 = 1): " ;;
    x_min <- input_float "Enter minimum x value: " ;;
    x_max <- input_float "Enter maximum x value: " ;;
    y_min <- input_float "Enter minimum y value: " ;;
    y_max <- input_float "Enter maximum y value: " ;;
    if float_ge x_min x_max || float_ge y_min y_max then
      raise (ValueError "Minimum values must be less than maximum values")
    else
      format <- get_output_format ;;
      filename <- ask_filename format ;;
      ok <- plot_equation equation_str x_min x_max y_min y_max
                          filename format ;;
      (if (ok : bool)
       then print (LF ++ "Equation plotted successfully and saved as '"
                      ++ filename ++ "'")
       else ret tt) ;;;
      ret true.

(** one turn of the [while True] loop, with its three handlers *)
Definition main_iteration : Py bool :=
  fun w =>
    match main_try w with
    | (Raise (Exc (ValueError msg)), w') =>
        (print (LF ++ "Error: " ++ msg) ;;;
         print ("Please try again." ++ LF) ;;;
         ret false) w'
    | (Raise KeyboardInterrupt, w') =>
        (print (LF ++ "Exiting...") ;;; ret true) w'
    | (Raise (Exc (OtherError msg)), w') =>
        (print (LF ++ "Unexpected error: " ++ msg) ;;;
         print ("Please try again." ++ LF) ;;;
         ret false) w'
    | r => r
    end.

Fixpoint main_loop (fuel : nat) : Py unit :=
  match fuel with
  | O => fun w => (Diverge, w)
  | S fuel' =>
      leave <- main_iteration ;;
      if (leave : bool) then ret tt else main_loop fuel'
  end.

Definition main (fuel : nat) : Py unit :=
  print "Function Plotter - SVG/PDF Export (True LaTeX Rendering)" ;;;
  print "--------------------------------------------------------" ;;;
  print "Would you like to plot a function y = f(x) or an equation F(x, y) = 0?" ;;;
  print "1. Function (y = f(x))" ;;;
  print "2. Equation (F(x, y) = 0)" ;;;
  main_loop fuel.

End Program.
End FunctionPlotter.

(** ** [plotter_gui.py] *)

Module PlotterGui.
Section Program.

Variable L : Lib.
Local Abbreviation nd := (ndarray L).
Local Abbreviation Py := (M (ndarray L)).

Definition clean_latex_expression (expr : Expr L) : Py string :=
  try_except_Exception
    (tex <- call (latex L expr) ;;
     ret (sanitize tex))
    (fun _ => ret (str_of_expr L expr)).

(** the figure is built by the calls on the trace; the function raises
    what the libraries raise *)
Definition plot_function_gui (func_str : string) (x_min x_max : spec_float)
           (color legend_loc : string) : Py unit :=
  expr <- call (sympify L (PyStr.replace "^" "**" func_str)) ;;
  f <- call (lambdify L ["x"] expr) ;;
  x_vals <- np_linspace L x_min x_max 1000 ;;
  y_vals <- evaluate L f [x_vals] ;;
  tex_expr <- clean_latex_expression expr ;;
  let legend_label := "$f(x) = " ++ tex_expr ++ "$" in
  plt L (Figure 7 4) ;;;
  plt L (Plot x_vals y_vals color legend_label) ;;;
  plt L Grid ;;;
  plt L (Xlabel "$x$") ;;;
  plt L (Ylabel "$f(x)$") ;;;
  plt L (Title ("$f(x) = " ++ tex_expr ++ "$")) ;;;
  (if String.eqb legend_loc "auto" then
     if Nat.ltb 30 (String.length tex_expr)
     then plt L (Legend "upper left" true)
     else plt L (Legend "best" false)
   else plt L (Legend legend_loc false)) ;;;
  plt L Axhline ;;;
  plt L Axvline ;;;
  plt L TightLayout.

Definition plot_equation_gui_preview (equation_str : string)
           (x_min x_max y_min y_max : spec_float) : Py unit :=
  parsed <- parse_equation L equation_str ;;
  let '(equation_str, eq, expr) :=
    (parsed : string * Expr L * Expr L) in
  tex_expr <- clean_latex_expression eq ;;
  x_vals <- np_linspace L x_min x_max 400 ;;
  y_vals <- np_linspace L y_min y_max 400 ;;
  XY <- np_meshgrid L x_vals y_vals ;;
  let (X, Y) := (XY : nd * nd) in
  f_lambdified <- call (lambdify L ["x"; "y"] expr) ;;
  Z <- evaluate L f_lambdified [X; Y] ;;
  plt L (Figure 6 6) ;;;
  plt L (Contour X Y Z) ;;;
  plt L Grid ;;;
  plt L (Xlabel "$x$") ;;;
  plt L (Ylabel "$y$") ;;;
  raw <- call (latex L eq) ;;
  plt L (Title ("$" ++ raw ++ "$")) ;;;
  plt L TightLayout.

Definition export_current_figure (filename format_ : string)
  : Py (bool * string) :=
  try_except_Exception
    (savefig L filename format_ ;;;
     ret (true, "Plot exported as '" ++ filename ++ "'"))
    (fun e => ret (false, "Error exporting plot: " ++ str_of_exception e)).

(** [export_function_plot] and [export_equation_plot]: the handler of the
    Export button, given whether a figure is there and what the format
    and file name widgets hold; the result is the status line. *)
Definition export_plot (has_fig : bool) (format_ filename : string)
  : Py (bool * string) :=
  if has_fig then
    filename <- get_safe_filename_io L (PyStr.strip filename) format_ ;;
    export_current_figure filename format_
  else ret (false, "No plot to export.").

End Program.
End PlotterGui.

(** ** A stand-in library, to run the model on concrete inputs

    Expressions are kept as the text they were parsed from, arrays by their
    shape only.  The parser refuses an empty text and a doubled power
    operator; [latex] answers for the equality of [(x+y)**2] and [1] what
    sympy prints for it; writes under [/readonly/] fail. *)

Module Toy.

Inductive expr :=
| Parsed (s : string)
| Minus (a b : expr)
| Equality (a b : expr)
| Zero.

Fixpoint str (e : expr) : string :=
  match e with
  | Parsed s => s
  | Minus a b => str a ++ " - (" ++ str b ++ ")"
  | Equality a b => "Eq(" ++ str a ++ ", " ++ str b ++ ")"
  | Zero => "0"
  end.

Definition parse (s : string) : exception + expr :=
  if String.eqb (PyStr.strip s) "" || PyStr.contains "****" s
  then inl (ValueError ("could not parse '" ++ s ++ "'"))
  else inr (Parsed (PyStr.strip s)).

Definition typeset (e : expr) : exception + string :=
  match e with
  | Equality (Parsed "(x+y)**2") (Parsed "1") =>
      inr "\left(x + y\right)^{2} = 1"
  | Equality a b => inr (str a ++ " = " ++ str b)
  | _ => inr (str e)
  end.

Definition one : spec_float := S754_finite false 4503599627370496 (-52).
Definition two : spec_float := S754_finite false 4503599627370496 (-51).
Definition minus_two : spec_float := S754_finite true 4503599627370496 (-51).

Definition to_float (s : string) : exception + spec_float :=
  let t := PyStr.strip s in
  if String.eqb t "0" then inr (S754_zero false)
  else if String.eqb t "1" then inr one
  else if String.eqb t "2" then inr two
  else if String.eqb t "-2" then inr minus_two
  else if String.eqb t "nan" then inr S754_nan
  else inl (ValueError ("could not convert string to float: '" ++ s ++ "'")).

Definition write_fails (filename : string) : option exception :=
  if prefix "/readonly/" filename
  then Some (OtherError ("Permission denied: '" ++ filename ++ "'"))
  else None.

Definition lib : Lib := {|
  Expr := expr;
  ndarray := list nat;
  callable := expr;
  sympify := parse;
  sub := fun a b => inr (Minus a b);
  Eq_ := fun a b => inr (Equality a b);
  zero := Zero;
  latex := typeset;
  str_of_expr := str;
  lambdify := fun _ e => inr e;
  linspace := fun _ _ num => inr [num];
  meshgrid := fun xs ys => inr ((ys ++ xs)%list, (ys ++ xs)%list);
  apply_callable := fun _ args => inr (List.hd [] args);
  plt_raises := fun _ _ => None;
  savefig_raises := fun _ filename _ => write_fails filename;
  hash := fun s => (Z.of_nat (String.length s) * 7919 - 12345)%Z;
  float_of_string := to_float
|}.

(** a world with the given files and console input, nothing done yet *)
Definition world (fs : list string) (lines : list string) : World (list nat) :=
  mkWorld fs (List.map Line lines) [].

End Toy.

(** ** Reference notions the statements compare the code with *)

(** [power_form s t]: [t] is [s] written with the power operator [**] of
    the parser wherever [s] has [^]. *)
Inductive power_form : string -> string -> Prop :=
| power_form_nil : power_form "" ""
| power_form_caret s t :
    power_form s t -> power_form (String "^" s) (String "*" (String "*" t))
| power_form_char c s t :
    c <> "^"%char -> power_form s t -> power_form (String c s) (String c t).

(** the names [get_safe_filename] tests, in order: the base name itself,
    then the candidates with counter 1, 2, ... *)
Definition attempt (base_filename : string) (k : nat) : string :=
  match k with
  | O => base_filename
  | S _ => candidate base_filename k
  end.

(** the part of a path after its last [/] *)
Definition last_component (p : string) : string :=
  PyStr.slice_from p (PyStr.rfind OsPath.is_sep p + 1).

Fixpoint only_dots (s : string) : bool :=
  match s with
  | EmptyString => true
  | String c s' => OsPath.is_extsep c && only_dots s'
  end.

(** [ensures P m]: from every world, [m] either returns a value that
    satisfies [P] or raises an [Exception]; it neither lets an interrupt
    through nor runs for ever. *)
Definition ensures {nd A} (P : A -> Prop) (m : M nd A) : Prop :=
  forall w,
    match fst (m w) with
    | Ok a => P a
    | Raise (Exc _) => True
    | Raise KeyboardInterrupt => False
    | Diverge => False
    end.

(** What a trace holds of one kind: [sel] picks from each action. *)
Definition savefig_name {nd} (a : action nd) : list string :=
  match a with
  | Savefig filename _ => [filename]
  | _ => []
  end.

Definition title_text {nd} (a : action nd) : list string :=
  match a with
  | Plt (Title s) => [s]
  | _ => []
  end.

Definition beyond_console {nd} (a : action nd) : list (action nd) :=
  match a with
  | Print _ | Prompt _ => []
  | _ => [a]
  end.

Definition sampling {nd} (a : action nd) : list (action nd) :=
  match a with
  | Linspace _ _ _ | Meshgrid _ _ | Evaluate _ => [a]
  | _ => []
  end.

(** What an equation plot may ask of numpy, in order: the two ranges of 400
    points, the grid over them, the evaluation on the grid; a request that
    raises is the last one. *)
Definition grid_from_meshgrid (L : Lib) (x_vals y_vals : ndarray L)
           (xs : list (action (ndarray L))) : Prop :=
  xs = [Meshgrid x_vals y_vals] \/
  exists X Y,
    meshgrid L x_vals y_vals = inr (X, Y) /\
    xs = [Meshgrid x_vals y_vals; Evaluate [X; Y]].

Definition grid_from_y (L : Lib) (y_min y_max : spec_float)
           (x_vals : ndarray L) (xs : list (action (ndarray L))) : Prop :=
  xs = [Linspace y_min y_max 400] \/
  exists y_vals r,
    linspace L y_min y_max 400 = inr y_vals /\
    grid_from_meshgrid L x_vals y_vals r /\
    xs = Linspace y_min y_max 400 :: r.

Definition grid_requests (L : Lib) (x_min x_max y_min y_max : spec_float)
           (xs : list (action (ndarray L))) : Prop :=
  xs = [] \/
  xs = [Linspace x_min x_max 400] \/
  exists x_vals r,
    linspace L x_min x_max 400 = inr x_vals /\
    grid_from_y L y_min y_max x_vals r /\
    xs = Linspace x_min x_max 400 :: r.

(** the names written by [savefig] along a trace, in order *)
Definition written {nd} (t : list (action nd)) : list string :=
  flat_map savefig_name t.

(** the titles set along a trace *)
Definition titles {nd} (t : list (action nd)) : list string :=
  flat_map title_text t.

(** the actions of a trace that sample, draw or write; prompts and
    messages are left out *)
Definition work {nd} (t : list (action nd)) : list (action nd) :=
  flat_map beyond_console t.

(** [emits sel P m]: whatever [m] does, what it adds to the trace holds,
    of the kind [sel], a list that satisfies [P]. *)
Definition emits {nd A X} (sel : action nd -> list X) (P : list X -> Prop)
           (m : M nd A) : Prop :=
  forall w,
    exists xs,
      flat_map sel (trace (snd (m w))) = (flat_map sel (trace w) ++ xs)%list
      /\ P xs.

(** what one export may write: nothing, the name asked for, or that name
    and then the fallback name *)
Definition at_most_one_fallback (filename fallback : string)
           (ws : list string) : Prop :=
  ws = [] \/ ws = [filename] \/ ws = [filename; fallback].

(** what [clean_latex_expression] returns: the sanitised [latex], or
    [str(expr)] when [latex] raised *)
Definition cleaned (L : Lib) (expr : Expr L) (tex_expr : string) : Prop :=
  (exists tex, latex L expr = inr tex /\ tex_expr = sanitize tex) \/
  (exists e, latex L expr = inl e /\ tex_expr = str_of_expr L expr).

(** parts that add nothing of the kind *)
Definition quiet {nd A X} (sel : action nd -> list X) (m : M nd A) : Prop :=
  emits sel (fun xs => xs = []) m.

(** ** Start-up: [check_latex_dependencies]

    [which] stands for [shutil.which]: whether a program of that name is
    found on the path. *)

Module CliStartup.
Section Check.

Variable which : string -> bool.

Definition gs_names : list string := ["gs"; "gswin64c"; "gswin32c"].

(** the list [missing] after the three tests *)
Definition missing : list string :=
  let missing := [] in
  let missing :=
    if negb (which "latex") then (missing ++ ["latex"])%list else missing in
  let missing :=
    if negb (which "dvipng") then (missing ++ ["dvipng"])%list else missing in
  if negb (existsb which gs_names)
  then (missing ++ ["ghostscript (gs)"])%list
  else missing.

(** The lines printed, and the status of [sys.exit] when it is called. *)
Definition check_latex_dependencies : list string * option Z :=
  match missing with
  | [] => ([], None)
  | _ =>
      (List.app
         ["Error: The following required LaTeX dependencies are missing:"]
         (List.app
            (List.map (fun dep => "  - " ++ dep) missing)
            [LF ++ "Please install them to enable true LaTeX rendering."
                ++ LF]),
       Some 1%Z)
  end.

End Check.

(** what a list of [print] calls leaves on the standard output *)
Definition stdout_text (lines : list string) : string :=
  String.concat "" (List.map (fun l => l ++ LF) lines).

End CliStartup.

Module GuiStartup.
Section Check.

Variable which : string -> bool.

Definition gs_names : list string := ["gs"; "gswin64c"; "gswin32c"].

Definition missing : list string :=
  let missing := [] in
  let missing :=
    if negb (which "latex") then (missing ++ ["latex"])%list else missing in
  let missing :=
    if negb (which "dvipng") then (missing ++ ["dvipng"])%list else missing in
  if negb (existsb which gs_names)
  then (missing ++ ["ghostscript (gs)"])%list
  else missing.

Definition check_latex_dependencies : bool * string :=
  match missing with
  | [] => (true, "")
  | _ =>
      (false,
       "Error: The following required LaTeX dependencies are missing:" ++ LF
         ++ String.concat LF (List.map (fun dep => "  - " ++ dep) missing)
         ++ LF ++ LF
         ++ "Please install them to enable true LaTeX rendering." ++ LF)
  end.

End Check.
End GuiStartup.

(** ** Regular expressions, as far as [is_valid_hex_color] needs them *)

Module Re.

Inductive regex :=
| Empty
| Eps
| Chr (c : ascii)
| Class (ranges : list (ascii * ascii))
| Cat (a b : regex)
| Alt (a b : regex).

(** [r{n}] *)
Fixpoint times (n : nat) (r : regex) : regex :=
  match n with
  | O => Eps
  | S n' => Cat r (times n' r)
  end.

Definition in_range (c : ascii) (range : ascii * ascii) : bool :=
  (nat_of_ascii (fst range) <=? nat_of_ascii c)%nat
  && (nat_of_ascii c <=? nat_of_ascii (snd range))%nat.

Fixpoint nullable (r : regex) : bool :=
  match r with
  | Empty => false
  | Eps => true
  | Chr _ => false
  | Class _ => false
  | Cat a b => nullable a && nullable b
  | Alt a b => nullable a || nullable b
  end.

(** what is left of [r] after the character [c] *)
Fixpoint deriv (c : ascii) (r : regex) : regex :=
  match r with
  | Empty => Empty
  | Eps => Empty
  | Chr d => if Ascii.eqb c d then Eps else Empty
  | Class ranges => if existsb (in_range c) ranges then Eps else Empty
  | Cat a b =>
      if nullable a
      then Alt (Cat (deriv c a) b) (deriv c b)
      else Cat (deriv c a) b
  | Alt a b => Alt (deriv c a) (deriv c b)
  end.

(** [re.fullmatch(r, s)] as a truth value *)
Fixpoint fullmatch (r : regex) (s : string) : bool :=
  match s with
  | EmptyString => nullable r
  | String c s' => fullmatch (deriv c r) s'
  end.

End Re.

Module Colour.

(** [r"#([0-9a-fA-F]{6})"] *)
Definition hex_color_re : Re.regex :=
  Re.Cat (Re.Chr "#")
         (Re.times 6 (Re.Class [("0", "9"); ("a", "f"); ("A", "F")]%char)).

Definition is_valid_hex_color (s : string) : bool :=
  Re.fullmatch hex_color_re (PyStr.strip s).

(** a hexadecimal digit, either case *)
Definition is_hex_digit (c : ascii) : bool :=
  let n := nat_of_ascii c in
  ((48 <=? n) && (n <=? 57) || (97 <=? n) && (n <=? 102)
   || (65 <=? n) && (n <=? 70))%nat.

End Colour.

(** ** Notions for the further properties *)

(** [steps R m]: every run of [m] takes a world to one related to it by
    [R], however the run ends. *)
Definition steps {nd A} (R : World nd -> World nd -> Prop) (m : M nd A)
  : Prop :=
  forall w, R w (snd (m w)).

(** [halts m]: no run of [m] goes on for ever. *)
Definition halts {nd A} (m : M nd A) : Prop :=
  forall w, fst (m w) <> Diverge.

(** [hoare P m Q E]: from a world in [P], a run of [m] that returns ends in
    [Q], one that raises ends in [E]. *)
Definition hoare {nd A} (P : World nd -> Prop) (m : M nd A)
           (Q : A -> World nd -> Prop) (E : raised -> World nd -> Prop)
  : Prop :=
  forall w,
    P w ->
    match m w with
    | (Ok a, w') => Q a w'
    | (Raise r, w') => E r w'
    | (Diverge, _) => True
    end.

Definition console_text {nd} (a : action nd) : list (action nd) :=
  match a with
  | Print _ | Prompt _ => [a]
  | _ => []
  end.

(** the prompts and messages of a trace *)
Definition console {nd} (t : list (action nd)) : list (action nd) :=
  flat_map console_text t.

(** nothing was written and the files are the same *)
Definition disk_untouched {nd} (w w' : World nd) : Prop :=
  files w' = files w /\ written (trace w') = written (trace w).


(** nothing written, nothing read, nothing said *)
Definition only_computes {nd} (w w' : World nd) : Prop :=
  files w' = files w /\
  written (trace w') = written (trace w) /\
  stdin w' = stdin w /\
  console (trace w') = console (trace w).

(** the names written from a world on: none, or first a name that did not
    exist in that world and then at most one more *)
Definition first_write_fresh {nd} (w : World nd) (ws : list string) : Prop :=
  ws = [] \/
  exists r rest,
    ws = r :: rest /\ file_exists w r = false /\ List.length rest <= 1.

(** what has been written since the world [w0]: nothing, or first a name
    that did not exist in [w0] *)
Definition wrote_since {nd} (w0 w : World nd) : Prop :=
  exists ws,
    written (trace w) = (written (trace w0) ++ ws)%list /\
    first_write_fresh w0 ws.

(** a line that [get_output_format] does not take for an answer *)
Definition other_choice (line : string) : bool :=
  negb (String.eqb (PyStr.strip line) "1")
  && negb (String.eqb (PyStr.strip line) "2").

(** what one turn of [get_output_format] shows before it reads *)
Definition format_menu {nd} : list (action nd) :=
  [Print (LF ++ "Choose output format:");
   Print "1. SVG";
   Print "2. PDF";
   Prompt "Enter your choice (1 or 2): "].

(** what the turns spent on the lines [bad] leave on the trace *)
Definition refused_turns {nd} (bad : list string) : list (action nd) :=
  flat_map
    (fun _ =>
       (format_menu
          ++ [Print "Invalid choice. Please enter 1 for SVG or 2 for PDF."])%list)
    bad.

(** ** The window of [plotter_gui.py]: colours, handlers, sessions *)

Module PlotterGUI.

(** the figure object a preview function returned, named by the call that
    made it *)
Inductive figure :=
| FunctionFigure (func_str : string) (x_min x_max : spec_float)
                 (color legend_loc : string)
| EquationFigure (equation_str : string)
                 (x_min x_max y_min y_max : spec_float).

(** What the handlers of one tab read and write of [self]: the status
    label (text and foreground), whether the Export button is in state
    [normal], the canvas attribute (the figure it was made for) and the
    figure attribute. *)
Record Tab := mkTab {
  status : string * string;
  export_btn : bool;
  canvas : option figure;
  fig : option figure
}.

(** the attributes as [create_function_tab] and [create_equation_tab]
    leave them *)
Definition new_tab : Tab := mkTab ("", "blue") false None None.

Record Gui := mkGui {
  func_tab : Tab;
  eqn_tab : Tab
}.

(** *** [%02x] *)

Definition hex_digit (d : N) : ascii :=
  if (d <? 10)%N then ascii_of_N (48 + d) else ascii_of_N (87 + d).

Fixpoint hex_loop (fuel : nat) (n : N) (acc : string) : string :=
  match fuel with
  | O => acc
  | S fuel' =>
      let acc := String (hex_digit (n mod 16)) acc in
      if (n / 16 =? 0)%N then acc else hex_loop fuel' (n / 16) acc
  end.

(** the digits of [n] in base 16, lower case; a number has no more digits
    than bits *)
Definition hex (n : N) : string := hex_loop (S (N.size_nat n)) n "".

Fixpoint zeros (k : nat) : string :=
  match k with
  | O => ""
  | S k' => String "0" (zeros k')
  end.

(** ['%02x' % n]: the sign, then the digits filled with zeros up to two
    characters in all *)
Definition format_02x (n : Z) : string :=
  let digits := hex (Z.abs_N n) in
  if (n <? 0)%Z
  then "-" ++ zeros (2 - 1 - String.length digits) ++ digits
  else zeros (2 - String.length digits) ++ digits.

(** ['#%02x%02x%02x' % rgb] *)
Definition format_rgb (rgb : Z * Z * Z) : string :=
  let '(r, g, b) := rgb in
  "#" ++ format_02x r ++ format_02x g ++ format_02x b.

Section Handlers.

Variable L : Lib.
Local Abbreviation nd := (ndarray L).

(** [shutil.which] at start-up, [float(expr)] of a sympy expression,
    [tuple(int(255 * c) for c in get_color_from_slider(v)[:3])] for a
    slider position, and what [FigureCanvasTkAgg(fig, master=...)] and
    [canvas.draw()] raise given all that happened before: parameters, as
    the libraries are.  The other widget calls ([config], [get],
    [destroy], [pack]) are taken not to raise. *)
Variable which : string -> bool.
Variable float_of_expr : Expr L -> exception + spec_float.
Variable slider_rgb : Z -> Z * Z * Z.
Variable canvas_raises : list (action nd) -> option exception.
Variable draw_raises : list (action nd) -> option exception.

(** [latex_ok, latex_msg = check_latex_dependencies()] *)
Definition latex_ok : bool := fst (GuiStartup.check_latex_dependencies which).
Definition latex_msg : string :=
  snd (GuiStartup.check_latex_dependencies which).

(** [get_func_plot_color], given what the Hex entry and the slider hold *)
Definition get_func_plot_color (color_hex : string) (slider : Z) : string :=
  let hex_code := PyStr.strip color_hex in
  if Colour.is_valid_hex_color hex_code
  then hex_code
  else format_rgb (slider_rgb slider).

(** *** Handlers: the world and the attributes of the tab *)

Definition H (A : Type) : Type :=
  Tab -> World nd -> outcome A * (Tab * World nd).

Definition hret {A} (a : A) : H A := fun s w => (Ok a, (s, w)).

Definition hbind {A B} (m : H A) (k : A -> H B) : H B :=
  fun s w =>
    match m s w with
    | (Ok a, (s', w')) => k a s' w'
    | (Raise r, sw) => (Raise r, sw)
    | (Diverge, sw) => (Diverge, sw)
    end.

Definition hraise {A} (e : exception) : H A :=
  fun s w => (Raise (Exc e), (s, w)).

(** a function of the program, called from a handler *)
Definition lift {A} (m : M nd A) : H A :=
  fun s w => let (r, w') := m w in (r, (s, w')).

Definition read : H Tab := fun s w => (Ok s, (s, w)).

Definition update (f : Tab -> Tab) : H unit := fun s w => (Ok tt, (f s, w)).

(** [try: body  except Exception as e: handler(e)]; what the body did to
    [self] before it raised stays done *)
Definition htry {A} (body : H A) (handler : exception -> H A) : H A :=
  fun s w =>
    match body s w with
    | (Raise (Exc e), (s', w')) => handler e s' w'
    | r => r
    end.

Declare Scope gui_scope.
Delimit Scope gui_scope with gui.
Notation "x <- m ;; k" := (hbind m (fun x => k))
  (at level 100, m at next level, right associativity) : gui_scope.
Notation "m ;;; k" := (hbind m (fun _ => k))
  (at level 100, right associativity) : gui_scope.
Local Open Scope gui_scope.

Definition config_status (text foreground : string) : H unit :=
  update (fun s => mkTab (text, foreground) (export_btn s) (canvas s) (fig s)).

Definition config_export_btn (normal : bool) : H unit :=
  update (fun s => mkTab (status s) normal (canvas s) (fig s)).

Definition set_fig (f : option figure) : H unit :=
  update (fun s => mkTab (status s) (export_btn s) (canvas s) f).

Definition set_canvas (c : option figure) : H unit :=
  update (fun s => mkTab (status s) (export_btn s) c (fig s)).

(** [if self.func_canvas: ...destroy(); self.func_canvas = None;
    self.func_fig = None] *)
Definition drop_canvas : H unit :=
  s <- read ;;
  match canvas s with
  | Some _ => set_canvas None ;;; set_fig None
  | None => hret tt
  end.

(** the body of both [except] clauses of a Generate handler *)
Definition generate_failed (text : string) : H unit :=
  config_status text "red" ;;;
  config_export_btn false ;;;
  drop_canvas.

(** [float(sympify(text))] *)
Definition float_of_entry (text : string) : H spec_float :=
  expr <- lift (call (sympify L text)) ;;
  lift (call (float_of_expr expr)).

(** [FigureCanvasTkAgg(fig, master=...)], assigned to the attribute *)
Definition new_canvas (f : figure) : H unit :=
  fun s w =>
    match canvas_raises (trace w) with
    | Some e => (Raise (Exc e), (s, w))
    | None => (Ok tt, (mkTab (status s) (export_btn s) (Some f) (fig s), w))
    end.

Definition canvas_draw : H unit :=
  fun s w =>
    match draw_raises (trace w) with
    | Some e => (Raise (Exc e), (s, w))
    | None => (Ok tt, (s, w))
    end.

(** The lines of a Generate handler after the figure was made.  The old
    canvas widget is destroyed first, the attribute keeps it until the new
    canvas is assigned. *)
Definition show_figure (f : figure) : H unit :=
  set_fig (Some f) ;;;
  new_canvas f ;;;
  canvas_draw ;;;
  config_status "Plot generated. Click Export to save." "green" ;;;
  config_export_btn true.

Definition generate_function_plot
           (func_entry xmin_entry xmax_entry color_hex : string)
           (slider : Z) (legend_pos : string) : H unit :=
  if negb latex_ok then config_status latex_msg "red"
  else
    let func_str := PyStr.strip func_entry in
    let x_min := PyStr.strip xmin_entry in
    let x_max := PyStr.strip xmax_entry in
    let color := get_func_plot_color color_hex slider in
    let legend_loc := legend_pos in
    htry
      (x_min <- float_of_entry x_min ;;
       x_max <- float_of_entry x_max ;;
       if FunctionPlotter.float_ge x_min x_max then
         hraise (ValueError "x min must be less than x max")
       else
         made <- htry
                   (lift (PlotterGui.plot_function_gui
                            L func_str x_min x_max color legend_loc) ;;;
                    hret true)
                   (fun e =>
                      generate_failed ("Error generating plot: "
                                         ++ str_of_exception e) ;;;
                      hret false) ;;
         if (made : bool)
         then show_figure
                (FunctionFigure func_str x_min x_max color legend_loc)
         else hret tt)
      (fun e => generate_failed ("Error: " ++ str_of_exception e)).

Definition generate_equation_plot
           (eqn_entry xmin_entry xmax_entry ymin_entry ymax_entry : string)
  : H unit :=
  if negb latex_ok then config_status latex_msg "red"
  else
    let eqn_str := PyStr.strip eqn_entry in
    let x_min := PyStr.strip xmin_entry in
    let x_max := PyStr.strip xmax_entry in
    let y_min := PyStr.strip ymin_entry in
    let y_max := PyStr.strip ymax_entry in
    htry
      (x_min <- float_of_entry x_min ;;
       x_max <- float_of_entry x_max ;;
       y_min <- float_of_entry y_min ;;
       y_max <- float_of_entry y_max ;;
       if FunctionPlotter.float_ge x_min x_max
          || FunctionPlotter.float_ge y_min y_max then
         hraise (ValueError "min must be less than max for both x and y")
       else
         made <- htry
                   (lift (PlotterGui.plot_equation_gui_preview
                            L eqn_str x_min x_max y_min y_max) ;;;
                    hret true)
                   (fun e =>
                      generate_failed ("Error generating plot: "
                                         ++ str_of_exception e) ;;;
                      hret false) ;;
         if (made : bool)
         then show_figure (EquationFigure eqn_str x_min x_max y_min y_max)
         else hret tt)
      (fun e => generate_failed ("Error: " ++ str_of_exception e)).

(** [export_function_plot] and [export_equation_plot], given what the
    format box and the file name entry hold *)
Definition export_tab_plot (format_ filename : string) : H unit :=
  s <- read ;;
  r <- lift (PlotterGui.export_plot
               L (match fig s with Some _ => true | None => false end)
               format_ filename) ;;
  let (ok, msg) := (r : bool * string) in
  config_status msg (if ok then "green" else "red").

(** *** Sessions *)

(** what the user does: a click, with what the widgets hold then *)
Inductive event :=
| GenerateFunction (func_entry xmin_entry xmax_entry color_hex : string)
                   (slider : Z) (legend_pos : string)
| ExportFunction (format_ filename : string)
| GenerateEquation
    (eqn_entry xmin_entry xmax_entry ymin_entry ymax_entry : string)
| ExportEquation (format_ filename : string).

(** a handler of the function tab, or of the equation tab, run on the
    window *)
Definition on_func_tab (h : H unit) (g : Gui) (w : World nd)
  : outcome unit * (Gui * World nd) :=
  let '(r, (s, w')) := h (func_tab g) w in (r, (mkGui s (eqn_tab g), w')).

Definition on_eqn_tab (h : H unit) (g : Gui) (w : World nd)
  : outcome unit * (Gui * World nd) :=
  let '(r, (s, w')) := h (eqn_tab g) w in (r, (mkGui (func_tab g) s, w')).

(** A button in state [disabled] does not call its command. *)
Definition fire (ev : event) (g : Gui) (w : World nd)
  : outcome unit * (Gui * World nd) :=
  match ev with
  | GenerateFunction func_entry xmin_entry xmax_entry color_hex
                     slider legend_pos =>
      on_func_tab (generate_function_plot func_entry xmin_entry xmax_entry
                                          color_hex slider legend_pos) g w
  | ExportFunction format_ filename =>
      if export_btn (func_tab g)
      then on_func_tab (export_tab_plot format_ filename) g w
      else (Ok tt, (g, w))
  | GenerateEquation eqn_entry xmin_entry xmax_entry ymin_entry ymax_entry =>
      on_eqn_tab (generate_equation_plot eqn_entry xmin_entry xmax_entry
                                         ymin_entry ymax_entry) g w
  | ExportEquation format_ filename =>
      if export_btn (eqn_tab g)
      then on_eqn_tab (export_tab_plot format_ filename) g w
      else (Ok tt, (g, w))
  end.

(** the events of a session, one after the other, up to the first handler
    that does not return *)
Fixpoint session (evs : list event) (g : Gui) (w : World nd)
  : outcome unit * (Gui * World nd) :=
  match evs with
  | [] => (Ok tt, (g, w))
  | ev :: evs' =>
      match fire ev g w with
      | (Ok _, (g', w')) => session evs' g' w'
      | r => r
      end
  end.

End Handlers.

End PlotterGUI.

(** ** Notions for the window *)

(** the window as [__init__] leaves it *)
Definition new_gui : PlotterGUI.Gui :=
  PlotterGUI.mkGui PlotterGUI.new_tab PlotterGUI.new_tab.

(** a tab after a Generate click that made and showed the figure [f] *)
Definition shows (f : PlotterGUI.figure) (s' : PlotterGUI.Tab) : Prop :=
  s' = PlotterGUI.mkTab ("Plot generated. Click Export to save.", "green")
                        true (Some f) (Some f).

(** a tab after a Generate click that failed, having been [s] before: the
    message is red, Export is off and no canvas is left; the figure is
    gone too when there was a canvas *)
Definition refused (s s' : PlotterGUI.Tab) : Prop :=
  snd (PlotterGUI.status s') = "red" /\
  PlotterGUI.export_btn s' = false /\
  PlotterGUI.canvas s' = None /\
  (PlotterGUI.canvas s <> None -> PlotterGUI.fig s' = None).

(** Export is on exactly when a canvas is shown, and the figure that
    Export would save is the one on the canvas *)
Definition tab_ok (s : PlotterGUI.Tab) : Prop :=
  match PlotterGUI.canvas s with
  | Some f => PlotterGUI.fig s = Some f /\ PlotterGUI.export_btn s = true
  | None => PlotterGUI.export_btn s = false
  end.

Definition gui_ok (g : PlotterGUI.Gui) : Prop :=
  tab_ok (PlotterGUI.func_tab g) /\ tab_ok (PlotterGUI.eqn_tab g).

(** a tab that holds nothing to export *)
Definition idle (s : PlotterGUI.Tab) : Prop :=
  PlotterGUI.export_btn s = false /\
  PlotterGUI.canvas s = None /\
  PlotterGUI.fig s = None.

(** a channel of a colour, as a byte *)
Definition is_byte (n : Z) : Prop := (0 <= n < 256)%Z.

(** [hruns m s w Q E]: run from the tab [s] and the world [w], the handler
    code [m] returns in a state that satisfies [Q] or raises an exception
    in a state that satisfies [E]; it lets no interrupt through and does
    not hang. *)
Definition hruns {L : Lib} {A} (m : PlotterGUI.H L A)
           (s : PlotterGUI.Tab) (w : World (ndarray L))
           (Q : A -> PlotterGUI.Tab -> World (ndarray L) -> Prop)
           (E : exception -> PlotterGUI.Tab -> World (ndarray L) -> Prop)
  : Prop :=
  match m s w with
  | (Ok a, (s', w')) => Q a s' w'
  | (Raise (Exc e), (s', w')) => E e s' w'
  | (Raise KeyboardInterrupt, _) => False
  | (Diverge, _) => False
  end.

(** the entry [text] holds the number [x]: [float(sympify(text))] answers
    [x] *)
Definition entry_value (L : Lib)
           (float_of_expr : Expr L -> exception + spec_float)
           (text : string) (x : spec_float) : Prop :=
  exists expr,
    sympify L (PyStr.strip text) = inr expr /\ float_of_expr expr = inr x.

(** the clicks on an Export button *)
Definition is_export (ev : PlotterGUI.event) : bool :=
  match ev with
  | PlotterGUI.ExportFunction _ _ | PlotterGUI.ExportEquation _ _ => true
  | _ => false
  end.

(** From [w] to [w'] nothing was read or printed; [ws] are the names
    handed to [savefig], none of which existed in [w]; the files of [w]
    are all still there, and the files added are names of [ws], each added
    once. *)
Definition wrote_new_files {nd} (w w' : World nd) (ws : list string) : Prop :=
  stdin w' = stdin w /\
  console (trace w') = console (trace w) /\
  written (trace w') = (written (trace w) ++ ws)%list /\
  (forall name, In name ws -> file_exists w name = false) /\
  exists made,
    files w' = (made ++ files w)%list /\ NoDup made /\ incl made ws.

(** the three channels of a colour are bytes *)
Definition bytes (rgb : Z * Z * Z) : Prop :=
  let '(r, g, b) := rgb in is_byte r /\ is_byte g /\ is_byte b.

(** ** The plot functions when Ctrl-C can arrive at any time

    The console model delivers the interrupt at [input], but the signal of
    Ctrl-C is raised wherever the program happens to be, also inside the
    two plot functions, which read nothing.  Here every statement of their
    [try] blocks is [checked]: [ctrl_c t] says whether the signal has
    arrived when the program, having done [t] so far, starts its next
    statement, and if so [KeyboardInterrupt] is raised there.  It stands
    for what is raised outside [Exception].  The statements themselves are
    those of [FunctionPlotter]. *)

Module Interruptible.
Section Program.

Variable L : Lib.
Variable ctrl_c : list (action (ndarray L)) -> bool.
Local Abbreviation nd := (ndarray L).
Local Abbreviation Py := (M (ndarray L)).

Definition checked {A} (m : Py A) : Py A :=
  fun w => if ctrl_c (trace w) then (Raise KeyboardInterrupt, w) else m w.

Definition clean_latex_expression (expr : Expr L) : Py string :=
  try_except_Exception
    (tex <- checked (call (latex L expr)) ;;
     ret (sanitize tex))
    (fun e =>
       checked (print ("Warning: LaTeX conversion failed: "
                         ++ str_of_exception e)) ;;;
       ret (str_of_expr L expr)).

Definition save_with_fallback (input_str filename format : string)
  : Py string :=
  try_except_Exception
    (checked (savefig L filename format) ;;; ret filename)
    (fun e =>
       checked (print ("Error saving file: " ++ str_of_exception e)) ;;;
       let default_filename :=
         FunctionPlotter.default_filename L input_str format in
       checked (print ("Attempting to save as " ++ default_filename)) ;;;
       checked (savefig L default_filename format) ;;;
       ret default_filename).

Definition plot_function_body (func_str : string) (x_min x_max : spec_float)
           (filename format : string) : Py bool :=
  expr <- checked (call (sympify L func_str)) ;;
  f <- checked (call (lambdify L ["x"] expr)) ;;
  x_vals <- checked (np_linspace L x_min x_max 1000) ;;
  y_vals <- checked (evaluate L f [x_vals]) ;;
  tex_expr <- clean_latex_expression expr ;;
  let legend_label := "$f(x) = " ++ tex_expr ++ "$" in
  checked (plt L (Figure 10 6)) ;;;
  checked (plt L (Plot x_vals y_vals "b-" legend_label)) ;;;
  checked (plt L Grid) ;;;
  checked (plt L (Xlabel "$x$")) ;;;
  checked (plt L (Ylabel "$f(x)$")) ;;;
  checked (plt L (Title ("$f(x) = " ++ tex_expr ++ "$"))) ;;;
  (if Nat.ltb 30 (String.length tex_expr)
   then checked (plt L (Legend "upper left" true))
   else checked (plt L (Legend "best" false))) ;;;
  checked (plt L Axhline) ;;;
  checked (plt L Axvline) ;;;
  checked (plt L TightLayout) ;;;
  _ <- save_with_fallback func_str filename format ;;
  checked (plt L Close) ;;;
  ret true.

Definition plot_function (func_str : string) (x_min x_max : spec_float)
           (filename format : string) : Py bool :=
  try_except_Exception
    (plot_function_body func_str x_min x_max filename format)
    (fun e =>
       checked (print ("Error plotting function: "
                         ++ str_of_exception e)) ;;;
       ret false).

Definition plot_equation_body (equation_str : string)
           (x_min x_max y_min y_max : spec_float)
           (filename format : string) : Py bool :=
  parsed <- checked (parse_equation L equation_str) ;;
  let '(equation_str, eq, expr) :=
    (parsed : string * Expr L * Expr L) in
  tex_expr <- clean_latex_expression eq ;;
  x_vals <- checked (np_linspace L x_min x_max 400) ;;
  y_vals <- checked (np_linspace L y_min y_max 400) ;;
  XY <- checked (np_meshgrid L x_vals y_vals) ;;
  let (X, Y) := (XY : nd * nd) in
  f_lambdified <- checked (call (lambdify L ["x"; "y"] expr)) ;;
  Z <- checked (evaluate L f_lambdified [X; Y]) ;;
  checked (plt L (Figure 8 8)) ;;;
  checked (plt L (Contour X Y Z)) ;;;
  checked (plt L Grid) ;;;
  checked (plt L (Xlabel "$x$")) ;;;
  checked (plt L (Ylabel "$y$")) ;;;
  raw <- checked (call (latex L eq)) ;;
  checked (plt L (Title ("$" ++ raw ++ "$"))) ;;;
  checked (plt L TightLayout) ;;;
  _ <- save_with_fallback equation_str filename format ;;
  checked (plt L Close) ;;;
  ret true.

Definition plot_equation (equation_str : string)
           (x_min x_max y_min y_max : spec_float)
           (filename format : string) : Py bool :=
  try_except_Exception
    (plot_equation_body equation_str x_min x_max y_min y_max
                        filename format)
    (fun e =>
       checked (print ("Error plotting equation: "
                         ++ str_of_exception e)) ;;;
       ret false).

End Program.
End Interruptible.

(** [m'] runs as [m] does, unless the interrupt arrives first: then it
    stops with [KeyboardInterrupt] where the signal was found *)
Definition unless_interrupted {nd A} (ctrl_c : list (action nd) -> bool)
           (m' m : M nd A) : Prop :=
  forall w,
    m' w = m w \/
    exists w', m' w = (Raise KeyboardInterrupt, w') /\
               ctrl_c (trace w') = true.




(** * Facts *)

(** ** Strings *)

Lemma append_assoc (a b c : string) : (a ++ b) ++ c = a ++ (b ++ c).
Proof. induction a as [|x a IH]; simpl; [reflexivity | now rewrite IH]. Qed.

Lemma append_empty_r (a : string) : a ++ "" = a.
Proof. induction a as [|x a IH]; simpl; [reflexivity | now rewrite IH]. Qed.

Lemma length_append (a b : string) :
  String.length (a ++ b) = String.length a + String.length b.
Proof. induction a as [|x a IH]; simpl; [reflexivity | now rewrite IH]. Qed.

Lemma append_inv_tail (c a b : string) : a ++ c = b ++ c -> a = b.
Proof.
  revert b; induction a as [|x a IH]; intros [|y b] H; simpl in H.
  - reflexivity.
  - exfalso. apply (f_equal String.length) in H. simpl in H.
    rewrite length_append in H. lia.
  - exfalso. apply (f_equal String.length) in H. simpl in H.
    rewrite length_append in H. lia.
  - injection H as -> H. f_equal. now apply IH.
Qed.

Lemma append_inv_head (c a b : string) : c ++ a = c ++ b -> a = b.
Proof.
  induction c as [|x c IH]; simpl; intros H; [assumption|].
  injection H as H. now apply IH.
Qed.

Lemma prefix_empty (s : string) : prefix "" s = true.
Proof. now destruct s. Qed.

(** [replace] with a one-character pattern goes character by character *)
Lemma replace_from_char (o : ascii) (new : string) (c : ascii) (s : string) :
  PyStr.replace_from (String o "") new 0 (String c s) =
  if Ascii.eqb c o
  then new ++ PyStr.replace_from (String o "") new 0 s
  else String c (PyStr.replace_from (String o "") new 0 s).
Proof.
  cbn [PyStr.replace_from prefix String.length Nat.sub].
  destruct (ascii_dec o c) as [->|Hne].
  - rewrite Ascii.eqb_refl, prefix_empty. reflexivity.
  - destruct (Ascii.eqb_spec c o) as [->|_]; [congruence | reflexivity].
Qed.

Lemma replace_char_cons (o : ascii) (new : string) (c : ascii) (s : string) :
  PyStr.replace (String o "") new (String c s) =
  if Ascii.eqb c o
  then new ++ PyStr.replace (String o "") new s
  else String c (PyStr.replace (String o "") new s).
Proof. apply replace_from_char. Qed.

Lemma replace_char_append (o : ascii) (new a b : string) :
  PyStr.replace (String o "") new (a ++ b) =
  PyStr.replace (String o "") new a ++ PyStr.replace (String o "") new b.
Proof.
  induction a as [|c a IH]; [reflexivity|].
  change (String c a ++ b) with (String c (a ++ b)).
  rewrite !replace_char_cons, IH.
  destruct (Ascii.eqb c o); [now rewrite append_assoc | reflexivity].
Qed.

(** [c in s] for a single character *)
Lemma contains_char_cons (o c : ascii) (s : string) :
  PyStr.contains (String o "") (String c s) =
  Ascii.eqb c o || PyStr.contains (String o "") s.
Proof.
  cbn [PyStr.contains prefix].
  destruct (ascii_dec o c) as [->|Hne].
  - now rewrite Ascii.eqb_refl, prefix_empty.
  - destruct (Ascii.eqb_spec c o) as [->|_]; [congruence | reflexivity].
Qed.

Lemma contains_char_append (o : ascii) (a b : string) :
  PyStr.contains (String o "") (a ++ b) =
  PyStr.contains (String o "") a || PyStr.contains (String o "") b.
Proof.
  induction a as [|c a IH]; [reflexivity|].
  change (String c a ++ b) with (String c (a ++ b)).
  rewrite !contains_char_cons, IH. now rewrite orb_assoc.
Qed.

Lemma replace_char_absent (o : ascii) (new s : string) :
  PyStr.contains (String o "") s = false ->
  PyStr.replace (String o "") new s = s.
Proof.
  induction s as [|c s IH]; [reflexivity|].
  rewrite contains_char_cons, replace_char_cons.
  intros [-> H]%orb_false_elim. now rewrite IH.
Qed.

(** ** [split] *)

Lemma split_not_nil (sep : ascii) (s : string) : PyStr.split sep s <> [].
Proof.
  induction s as [|c s IH]; simpl; [discriminate|].
  destruct (Ascii.eqb c sep); [discriminate|].
  destruct (PyStr.split sep s); [contradiction | discriminate].
Qed.

Lemma split_absent (sep : ascii) (s : string) :
  PyStr.contains (String sep "") s = false -> PyStr.split sep s = [s].
Proof.
  induction s as [|c s IH]; [reflexivity|].
  rewrite contains_char_cons. intros [Hc H]%orb_false_elim.
  simpl. now rewrite Hc, IH.
Qed.

(** the piece before the first separator comes first *)
Lemma split_first_piece (sep : ascii) (l rest : string) :
  PyStr.contains (String sep "") l = false ->
  PyStr.split sep (l ++ String sep rest) = l :: PyStr.split sep rest.
Proof.
  induction l as [|c l IH]; intros H.
  - simpl. now rewrite Ascii.eqb_refl.
  - rewrite contains_char_cons in H. apply orb_false_elim in H as [Hc H].
    simpl. now rewrite Hc, IH.
Qed.

Lemma split_length_append (sep : ascii) (a b : string) :
  List.length (PyStr.split sep (a ++ b)) + 1 =
  List.length (PyStr.split sep a) + List.length (PyStr.split sep b).
Proof.
  induction a as [|c a IH]; simpl.
  - lia.
  - destruct (Ascii.eqb c sep); simpl; [lia|].
    pose proof (split_not_nil sep (a ++ b)) as H1.
    pose proof (split_not_nil sep a) as H2.
    destruct (PyStr.split sep (a ++ b)); [contradiction|].
    destruct (PyStr.split sep a); [contradiction|].
    simpl in *. lia.
Qed.

Lemma split_length_sep (sep : ascii) (s : string) :
  List.length (PyStr.split sep (String sep s)) =
  S (List.length (PyStr.split sep s)).
Proof. simpl. now rewrite Ascii.eqb_refl. Qed.

(** two separators make at least three pieces *)
Lemma split_two_seps (sep : ascii) (l m r : string) :
  3 <= List.length
         (PyStr.split sep (l ++ String sep (m ++ String sep r))).
Proof.
  pose proof (split_length_append sep l (String sep (m ++ String sep r))) as H1.
  rewrite split_length_sep in H1.
  pose proof (split_length_append sep m (String sep r)) as H2.
  rewrite split_length_sep in H2.
  assert (1 <= List.length (PyStr.split sep l)).
  { pose proof (split_not_nil sep l).
    destruct (PyStr.split sep l); [contradiction | simpl; lia]. }
  assert (1 <= List.length (PyStr.split sep m)).
  { pose proof (split_not_nil sep m).
    destruct (PyStr.split sep m); [contradiction | simpl; lia]. }
  assert (1 <= List.length (PyStr.split sep r)).
  { pose proof (split_not_nil sep r).
    destruct (PyStr.split sep r); [contradiction | simpl; lia]. }
  lia.
Qed.

(** ** Normalisation of [^] *)

Lemma replace_power_form (s t : string) :
  power_form s t -> PyStr.replace "^" "**" s = t.
Proof.
  induction 1 as [|s t _ IH|c s t Hc _ IH].
  - reflexivity.
  - rewrite replace_char_cons, IH. reflexivity.
  - rewrite replace_char_cons, IH.
    destruct (Ascii.eqb_spec c "^"); [contradiction | reflexivity].
Qed.

Lemma power_form_no_caret (s t : string) :
  power_form s t -> PyStr.contains "^" t = false.
Proof.
  induction 1 as [|s t _ IH|c s t Hc _ IH].
  - reflexivity.
  - rewrite !contains_char_cons, IH. reflexivity.
  - rewrite contains_char_cons, IH.
    destruct (Ascii.eqb_spec c "^"); [contradiction | reflexivity].
Qed.

Lemma validate_function_unfold (L : Lib) (s : string) (w : World (ndarray L)) :
  FunctionPlotter.validate_function L s w =
  match sympify L (PyStr.replace "^" "**" s) with
  | inr _ => (Ok (PyStr.replace "^" "**" s), w)
  | inl _ => (Raise (Exc (ValueError "Invalid function expression")), w)
  end.
Proof.
  unfold FunctionPlotter.validate_function, try_except_all, bind, call.
  destruct (sympify L (PyStr.replace "^" "**" s)); reflexivity.
Qed.

(** C7. Normalising and then parsing a text written with [^] gives what
    parsing the same text written with [**] gives: [validate_function]
    hands the parser exactly the [**] form, returns that form, and behaves
    on the [^] text as it does on the [**] text.  The text ["x^2+1"] with
    ["x**2+1"] is an instance. *)
Theorem validate_function_power_form
        (L : Lib) (s t : string) (w : World (ndarray L)) :
  power_form s t ->
  sympify L (PyStr.replace "^" "**" s) = sympify L t /\
  FunctionPlotter.validate_function L s w =
    FunctionPlotter.validate_function L t w /\
  (forall e, sympify L t = inr e ->
             FunctionPlotter.validate_function L s w = (Ok t, w)).
Proof.
  intros H.
  pose proof (replace_power_form s t H) as Hs.
  pose proof (replace_char_absent "^" "**" t (power_form_no_caret s t H)) as Ht.
  rewrite !validate_function_unfold, Hs, Ht.
  repeat split. intros e ->. reflexivity.
Qed.

Lemma power_form_x2_plus_1 : power_form "x^2+1" "x**2+1".
Proof.
  apply power_form_char; [discriminate|].
  apply power_form_caret.
  repeat (apply power_form_char; [discriminate|]).
  apply power_form_nil.
Qed.

Lemma validate_function_power_form_witness :
  sympify Toy.lib (PyStr.replace "^" "**" "x^2+1") = sympify Toy.lib "x**2+1" /\
  FunctionPlotter.validate_function Toy.lib "x^2+1" (Toy.world [] []) =
    (Ok "x**2+1", Toy.world [] []).
Proof.
  destruct (validate_function_power_form Toy.lib "x^2+1" "x**2+1"
              (Toy.world [] []) power_form_x2_plus_1) as [H1 [_ H3]].
  split; [exact H1|].
  apply (H3 (Toy.Parsed "x**2+1")). reflexivity.
Defined.

(** ** Invalid expressions *)

(** C5, as the code has it.  When the parser refuses the normalised text,
    [validate_function] raises a [ValueError] whose message is the fixed
    text "Invalid function expression", whatever the input and whatever
    the parser said; the world is untouched.  In [main] this error is shown
    to the user and the question is asked again. *)
Theorem validate_function_invalid
        (L : Lib) (s : string) (w : World (ndarray L)) (e : exception) :
  sympify L (PyStr.replace "^" "**" s) = inl e ->
  FunctionPlotter.validate_function L s w =
    (Raise (Exc (ValueError "Invalid function expression")), w) /\
  (forall choice rest,
      stdin w = Line choice :: Line s :: rest ->
      PyStr.strip choice = "1" ->
      FunctionPlotter.main_iteration L w =
        (Ok false,
         mkWorld (files w) rest
           (trace w ++
            [Prompt "Enter 1 for function, 2 for equation: ";
             Prompt "Enter function f(x) = ";
             Print (LF ++ "Error: Invalid function expression");
             Print ("Please try again." ++ LF)])%list)).
Proof.
  intros He. split.
  - rewrite validate_function_unfold, He. reflexivity.
  - intros choice rest Hin Hc.
    unfold FunctionPlotter.main_iteration, FunctionPlotter.main_try.
    unfold bind at 1. unfold input at 1. rewrite Hin, Hc. cbn [String.eqb Ascii.eqb Bool.eqb orb negb].
    unfold bind at 1. unfold input at 1. cbn [stdin files trace].
    unfold bind at 1. rewrite validate_function_unfold, He.
    unfold bind, print, log, ret. cbn [stdin files trace].
    rewrite <- !app_assoc. reflexivity.
Qed.

Lemma validate_function_invalid_witness :
  FunctionPlotter.validate_function Toy.lib "x^^2" (Toy.world [] []) =
    (Raise (Exc (ValueError "Invalid function expression")), Toy.world [] []).
Proof.
  apply (validate_function_invalid Toy.lib "x^^2" (Toy.world [] [])
           (ValueError "could not parse 'x****2'")).
  reflexivity.
Defined.

(** C5 as stated fails: on ["x^^2"] the parser refuses with its own
    message, and the error that [validate_function] raises carries neither
    that message nor the text that was typed. *)
Lemma validate_function_drops_input_and_parser_message :
  sympify Toy.lib (PyStr.replace "^" "**" "x^^2") =
    inl (ValueError "could not parse 'x****2'") /\
  fst (FunctionPlotter.validate_function Toy.lib "x^^2" (Toy.world [] []))
    = Raise (Exc (ValueError "Invalid function expression")) /\
  PyStr.contains "x^^2" "Invalid function expression" = false /\
  PyStr.contains "could not parse 'x****2'" "Invalid function expression"
    = false.
Proof. repeat split. Qed.

(** ** Equations *)

(** C4, as the code has it.  After [^] is rewritten, an equation text
    without [=] is parsed whole and stands for [expr = 0], its curve being
    the zero set of the parsed expression itself; a text with exactly one
    [=] is cut there and gives the equality of the two sides and their
    difference [lhs - rhs]; a text with two or more [=] is not cut at the
    first one: the two-name unpacking of [split] fails with a [ValueError]
    before anything is parsed. *)
Theorem parse_equation_cases
        (L : Lib) (equation_str : string) (w : World (ndarray L)) :
  let n := PyStr.replace "^" "**" equation_str in
  (PyStr.contains "=" n = false ->
   parse_equation L equation_str w =
     (expr <- call (sympify L n) ;;
      eq <- call (Eq_ L expr (zero L)) ;;
      ret (n, eq, expr)) w) /\
  (forall l r,
      n = l ++ "=" ++ r ->
      PyStr.contains "=" l = false ->
      PyStr.contains "=" r = false ->
      parse_equation L equation_str w =
        (lhs <- call (sympify L l) ;;
         rhs <- call (sympify L r) ;;
         eq <- call (Eq_ L lhs rhs) ;;
         expr <- call (sub L lhs rhs) ;;
         ret (n, eq, expr)) w) /\
  (forall l m r,
      n = l ++ "=" ++ m ++ "=" ++ r ->
      parse_equation L equation_str w =
        (Raise (Exc (ValueError "too many values to unpack (expected 2)")),
         w)).
Proof.
  intros n. unfold parse_equation. fold n. repeat split.
  - intros H. rewrite H. unfold bind, call, ret, raise.
    destruct (sympify L n); [reflexivity|].
    destruct (Eq_ L e (zero L)); reflexivity.
  - intros l r Hn Hl Hr.
    assert (Hc : PyStr.contains "=" n = true).
    { rewrite Hn, !contains_char_append. cbn. apply orb_true_r. }
    rewrite Hc, Hn. cbn [append].
    rewrite (split_first_piece "=" l r Hl), (split_absent "=" r Hr).
    unfold unpack2, bind, call, ret, raise.
    destruct (sympify L l); [reflexivity|].
    destruct (sympify L r); [reflexivity|].
    destruct (Eq_ L e e0); [reflexivity|].
    destruct (sub L e e0); reflexivity.
  - intros l m r Hn.
    assert (Hc : PyStr.contains "=" n = true).
    { rewrite Hn, !contains_char_append. cbn. apply orb_true_r. }
    rewrite Hc.
    pose proof (split_two_seps "=" l m r) as Hlen.
    change (l ++ String "=" (m ++ String "=" r))
      with (l ++ "=" ++ m ++ "=" ++ r) in Hlen.
    rewrite <- Hn in Hlen.
    destruct (PyStr.split "=" n) as [|a [|b [|c t]]]; simpl in Hlen; try lia.
    reflexivity.
Qed.

Lemma parse_equation_cases_witness :
  parse_equation Toy.lib "x^2+y^2=1" (Toy.world [] []) =
    (Ok ("x**2+y**2=1",
         Toy.Equality (Toy.Parsed "x**2+y**2") (Toy.Parsed "1"),
         Toy.Minus (Toy.Parsed "x**2+y**2") (Toy.Parsed "1")),
     Toy.world [] []) /\
  parse_equation Toy.lib "x^2-y" (Toy.world [] []) =
    (Ok ("x**2-y",
         Toy.Equality (Toy.Parsed "x**2-y") Toy.Zero,
         Toy.Parsed "x**2-y"),
     Toy.world [] []) /\
  parse_equation Toy.lib "x=y=1" (Toy.world [] []) =
    (Raise (Exc (ValueError "too many values to unpack (expected 2)")),
     Toy.world [] []).
Proof.
  split; [|split].
  - destruct (parse_equation_cases Toy.lib "x^2+y^2=1" (Toy.world [] []))
      as [_ [H _]].
    rewrite (H "x**2+y**2" "1"); reflexivity.
  - destruct (parse_equation_cases Toy.lib "x^2-y" (Toy.world [] []))
      as [H _].
    rewrite H; reflexivity.
  - destruct (parse_equation_cases Toy.lib "x=y=1" (Toy.world [] []))
      as [_ [_ H]].
    apply (H "x" "y" "1"). reflexivity.
Defined.

(** C4 as stated fails: ["x=y=1"] is not cut at its first [=] into ["x"]
    and ["y=1"].  Both of those texts parse, yet no difference of them is
    built: the equation is refused, and [plot_equation] answers [False]
    without sampling or drawing anything. *)
Lemma parse_equation_does_not_split_on_first :
  sympify Toy.lib "x" = inr (Toy.Parsed "x") /\
  sympify Toy.lib "y=1" = inr (Toy.Parsed "y=1") /\
  (forall lhs rhs,
      fst (parse_equation Toy.lib "x=y=1" (Toy.world [] [])) <>
      Ok ("x=y=1", Toy.Equality lhs rhs, Toy.Minus lhs rhs)) /\
  FunctionPlotter.plot_equation Toy.lib "x=y=1"
      Toy.minus_two Toy.two Toy.minus_two Toy.two "out.svg" "svg"
      (Toy.world [] []) =
    (Ok false,
     mkWorld [] []
       [Print "Error plotting equation: too many values to unpack (expected 2)"]).
Proof.
  repeat split; try reflexivity.
  intros lhs rhs H. vm_compute in H. discriminate H.
Qed.

(** ** Decimal numerals *)

Lemma str_of_nat_inj (n m : nat) :
  PyStr.str_of_nat n = PyStr.str_of_nat m -> n = m.
Proof.
  unfold PyStr.str_of_nat. intros H.
  apply Unsigned.to_uint_inj.
  apply (f_equal NilEmpty.uint_of_string) in H.
  rewrite !NilEmpty.usu in H. now injection H.
Qed.

(** ** The resolution loop *)

Lemma candidate_inj (base : string) (j k : nat) :
  candidate base j = candidate base k -> j = k.
Proof.
  unfold candidate. destruct (OsPath.splitext base) as [name ext].
  intros H. apply append_inv_head in H.
  change ("_" ++ PyStr.str_of_nat j ++ ext)
    with (String "_" (PyStr.str_of_nat j ++ ext)) in H.
  injection H as H. apply append_inv_tail in H. now apply str_of_nat_inj.
Qed.

Section Loop.

Variable path_exists : string -> bool.
Variable base : string.

(** the loop started at its [i]-th test finds the first free name *)
Lemma safe_loop_finds (d : nat) :
  forall i fuel,
    (forall j, i <= j < i + d -> path_exists (attempt base j) = true) ->
    path_exists (attempt base (i + d)) = false ->
    d < fuel ->
    safe_loop path_exists fuel base (S i) (attempt base i)
    = Some (attempt base (i + d)).
Proof.
  induction d as [|d IH]; intros i fuel Hbusy Hfree Hfuel.
  - destruct fuel as [|fuel]; [lia|]. simpl.
    rewrite Nat.add_0_r in Hfree. rewrite Hfree.
    now rewrite Nat.add_0_r.
  - destruct fuel as [|fuel]; [lia|]. simpl.
    rewrite (Hbusy i) by lia.
    change (candidate base (S i)) with (attempt base (S i)).
    replace (i + S d) with (S i + d) in * by lia.
    apply IH; [|assumption|lia].
    intros j Hj. apply Hbusy. lia.
Qed.

(** out of fuel only while every name tested so far exists *)
Lemma safe_loop_none (fuel : nat) :
  forall i,
    safe_loop path_exists fuel base (S i) (attempt base i) = None ->
    forall j, i <= j < i + fuel -> path_exists (attempt base j) = true.
Proof.
  induction fuel as [|fuel IH]; intros i H j Hj; [lia|].
  simpl in H.
  destruct (path_exists (attempt base i)) eqn:Hi; [|discriminate].
  destruct (Nat.eq_dec j i) as [->|Hne]; [assumption|].
  change (candidate base (S i)) with (attempt base (S i)) in H.
  apply (IH (S i) H). lia.
Qed.

(** what the loop returns is the first free name *)
Lemma safe_loop_some (fuel : nat) :
  forall i r,
    safe_loop path_exists fuel base (S i) (attempt base i) = Some r ->
    exists k, i <= k /\ k < i + fuel /\ r = attempt base k /\
              path_exists r = false /\
              forall j, i <= j < k -> path_exists (attempt base j) = true.
Proof.
  induction fuel as [|fuel IH]; intros i r H; [discriminate|].
  simpl in H.
  destruct (path_exists (attempt base i)) eqn:Hi.
  - change (candidate base (S i)) with (attempt base (S i)) in H.
    destruct (IH (S i) r H) as (k & Hk1 & Hk2 & Hr & Hfree & Hbusy).
    exists k. repeat split; try assumption; try lia.
    intros j Hj. destruct (Nat.eq_dec j i) as [->|Hne]; [assumption|].
    apply Hbusy. lia.
  - injection H as <-. exists i.
    repeat split; try assumption; intros; lia.
Qed.

(** below any bound, either every tested name exists or there is a
    first free one *)
Lemma busy_or_first_free (n : nat) :
  (forall j, j < n -> path_exists (attempt base j) = true) \/
  exists k, k < n /\ path_exists (attempt base k) = false /\
            forall j, j < k -> path_exists (attempt base j) = true.
Proof.
  induction n as [|n [IH|(k & Hk & Hfree & Hbusy)]].
  - left. intros j Hj. lia.
  - destruct (path_exists (attempt base n)) eqn:Hn.
    + left. intros j Hj.
      destruct (Nat.eq_dec j n) as [->|Hne]; [assumption | apply IH; lia].
    + right. exists n. repeat split; [lia | assumption | assumption].
  - right. exists k. repeat split; [lia | assumption | assumption].
Qed.

End Loop.

(** ** [splitext] cuts, it does not change the path *)

Lemma rfind_range (is_ch : ascii -> bool) (s : string) :
  (-1 <= PyStr.rfind is_ch s < Z.of_nat (String.length s))%Z.
Proof.
  induction s as [|c s IH]; simpl PyStr.rfind; simpl String.length.
  - lia.
  - destruct (0 <=? PyStr.rfind is_ch s)%Z eqn:H.
    + apply Z.leb_le in H. lia.
    + destruct (is_ch c); lia.
Qed.

Lemma substring_full (s : string) : substring 0 (String.length s) s = s.
Proof. induction s as [|c s IH]; simpl; [reflexivity | now rewrite IH]. Qed.

Lemma substring_split (s : string) :
  forall i, i <= String.length s ->
            substring 0 i s ++ substring i (String.length s - i) s = s.
Proof.
  induction s as [|c s IH]; intros [|i] Hi; simpl in *.
  - reflexivity.
  - lia.
  - now rewrite substring_full.
  - f_equal. apply IH. lia.
Qed.

Lemma slice_split (s : string) (i : Z) :
  (0 <= i <= Z.of_nat (String.length s))%Z ->
  PyStr.slice_to s i ++ PyStr.slice_from s i = s.
Proof.
  intros H. unfold PyStr.slice_to, PyStr.slice_from.
  apply substring_split. lia.
Qed.

Lemma splitext_append (p : string) :
  fst (OsPath.splitext p) ++ snd (OsPath.splitext p) = p.
Proof.
  unfold OsPath.splitext.
  pose proof (rfind_range OsPath.is_sep p) as Hs.
  pose proof (rfind_range OsPath.is_extsep p) as Hd.
  destruct (PyStr.rfind OsPath.is_sep p <? PyStr.rfind OsPath.is_extsep p)%Z
    eqn:Hlt; simpl.
  - apply Z.ltb_lt in Hlt.
    destruct (OsPath.skip_leading_dots _ _ _); simpl.
    + apply slice_split. lia.
    + apply append_empty_r.
  - apply append_empty_r.
Qed.

Lemma candidate_length (base : string) (k : nat) :
  String.length (candidate base k) =
  String.length base + 1 + String.length (PyStr.str_of_nat k).
Proof.
  pose proof (splitext_append base) as H.
  unfold candidate. destruct (OsPath.splitext base) as [name ext].
  simpl in H. rewrite <- H.
  rewrite !length_append. simpl. lia.
Qed.

Lemma attempt_inj (base : string) (j k : nat) :
  attempt base j = attempt base k -> j = k.
Proof.
  destruct j as [|j], k as [|k]; cbn [attempt]; intros H.
  - reflexivity.
  - apply (f_equal String.length) in H. rewrite candidate_length in H. lia.
  - apply (f_equal String.length) in H. rewrite candidate_length in H. lia.
  - exact (candidate_inj base _ _ H).
Qed.

(** ** Termination on a finite set of existing paths *)

Lemma some_attempt_is_free
      (path_exists : string -> bool) (existing : list string) (base : string) :
  (forall p, path_exists p = true -> In p existing) ->
  exists k, k <= List.length existing /\
            path_exists (attempt base k) = false /\
            forall j, j < k -> path_exists (attempt base j) = true.
Proof.
  intros Hfin.
  destruct (busy_or_first_free path_exists base (S (List.length existing)))
    as [Hbusy|(k & Hk & Hfree & Hbefore)].
  - exfalso.
    set (names := List.map (attempt base) (seq 0 (S (List.length existing)))).
    assert (Hnd : NoDup names).
    { apply Injective_map_NoDup; [|apply seq_NoDup].
      intros j k. apply attempt_inj. }
    assert (Hincl : incl names existing).
    { intros p Hp. apply in_map_iff in Hp as (j & <- & Hj).
      apply in_seq in Hj. apply Hfin, Hbusy. lia. }
    pose proof (NoDup_incl_length Hnd Hincl) as Hlen.
    unfold names in Hlen. rewrite length_map, length_seq in Hlen. lia.
  - exists k. repeat split; [lia | assumption | assumption].
Qed.

(** C10. When only finitely many paths exist, the loop of
    [get_safe_filename] ends: some test number [k], at most the number of
    existing paths, is the first whose name does not exist, and with more
    than [k] tests allowed the function returns exactly that name - the
    base name itself for [k = 0], the candidate with the least free
    counter [k >= 1] otherwise. *)
Theorem get_safe_filename_terminates
        (path_exists : string -> bool) (existing : list string)
        (base_filename format : string) :
  (forall p, path_exists p = true -> In p existing) ->
  let base := with_extension base_filename format in
  exists k,
    k <= List.length existing /\
    path_exists (attempt base k) = false /\
    (forall j, j < k -> path_exists (attempt base j) = true) /\
    (forall fuel, k < fuel ->
       get_safe_filename path_exists fuel base_filename format
       = Some (attempt base k)).
Proof.
  intros Hfin base.
  destruct (some_attempt_is_free path_exists existing base Hfin)
    as (k & Hk & Hfree & Hbusy).
  exists k. repeat split; try assumption.
  intros fuel Hfuel. unfold get_safe_filename. fold base.
  apply (safe_loop_finds path_exists base k 0 fuel).
  - intros j Hj. apply Hbusy. lia.
  - assumption.
  - assumption.
Qed.

Lemma get_safe_filename_terminates_witness :
  exists k,
    k <= 2 /\
    get_safe_filename
      (fun p => existsb (String.eqb p) ["output.svg"; "output_1.svg"])
      3 "" "svg"
    = Some (attempt "output.svg" k).
Proof.
  destruct (get_safe_filename_terminates
              (fun p => existsb (String.eqb p) ["output.svg"; "output_1.svg"])
              ["output.svg"; "output_1.svg"] "" "svg") as (k & Hk & _ & _ & H).
  - intros p Hp. apply existsb_exists in Hp as (x & Hx & Heq).
    apply String.eqb_eq in Heq. now subst.
  - exists k. split; [exact Hk|]. apply H. simpl in Hk. lia.
Defined.

(** ** Suffixes and the extension *)

Lemma substring_append_l (a b : string) :
  substring 0 (String.length a) (a ++ b) = a.
Proof. induction a as [|c a IH]; simpl; [now destruct b | now rewrite IH]. Qed.

Lemma substring_append_r (a b : string) :
  substring (String.length a) (String.length b) (a ++ b) = b.
Proof. induction a as [|c a IH]; simpl; [apply substring_full | exact IH]. Qed.

Lemma substring_zero_length (s : string) : forall i, substring i 0 s = "".
Proof.
  induction s as [|c s IH]; intros [|i]; simpl; try reflexivity. apply IH.
Qed.

Lemma substring_cons (s : string) :
  forall i n c, get i s = Some c ->
                substring i (S n) s = String c (substring (S i) n s).
Proof.
  induction s as [|x s IH]; intros [|i] n c H; simpl in H; try discriminate.
  - injection H as ->. reflexivity.
  - simpl. rewrite (IH i n c H). reflexivity.
Qed.

Lemma get_in_range (s : string) :
  forall i, i < String.length s -> exists c, get i s = Some c.
Proof.
  induction s as [|x s IH]; intros [|i] H; simpl in *; try lia.
  - now exists x.
  - apply IH. lia.
Qed.

Lemma endswith_append (pre suf : string) :
  PyStr.endswith (pre ++ suf) suf = true.
Proof.
  unfold PyStr.endswith. rewrite length_append.
  replace (String.length pre + String.length suf - String.length suf)
    with (String.length pre) by lia.
  rewrite substring_append_r, String.eqb_refl.
  rewrite andb_true_r. apply Nat.leb_le. lia.
Qed.

Lemma endswith_true (s suf : string) :
  PyStr.endswith s suf = true -> exists pre, s = pre ++ suf.
Proof.
  unfold PyStr.endswith. intros [Hle Heq]%andb_prop.
  apply Nat.leb_le in Hle. apply String.eqb_eq in Heq.
  exists (substring 0 (String.length s - String.length suf) s).
  pose proof (substring_split s (String.length s - String.length suf)) as H.
  replace (String.length s - (String.length s - String.length suf))
    with (String.length suf) in H by lia.
  rewrite Heq in H. symmetry. apply H. lia.
Qed.

Lemma with_extension_empty (format : string) :
  with_extension "" format = "output." ++ format.
Proof.
  unfold with_extension. simpl String.eqb. cbv iota.
  destruct (PyStr.endswith "output" ("." ++ format)) eqn:H; [|reflexivity].
  exfalso. apply endswith_true in H as (pre & H).
  apply (f_equal (PyStr.contains ".")) in H.
  rewrite contains_char_append in H.
  change ("." ++ format) with (String "." format) in H.
  rewrite (contains_char_cons "." "." format), Ascii.eqb_refl in H.
  cbn [orb] in H. rewrite orb_true_r in H. vm_compute in H. discriminate.
Qed.

Lemma with_extension_has_suffix (base_filename format : string) :
  exists stem, with_extension base_filename format = stem ++ "." ++ format.
Proof.
  unfold with_extension.
  set (b := if String.eqb base_filename "" then "output" else base_filename).
  destruct (PyStr.endswith b ("." ++ format)) eqn:H; simpl negb; cbv iota.
  - now apply endswith_true.
  - now exists b.
Qed.

Lemma rfind_append (f : ascii -> bool) (a b : string) :
  PyStr.rfind f (a ++ b) =
  if (0 <=? PyStr.rfind f b)%Z
  then (Z.of_nat (String.length a) + PyStr.rfind f b)%Z
  else PyStr.rfind f a.
Proof.
  induction a as [|c a IH].
  - simpl. pose proof (rfind_range f b).
    destruct (0 <=? PyStr.rfind f b)%Z eqn:H0; [reflexivity|].
    apply Z.leb_gt in H0. lia.
  - change (String c a ++ b) with (String c (a ++ b)).
    cbn [PyStr.rfind]. rewrite IH.
    destruct (0 <=? PyStr.rfind f b)%Z eqn:H0.
    + apply Z.leb_le in H0.
      replace (0 <=? Z.of_nat (String.length a) + PyStr.rfind f b)%Z
        with true by (symmetry; apply Z.leb_le; lia).
      cbn [String.length]. lia.
    + reflexivity.
Qed.

Lemma rfind_absent (o : ascii) (s : string) :
  PyStr.contains (String o "") s = false ->
  PyStr.rfind (fun c => Ascii.eqb c o) s = (-1)%Z.
Proof.
  induction s as [|c s IH]; [reflexivity|].
  rewrite contains_char_cons. intros [Hc H]%orb_false_elim.
  cbn [PyStr.rfind]. rewrite (IH H), Hc. reflexivity.
Qed.

Lemma rfind_is_extsep_absent (s : string) :
  PyStr.contains "." s = false -> PyStr.rfind OsPath.is_extsep s = (-1)%Z.
Proof. exact (rfind_absent "." s). Qed.

Lemma rfind_is_sep_absent (s : string) :
  PyStr.contains "/" s = false -> PyStr.rfind OsPath.is_sep s = (-1)%Z.
Proof. exact (rfind_absent "/" s). Qed.

Lemma skip_leading_dots_spec (stem rest : string) (n : nat) :
  forall i, i + n <= String.length stem ->
            OsPath.skip_leading_dots (stem ++ rest) (Z.of_nat i) n =
            negb (only_dots (substring i n stem)).
Proof.
  induction n as [|n IH]; intros i Hi.
  - now rewrite substring_zero_length.
  - cbn [OsPath.skip_leading_dots]. rewrite Nat2Z.id.
    destruct (get_in_range stem i) as [c Hc]; [lia|].
    rewrite <- (append_correct1 stem rest i) by lia. rewrite Hc.
    rewrite (substring_cons stem i n c Hc). cbn [only_dots].
    replace (Z.of_nat i + 1)%Z with (Z.of_nat (S i)) by lia.
    rewrite IH by lia.
    destruct (OsPath.is_extsep c); reflexivity.
Qed.

(** Where [splitext] cuts a name that ends in [.format]: before that
    suffix, unless the last component has nothing but dots in front of it. *)
Lemma splitext_with_suffix (stem format : string) :
  PyStr.contains "." format = false ->
  PyStr.contains "/" format = false ->
  OsPath.splitext (stem ++ "." ++ format) =
  if only_dots (last_component stem)
  then (stem ++ "." ++ format, "")
  else (stem, "." ++ format).
Proof.
  intros Hdot Hsep. unfold OsPath.splitext.
  change ("." ++ format) with (String "." format).
  assert (Hd : PyStr.rfind OsPath.is_extsep (stem ++ String "." format)
               = Z.of_nat (String.length stem)).
  { rewrite rfind_append. cbn [PyStr.rfind].
    rewrite (rfind_is_extsep_absent format Hdot).
    change (OsPath.is_extsep ".") with true. cbv iota.
    change (0 <=? -1)%Z with false. cbv iota.
    change (0 <=? 0)%Z with true. cbv iota. lia. }
  assert (Hs : PyStr.rfind OsPath.is_sep (stem ++ String "." format)
               = PyStr.rfind OsPath.is_sep stem).
  { rewrite rfind_append. cbn [PyStr.rfind].
    rewrite (rfind_is_sep_absent format Hsep).
    change (OsPath.is_sep ".") with false. cbv iota.
    change (0 <=? -1)%Z with false. cbv iota. reflexivity. }
  rewrite Hd, Hs.
  pose proof (rfind_range OsPath.is_sep stem) as Hr.
  replace (PyStr.rfind OsPath.is_sep stem <? Z.of_nat (String.length stem))%Z
    with true by (symmetry; apply Z.ltb_lt; lia).
  cbn [andb].
  set (i := Z.to_nat (PyStr.rfind OsPath.is_sep stem + 1)).
  replace (PyStr.rfind OsPath.is_sep stem + 1)%Z with (Z.of_nat i)
    by (unfold i; lia).
  replace (Z.to_nat (Z.of_nat (String.length stem) - Z.of_nat i))
    with (String.length stem - i) by lia.
  rewrite skip_leading_dots_spec by (unfold i; lia).
  unfold last_component, PyStr.slice_from. fold i.
  destruct (only_dots (substring i (String.length stem - i) stem));
    cbn [negb]; [reflexivity|].
  unfold PyStr.slice_to, PyStr.slice_from. rewrite Nat2Z.id.
  rewrite substring_append_l. f_equal.
  rewrite length_append.
  replace (String.length stem + String.length (String "." format)
           - String.length stem)
    with (String.length (String "." format)) by lia.
  apply substring_append_r.
Qed.

(** ** What [get_safe_filename] returns *)

(** What [get_safe_filename] does in every case.  Whenever it returns: an
    empty name has become ["output"], the suffix [.format] has been added
    unless the name ended with it already, the name returned does not
    exist, and it is the first free one among the base name and the
    candidates with counters 1, 2, ...  The counter goes where
    [os.path.splitext] cuts: in front of the final [.format] when the last
    path component has some character other than a dot before it, and at
    the very end of the name when it has none (as in [.svg]). *)
Theorem get_safe_filename_resolves
        (path_exists : string -> bool) (base_filename format : string)
        (fuel : nat) (r : string) :
  get_safe_filename path_exists fuel base_filename format = Some r ->
  let base := with_extension base_filename format in
  (base_filename = "" -> base = "output." ++ format) /\
  (base_filename <> "" ->
   (forall stem, base_filename = stem ++ "." ++ format ->
                 base = base_filename) /\
   ((forall stem, base_filename <> stem ++ "." ++ format) ->
    base = base_filename ++ "." ++ format)) /\
  path_exists r = false /\
  (exists k, r = attempt base k /\
             forall j, j < k -> path_exists (attempt base j) = true) /\
  (forall stem k,
      base = stem ++ "." ++ format ->
      PyStr.contains "." format = false ->
      PyStr.contains "/" format = false ->
      1 <= k ->
      attempt base k =
      if only_dots (last_component stem)
      then base ++ "_" ++ PyStr.str_of_nat k
      else stem ++ "_" ++ PyStr.str_of_nat k ++ "." ++ format).
Proof.
  intros H base. repeat split.
  - intros ->. apply with_extension_empty.
  - intros stem Hs. unfold base, with_extension.
    destruct (String.eqb_spec base_filename ""); [contradiction|].
    now rewrite Hs, endswith_append.
  - intros Hs. unfold base, with_extension.
    destruct (String.eqb_spec base_filename ""); [contradiction|].
    destruct (PyStr.endswith base_filename ("." ++ format)) eqn:He;
      [|reflexivity].
    apply endswith_true in He as (pre & He). now destruct (Hs pre).
  - unfold get_safe_filename in H. fold base in H.
    apply (safe_loop_some path_exists base fuel 0) in H.
    now destruct H as (k & _ & _ & _ & Hfree & _).
  - unfold get_safe_filename in H. fold base in H.
    apply (safe_loop_some path_exists base fuel 0) in H.
    destruct H as (k & _ & _ & Hr & _ & Hbusy).
    exists k. split; [assumption|]. intros j Hj. apply Hbusy. lia.
  - intros stem k Hs Hdot Hsep Hk.
    destruct k as [|k]; [lia|]. cbn [attempt]. unfold candidate.
    rewrite Hs at 1. rewrite (splitext_with_suffix stem format Hdot Hsep).
    destruct (only_dots (last_component stem)).
    + rewrite append_empty_r. now rewrite <- Hs.
    + reflexivity.
Qed.

Lemma get_safe_filename_resolves_witness :
  let taken p := existsb (String.eqb p) ["output.svg"; "output_1.svg"] in
  get_safe_filename taken 3 "" "svg" = Some "output_2.svg" /\
  get_safe_filename (fun p => String.eqb p "output.svg") 3 "output" "svg"
    = Some "output_1.svg" /\
  with_extension "" "svg" = "output.svg" /\
  taken "output_2.svg" = false /\
  (forall k, 1 <= k ->
             attempt "output.svg" k = "output_" ++ PyStr.str_of_nat k ++ ".svg").
Proof.
  intros taken.
  destruct (get_safe_filename_resolves taken "" "svg" 3 "output_2.svg"
              eq_refl) as (H1 & _ & H3 & _ & H5).
  split; [reflexivity|]. split; [reflexivity|].
  split; [apply H1; reflexivity|]. split; [exact H3|].
  intros k Hk.
  apply (H5 "output" k); (reflexivity || exact Hk).
Defined.

(** C2.  On a name that is nothing but the extension the code misses what
    it sets out to do.  With [.svg] typed as the file name and a file
    [.svg] present, the name already ends with [.svg]; [splitext] finds no
    extension in it, so [ext] is empty and the counter is put at the very
    end: the result is [.svg_1], which does not end with [.svg] any more,
    and no name [_k.svg], with the counter in front of the extension, can
    come out. *)
Lemma get_safe_filename_counter_after_extension :
  let taken p := String.eqb p ".svg" in
  with_extension ".svg" "svg" = "" ++ ".svg" /\
  OsPath.splitext ".svg" = (".svg", "") /\
  get_safe_filename taken 2 ".svg" "svg" = Some ".svg_1" /\
  PyStr.endswith ".svg_1" ".svg" = false /\
  (forall fuel k,
      get_safe_filename taken fuel ".svg" "svg"
      <> Some ("" ++ "_" ++ PyStr.str_of_nat k ++ ".svg")).
Proof.
  intros taken. repeat split.
  intros fuel k H.
  apply (safe_loop_some taken (with_extension ".svg" "svg") fuel 0) in H.
  destruct H as (j & _ & _ & Hj & _).
  destruct j as [|j]; [discriminate Hj|].
  cbn [attempt] in Hj. unfold candidate in Hj.
  change (OsPath.splitext (with_extension ".svg" "svg"))
    with (".svg", "") in Hj.
  simpl in Hj. discriminate Hj.
Qed.

(** the resolution run against the files of a world always returns *)
Lemma get_safe_filename_io_returns
      (L : Lib) (base_filename format : string) (w : World (ndarray L)) :
  exists r, get_safe_filename_io L base_filename format w = (Ok r, w) /\
            file_exists w r = false.
Proof.
  destruct (some_attempt_is_free (file_exists w) (files w)
              (with_extension base_filename format)) as (k & Hk & Hfree & Hbusy).
  - intros p Hp. unfold file_exists in Hp.
    apply existsb_exists in Hp as (x & Hx & Heq).
    apply String.eqb_eq in Heq. now subst.
  - exists (attempt (with_extension base_filename format) k).
    pose proof (safe_loop_finds (file_exists w)
                  (with_extension base_filename format) k 0
                  (S (List.length (files w)))) as E.
    cbn [attempt Nat.add] in E.
    unfold get_safe_filename_io, get_safe_filename.
    rewrite E; [now split | | assumption | lia].
    intros j Hj. apply Hbusy. lia.
Qed.

(** ** Exceptions stay inside the plot functions *)

Section Ensures.

Variable L : Lib.
Local Abbreviation Py := (M (ndarray L)).

Lemma ensures_ret {A} (P : A -> Prop) (a : A) :
  P a -> ensures P (ret a : Py A).
Proof. intros H w. exact H. Qed.

Lemma ensures_raise {A} (P : A -> Prop) (e : exception) :
  ensures P (raise e : Py A).
Proof. intros w. exact I. Qed.

Lemma ensures_call {A} (r : exception + A) :
  ensures (fun _ => True) (call r : Py A).
Proof. intros w. destruct r; exact I. Qed.

Lemma ensures_log (a : action (ndarray L)) :
  ensures (fun _ => True) (log a : Py unit).
Proof. intros w. exact I. Qed.

Lemma ensures_plt (c : plt_call (ndarray L)) :
  ensures (fun _ => True) (plt L c).
Proof. intros w. unfold plt. destruct (plt_raises L (trace w) c); exact I. Qed.

Lemma ensures_savefig (filename format : string) :
  ensures (fun _ => True) (savefig L filename format).
Proof.
  intros w. unfold savefig.
  destruct (savefig_raises L (trace w) filename format); exact I.
Qed.

Lemma ensures_bind {A B} (Q : A -> Prop) (P : B -> Prop)
      (m : Py A) (k : A -> Py B) :
  ensures Q m -> (forall a, ensures P (k a)) -> ensures P (bind m k).
Proof.
  intros Hm Hk w. unfold bind. specialize (Hm w).
  destruct (m w) as [[a|[e|]|] w']; simpl in *; try contradiction.
  - apply Hk.
  - exact I.
Qed.

Lemma ensures_weaken {A} (Q P : A -> Prop) (m : Py A) :
  ensures Q m -> (forall a, Q a -> P a) -> ensures P m.
Proof.
  intros Hm HQ w. specialize (Hm w).
  destruct (fst (m w)) as [a|[e|]|]; auto.
Qed.

Lemma ensures_try {A} (P : A -> Prop)
      (body : Py A) (handler : exception -> Py A) :
  ensures P body -> (forall e, ensures P (handler e)) ->
  ensures P (try_except_Exception body handler).
Proof.
  intros Hb Hh w. unfold try_except_Exception. specialize (Hb w).
  destruct (body w) as [[a|[e|]|] w']; simpl in *; try contradiction.
  - exact Hb.
  - apply Hh.
Qed.

End Ensures.

(** one step of a body: the continuation of a bind, or a leaf *)
Ltac ensures_step :=
  first
    [ apply ensures_ret; exact I
    | apply ensures_ret; reflexivity
    | apply ensures_raise
    | apply ensures_call
    | apply ensures_log
    | apply ensures_plt
    | apply ensures_savefig
    | apply (ensures_bind _ (fun _ => True)); [|intros ?]
    | apply ensures_try; [|intros ?] ].

Section Contained.

Variable L : Lib.
Local Abbreviation Py := (M (ndarray L)).

Lemma ensures_np_linspace (a b : spec_float) (n : nat) :
  ensures (fun _ => True) (np_linspace L a b n).
Proof. unfold np_linspace. repeat ensures_step. Qed.

Lemma ensures_np_meshgrid (x y : ndarray L) :
  ensures (fun _ => True) (np_meshgrid L x y).
Proof. unfold np_meshgrid. repeat ensures_step. Qed.

Lemma ensures_evaluate (f : callable L) (args : list (ndarray L)) :
  ensures (fun _ => True) (evaluate L f args).
Proof. unfold evaluate. repeat ensures_step. Qed.

Lemma ensures_parse_equation (equation_str : string) :
  ensures (fun _ => True) (parse_equation L equation_str).
Proof.
  unfold parse_equation.
  destruct (PyStr.contains "=" (PyStr.replace "^" "**" equation_str)).
  - apply (ensures_bind _ (fun _ => True)).
    + unfold unpack2.
      destruct (PyStr.split "=" (PyStr.replace "^" "**" equation_str))
        as [|a [|b [|c t]]]; ensures_step.
    + intros [l r]. repeat ensures_step.
  - repeat ensures_step.
Qed.

Lemma ensures_clean_latex_expression (expr : Expr L) :
  ensures (fun _ => True) (FunctionPlotter.clean_latex_expression L expr).
Proof.
  unfold FunctionPlotter.clean_latex_expression, print. repeat ensures_step.
Qed.

Lemma ensures_save_with_fallback (input_str filename format : string) :
  ensures (fun _ => True)
          (FunctionPlotter.save_with_fallback L input_str filename format).
Proof.
  unfold FunctionPlotter.save_with_fallback, print. repeat ensures_step.
Qed.

Lemma ensures_plot_function_body
      (func_str : string) (x_min x_max : spec_float)
      (filename format : string) :
  ensures (fun b => b = true)
          (FunctionPlotter.plot_function_body L func_str x_min x_max
                                              filename format).
Proof.
  unfold FunctionPlotter.plot_function_body.
  repeat first
    [ apply ensures_ret; reflexivity
    | apply ensures_call
    | apply ensures_plt
    | apply ensures_np_linspace
    | apply ensures_evaluate
    | apply ensures_clean_latex_expression
    | apply ensures_save_with_fallback
    | match goal with
      | |- ensures _ (if ?c then _ else _) => destruct c
      end
    | apply (ensures_bind _ (fun _ => True)); [|intros ?] ].
Qed.

Lemma ensures_plot_equation_body
      (equation_str : string) (x_min x_max y_min y_max : spec_float)
      (filename format : string) :
  ensures (fun b => b = true)
          (FunctionPlotter.plot_equation_body L equation_str
             x_min x_max y_min y_max filename format).
Proof.
  unfold FunctionPlotter.plot_equation_body.
  repeat first
    [ apply ensures_ret; reflexivity
    | apply ensures_call
    | apply ensures_plt
    | apply ensures_np_linspace
    | apply ensures_np_meshgrid
    | apply ensures_evaluate
    | apply ensures_parse_equation
    | apply ensures_clean_latex_expression
    | apply ensures_save_with_fallback
    | match goal with
      | |- ensures _ (let (_, _) := ?p in _) => destruct p
      end
    | apply (ensures_bind _ (fun _ => True)); [|intros ?] ].
Qed.


End Contained.

(** ** What a run adds to the trace *)

Section Emits.

Variable L : Lib.
Local Abbreviation Py := (M (ndarray L)).
Context {X : Type}.
Variable sel : action (ndarray L) -> list X.

Lemma emits_ret {A} (P : list X -> Prop) (a : A) :
  P [] -> emits sel P (ret a : Py A).
Proof. intros H w. exists []. now rewrite app_nil_r. Qed.

Lemma emits_raise {A} (P : list X -> Prop) (e : exception) :
  P [] -> emits sel P (raise e : Py A).
Proof. intros H w. exists []. now rewrite app_nil_r. Qed.

Lemma emits_call {A} (P : list X -> Prop) (r : exception + A) :
  P [] -> emits sel P (call r : Py A).
Proof. intros H w. exists []. destruct r; now rewrite app_nil_r. Qed.

Lemma flat_map_snoc (t : list (action (ndarray L))) (a : action (ndarray L)) :
  flat_map sel (t ++ [a]) = (flat_map sel t ++ sel a)%list.
Proof. rewrite flat_map_app. cbn [flat_map]. now rewrite app_nil_r. Qed.

Lemma emits_log (P : list X -> Prop) (a : action (ndarray L)) :
  P (sel a) -> emits sel P (log a : Py unit).
Proof.
  intros H w. exists (sel a). cbn [log snd trace].
  now rewrite flat_map_snoc.
Qed.

Lemma emits_plt (P : list X -> Prop) (c : plt_call (ndarray L)) :
  P (sel (Plt c)) -> emits sel P (plt L c).
Proof.
  intros H w. exists (sel (Plt c)). unfold plt.
  destruct (plt_raises L (trace w) c); cbn [snd trace];
    now rewrite flat_map_snoc.
Qed.

Lemma emits_savefig (P : list X -> Prop) (filename format : string) :
  P (sel (Savefig filename format)) ->
  emits sel P (savefig L filename format).
Proof.
  intros H w. exists (sel (Savefig filename format)). unfold savefig.
  destruct (savefig_raises L (trace w) filename format); cbn [snd trace];
    now rewrite flat_map_snoc.
Qed.

(** sequencing: what the first part adds, then - if it returns - what
    the second adds *)
Lemma emits_bind {A B} (P Q : list X -> Prop)
      (m : Py A) (k : A -> Py B) :
  emits sel P m -> (forall a, emits sel Q (k a)) ->
  emits sel (fun xs => exists p q, xs = (p ++ q)%list /\ P p /\ (q = [] \/ Q q))
        (bind m k).
Proof.
  intros Hm Hk w. unfold bind. destruct (Hm w) as (p & Hp & HP).
  destruct (m w) as [[a|r|] w1]; simpl in Hp.
  - destruct (Hk a w1) as (q & Hq & HQ).
    exists (p ++ q)%list. split.
    + now rewrite Hq, Hp, app_assoc.
    + exists p, q. auto.
  - exists p. split; [assumption|]. exists p, []. rewrite app_nil_r. auto.
  - exists p. split; [assumption|]. exists p, []. rewrite app_nil_r. auto.
Qed.

Lemma emits_try {A} (P Q : list X -> Prop)
      (body : Py A) (handler : exception -> Py A) :
  emits sel P body -> (forall e, emits sel Q (handler e)) ->
  emits sel (fun xs => exists p q, xs = (p ++ q)%list /\ P p /\ (q = [] \/ Q q))
        (try_except_Exception body handler).
Proof.
  intros Hb Hh w. unfold try_except_Exception.
  destruct (Hb w) as (p & Hp & HP).
  destruct (body w) as [[a|[e|]|] w1]; simpl in Hp.
  - exists p. split; [assumption|]. exists p, []. rewrite app_nil_r. auto.
  - destruct (Hh e w1) as (q & Hq & HQ).
    exists (p ++ q)%list. split.
    + now rewrite Hq, Hp, app_assoc.
    + exists p, q. auto.
  - exists p. split; [assumption|]. exists p, []. rewrite app_nil_r. auto.
  - exists p. split; [assumption|]. exists p, []. rewrite app_nil_r. auto.
Qed.

Lemma emits_weaken {A} (P Q : list X -> Prop) (m : Py A) :
  emits sel P m -> (forall xs, P xs -> Q xs) -> emits sel Q m.
Proof.
  intros Hm HPQ w. destruct (Hm w) as (xs & Hxs & HP).
  exists xs. auto.
Qed.

Lemma quiet_bind {A B} (m : Py A) (k : A -> Py B) :
  quiet sel m -> (forall a, quiet sel (k a)) -> quiet sel (bind m k).
Proof.
  intros Hm Hk. eapply emits_weaken; [apply (emits_bind _ _ m k Hm Hk)|].
  intros xs (p & q & -> & -> & [->| ->]); reflexivity.
Qed.

Lemma quiet_try {A} (body : Py A) (handler : exception -> Py A) :
  quiet sel body -> (forall e, quiet sel (handler e)) ->
  quiet sel (try_except_Exception body handler).
Proof.
  intros Hm Hk. eapply emits_weaken; [apply (emits_try _ _ _ _ Hm Hk)|].
  intros xs (p & q & -> & -> & [->| ->]); reflexivity.
Qed.

(** a quiet part in front, a quiet part behind *)
Lemma emits_after_quiet {A B} (P : list X -> Prop)
      (m : Py A) (k : A -> Py B) :
  P [] -> quiet sel m -> (forall a, emits sel P (k a)) -> emits sel P (bind m k).
Proof.
  intros H0 Hm Hk. eapply emits_weaken; [apply (emits_bind _ _ m k Hm Hk)|].
  intros xs (p & q & -> & -> & [->|HQ]); assumption.
Qed.

Lemma emits_before_quiet {A B} (P : list X -> Prop)
      (m : Py A) (k : A -> Py B) :
  emits sel P m -> (forall a, quiet sel (k a)) -> emits sel P (bind m k).
Proof.
  intros Hm Hk. eapply emits_weaken; [apply (emits_bind _ _ m k Hm Hk)|].
  intros xs (p & q & -> & HP & [->| ->]); now rewrite app_nil_r.
Qed.

(** the answer of a library call is known in what follows *)
Lemma emits_after_call {A B} (P : list X -> Prop)
      (r : exception + A) (k : A -> Py B) :
  P [] -> (forall a, r = inr a -> emits sel P (k a)) ->
  emits sel P (bind (call r) k).
Proof.
  intros H0 Hk w. unfold bind, call. destruct r as [e|a].
  - exists []. now rewrite app_nil_r.
  - apply (Hk a eq_refl).
Qed.

End Emits.

(** ** Writing the figure *)

Section Fallback.

Variable L : Lib.
Local Abbreviation Py := (M (ndarray L)).

Lemma save_with_fallback_on_failure
      (input_str filename format : string) (w : World (ndarray L))
      (e : exception) :
  savefig_raises L (trace w) filename format = Some e ->
  let d := FunctionPlotter.default_filename L input_str format in
  let t := (trace w ++
            [Savefig filename format;
             Print ("Error saving file: " ++ str_of_exception e);
             Print ("Attempting to save as " ++ d)])%list in
  FunctionPlotter.save_with_fallback L input_str filename format w =
  match savefig_raises L t d format with
  | None =>
      (Ok d, mkWorld (d :: files w) (stdin w) (t ++ [Savefig d format]))
  | Some e2 =>
      (Raise (Exc e2),
       mkWorld (files w) (stdin w) (t ++ [Savefig d format]))
  end.
Proof.
  intros He d t.
  unfold FunctionPlotter.save_with_fallback, try_except_Exception.
  unfold bind at 1. unfold savefig at 1. rewrite He.
  unfold bind, print, log, savefig, ret. cbn [trace files stdin].
  fold d. subst t. rewrite <- !app_assoc. cbn [app].
  destruct (savefig_raises L _ d format); reflexivity.
Qed.

Lemma save_with_fallback_on_success
      (input_str filename format : string) (w : World (ndarray L)) :
  savefig_raises L (trace w) filename format = None ->
  FunctionPlotter.save_with_fallback L input_str filename format w =
  (Ok filename,
   mkWorld (filename :: files w) (stdin w)
           (trace w ++ [Savefig filename format])).
Proof.
  intros He.
  unfold FunctionPlotter.save_with_fallback, try_except_Exception.
  unfold bind at 1. unfold savefig at 1. rewrite He. reflexivity.
Qed.

Lemma quiet_print {X} (sel : action (ndarray L) -> list X) (msg : string) :
  sel (Print msg) = [] -> quiet sel (print msg : Py unit).
Proof. intros H. apply emits_log. exact H. Qed.

Lemma save_with_fallback_writes (input_str filename format : string) :
  emits savefig_name
        (at_most_one_fallback filename
           (FunctionPlotter.default_filename L input_str format))
        (FunctionPlotter.save_with_fallback L input_str filename format).
Proof.
  unfold FunctionPlotter.save_with_fallback.
  eapply emits_weaken.
  - apply (emits_try L savefig_name
             (fun ws => ws = [filename])
             (fun ws => ws = [] \/
                        ws = [FunctionPlotter.default_filename
                                L input_str format])).
    + apply emits_before_quiet.
      * now apply emits_savefig.
      * intros _. now apply emits_ret.
    + intros e.
      apply emits_after_quiet; [now left | now apply quiet_print | intros _].
      apply emits_after_quiet; [now left | now apply quiet_print | intros _].
      apply emits_before_quiet.
      * apply emits_savefig. now right.
      * intros _. now apply emits_ret.
  - intros ws (p & q & -> & -> & [->|[->| ->]]).
    + right. left. reflexivity.
    + right. left. reflexivity.
    + right. right. reflexivity.
Qed.

End Fallback.

(** solves [quiet sel m] for the parts of the plot functions that add
    nothing of the kind [sel] selects *)
Ltac quiet_solve :=
  unfold quiet, np_linspace, np_meshgrid, evaluate, unpack2, print;
  repeat first
    [ progress unfold quiet
    | apply emits_ret; reflexivity
    | apply emits_raise; reflexivity
    | apply emits_call; reflexivity
    | apply emits_log; reflexivity
    | apply emits_plt; reflexivity
    | match goal with
      | |- emits _ _ (if ?c then _ else _) => destruct c
      | |- emits _ _ (let (_, _) := ?p in _) => destruct p
      | |- emits _ _ (match ?l with [] => _ | _ :: _ => _ end) => destruct l
      end
    | apply quiet_bind; [|intros ?]
    | apply quiet_try; [|intros ?] ].

Section Writes.

Variable L : Lib.
Local Abbreviation Py := (M (ndarray L)).

Lemma emits_bind_ensures {X A B} (sel : action (ndarray L) -> list X)
      (Q : A -> Prop) (P : list X -> Prop) (m : Py A) (k : A -> Py B) :
  ensures Q m -> quiet sel m -> P [] ->
  (forall a, Q a -> emits sel P (k a)) ->
  emits sel P (bind m k).
Proof.
  intros Hens Hq H0 Hk w. unfold bind.
  specialize (Hens w). destruct (Hq w) as (xs & Hxs & ->).
  rewrite app_nil_r in Hxs.
  destruct (m w) as [[a|r|] w1]; simpl in *.
  - destruct (Hk a Hens w1) as (ys & Hys & HP).
    exists ys. split; [now rewrite Hys, Hxs | assumption].
  - exists []. now rewrite app_nil_r.
  - exists []. now rewrite app_nil_r.
Qed.

Lemma quiet_parse_equation {X} (sel : action (ndarray L) -> list X)
      (equation_str : string) :
  quiet sel (parse_equation L equation_str).
Proof. unfold parse_equation. quiet_solve. Qed.

Lemma parse_equation_normalises (equation_str : string) :
  ensures (fun p => fst (fst p) = PyStr.replace "^" "**" equation_str)
          (parse_equation L equation_str).
Proof.
  unfold parse_equation.
  destruct (PyStr.contains "=" (PyStr.replace "^" "**" equation_str)).
  - apply (ensures_bind _ (fun _ => True)).
    + unfold unpack2.
      destruct (PyStr.split "=" (PyStr.replace "^" "**" equation_str))
        as [|a [|b [|c t]]]; ensures_step.
    + intros [l r]. repeat ensures_step.
  - repeat ensures_step.
Qed.

Lemma quiet_clean_latex_expression {X} (sel : action (ndarray L) -> list X)
      (expr : Expr L) :
  (forall s, sel (Print s) = []) ->
  quiet sel (FunctionPlotter.clean_latex_expression L expr).
Proof.
  intros Hp. unfold FunctionPlotter.clean_latex_expression.
  apply quiet_try; [quiet_solve|].
  intros e. apply quiet_bind; [|intros ?; quiet_solve].
  apply emits_log. apply Hp.
Qed.

Lemma plot_function_writes
      (func_str : string) (x_min x_max : spec_float)
      (filename format : string) :
  emits savefig_name
        (at_most_one_fallback filename
           (FunctionPlotter.default_filename L func_str format))
        (FunctionPlotter.plot_function L func_str x_min x_max
                                       filename format).
Proof.
  unfold FunctionPlotter.plot_function.
  eapply emits_weaken.
  - apply (emits_try L savefig_name
             (at_most_one_fallback filename
                (FunctionPlotter.default_filename L func_str format))
             (fun ws => ws = [])).
    + unfold FunctionPlotter.plot_function_body.
      repeat (apply emits_after_quiet;
              [ now left
              | solve [ quiet_solve
                      | now apply quiet_clean_latex_expression ]
              | intros ? ]).
      apply emits_before_quiet;
        [apply save_with_fallback_writes | intros ?; quiet_solve].
    + intros e. quiet_solve.
  - intros ws (p & q & -> & Hp & [->| ->]); now rewrite app_nil_r.
Qed.

Lemma plot_equation_writes
      (equation_str : string) (x_min x_max y_min y_max : spec_float)
      (filename format : string) :
  emits savefig_name
        (at_most_one_fallback filename
           (FunctionPlotter.default_filename
              L (PyStr.replace "^" "**" equation_str) format))
        (FunctionPlotter.plot_equation L equation_str
           x_min x_max y_min y_max filename format).
Proof.
  unfold FunctionPlotter.plot_equation.
  eapply emits_weaken.
  - apply (emits_try L savefig_name
             (at_most_one_fallback filename
                (FunctionPlotter.default_filename
                   L (PyStr.replace "^" "**" equation_str) format))
             (fun ws => ws = [])).
    + unfold FunctionPlotter.plot_equation_body.
      apply (emits_bind_ensures savefig_name
               (fun p => fst (fst p) = PyStr.replace "^" "**" equation_str));
        [ apply parse_equation_normalises
        | apply quiet_parse_equation
        | now left
        | intros [[n eq] expr] Hn ].
      simpl in Hn. subst n.
      repeat (apply emits_after_quiet;
              [ now left
              | solve [ quiet_solve
                      | now apply quiet_clean_latex_expression ]
              | intros ? ]);
        try match goal with
            | |- emits _ _ (let (_, _) := ?p in _) => destruct p
            end.
      repeat (apply emits_after_quiet;
              [ now left
              | solve [ quiet_solve
                      | now apply quiet_clean_latex_expression ]
              | intros ? ]).
      apply emits_before_quiet;
        [apply save_with_fallback_writes | intros ?; quiet_solve].
    + intros e. quiet_solve.
  - intros ws (p & q & -> & Hp & [->| ->]); now rewrite app_nil_r.
Qed.

End Writes.




(** ** Range validation in [main] *)

Lemma SFcompare_Eq_sym (a b : spec_float) :
  SFcompare a b = Some Eq -> SFcompare b a = Some Eq.
Proof.
  destruct a as [sa|sa| |sa ma ea], b as [sb|sb| |sb mb eb]; simpl;
    try discriminate; try reflexivity;
    try (destruct sa; discriminate); try (destruct sb; discriminate).
  - destruct sa, sb; try discriminate; reflexivity.
  - destruct sa, sb; try discriminate.
    + destruct (ea ?= eb)%Z eqn:He; try discriminate.
      destruct (Pos.compare_cont Eq ma mb) eqn:Hm; try discriminate.
      apply Z.compare_eq in He. apply Pos.compare_eq in Hm. subst.
      intros _. now rewrite Z.compare_refl, Pos.compare_cont_refl.
    + destruct (ea ?= eb)%Z eqn:He; try discriminate.
      destruct (Pos.compare_cont Eq ma mb) eqn:Hm; try discriminate.
      apply Z.compare_eq in He. apply Pos.compare_eq in Hm. subst.
      intros _. now rewrite Z.compare_refl, Pos.compare_cont_refl.
Qed.

(** [a == b] or [a > b] makes the test [a >= b] of [main] succeed *)
Lemma float_ge_of_eq_or_gt (a b : spec_float) :
  SFeqb a b = true \/ SFltb b a = true ->
  FunctionPlotter.float_ge a b = true.
Proof.
  unfold FunctionPlotter.float_ge, SFeqb, SFltb, SFleb. intros [H|H].
  - destruct (SFcompare a b) as [[| |]|] eqn:Hc; try discriminate.
    now rewrite (SFcompare_Eq_sym a b Hc).
  - destruct (SFcompare b a) as [[| |]|]; try discriminate. reflexivity.
Qed.

Section MainLoop.

Variable L : Lib.
Variable w : World (ndarray L).

Lemma input_line (prompt s : string) (rest : list stdin_item)
      (fs : list string) (t : list (action (ndarray L))) :
  input prompt (mkWorld fs (Line s :: rest) t) =
  (Ok s, mkWorld fs rest (t ++ [Prompt prompt])).
Proof. reflexivity. Qed.

Lemma input_float_line (prompt s : string) (x : spec_float)
      (rest : list stdin_item) (fs : list string)
      (t : list (action (ndarray L))) :
  float_of_string L s = inr x ->
  FunctionPlotter.input_float L prompt (mkWorld fs (Line s :: rest) t) =
  (Ok x, mkWorld fs rest (t ++ [Prompt prompt])).
Proof.
  intros H. unfold FunctionPlotter.input_float, bind.
  rewrite input_line, H. reflexivity.
Qed.

Lemma main_iteration_function_bad_range
      (choice func_str smin smax : string) (rest : list stdin_item)
      (e : Expr L) (x_min x_max : spec_float) :
  stdin w = Line choice :: Line func_str :: Line smin :: Line smax :: rest ->
  PyStr.strip choice = "1" ->
  sympify L (PyStr.replace "^" "**" func_str) = inr e ->
  float_of_string L smin = inr x_min ->
  float_of_string L smax = inr x_max ->
  FunctionPlotter.float_ge x_min x_max = true ->
  FunctionPlotter.main_iteration L w =
  (Ok false,
   mkWorld (files w) rest
     (trace w ++
      [Prompt "Enter 1 for function, 2 for equation: ";
       Prompt "Enter function f(x) = ";
       Prompt "Enter minimum x value: ";
       Prompt "Enter maximum x value: ";
       Print (LF ++ "Error: Minimum x value must be less than maximum x value");
       Print ("Please try again." ++ LF)])).
Proof.
  intros Hin Hc He Hmin Hmax Hge.
  destruct w as [fs si t]. simpl in Hin. subst si.
  unfold FunctionPlotter.main_iteration, FunctionPlotter.main_try.
  unfold bind at 1. rewrite input_line, Hc.
  cbn [String.eqb Ascii.eqb Bool.eqb orb negb].
  unfold bind at 1. rewrite input_line.
  unfold bind at 1. rewrite validate_function_unfold, He.
  unfold bind at 1. rewrite (input_float_line _ _ x_min) by assumption.
  unfold bind at 1. rewrite (input_float_line _ _ x_max) by assumption.
  rewrite Hge.
  unfold raise, bind, print, log, ret. cbn [files stdin trace].
  rewrite <- !app_assoc. reflexivity.
Qed.

Lemma main_iteration_equation_bad_range
      (choice equation_str sxmin sxmax symin symax : string)
      (rest : list stdin_item) (x_min x_max y_min y_max : spec_float) :
  stdin w = Line choice :: Line equation_str :: Line sxmin :: Line sxmax
                 :: Line symin :: Line symax :: rest ->
  PyStr.strip choice = "2" ->
  float_of_string L sxmin = inr x_min ->
  float_of_string L sxmax = inr x_max ->
  float_of_string L symin = inr y_min ->
  float_of_string L symax = inr y_max ->
  FunctionPlotter.float_ge x_min x_max
    || FunctionPlotter.float_ge y_min y_max = true ->
  FunctionPlotter.main_iteration L w =
  (Ok false,
   mkWorld (files w) rest
     (trace w ++
      [Prompt "Enter 1 for function, 2 for equation: ";
       Prompt "Enter equation in x and y (e.g., x^2 + y^2 = 1): ";
       Prompt "Enter minimum x value: ";
       Prompt "Enter maximum x value: ";
       Prompt "Enter minimum y value: ";
       Prompt "Enter maximum y value: ";
       Print (LF ++ "Error: Minimum values must be less than maximum values");
       Print ("Please try again." ++ LF)])).
Proof.
  intros Hin Hc Hxmin Hxmax Hymin Hymax Hge.
  destruct w as [fs si t]. simpl in Hin. subst si.
  unfold FunctionPlotter.main_iteration, FunctionPlotter.main_try.
  unfold bind at 1. rewrite input_line, Hc.
  cbn [String.eqb Ascii.eqb Bool.eqb orb negb].
  unfold bind at 1. rewrite input_line.
  unfold bind at 1. rewrite (input_float_line _ _ x_min) by assumption.
  unfold bind at 1. rewrite (input_float_line _ _ x_max) by assumption.
  unfold bind at 1. rewrite (input_float_line _ _ y_min) by assumption.
  unfold bind at 1. rewrite (input_float_line _ _ y_max) by assumption.
  rewrite Hge.
  unfold raise, bind, print, log, ret. cbn [files stdin trace].
  rewrite <- !app_assoc. reflexivity.
Qed.

Lemma work_console_only (t c : list (action (ndarray L))) :
  work c = [] -> work (t ++ c) = work t.
Proof.
  intros H. unfold work in *. now rewrite flat_map_app, H, app_nil_r.
Qed.

End MainLoop.

(** C3. In [main], once the expression is accepted and the bounds are
    read, bounds with [x_min == x_max] or [x_min > x_max] (for an equation
    also [y_min >= y_max]) end the turn of the loop with the [ValueError]
    of the range check: the message is shown, the question is asked again,
    the files are as before, and between the prompts and the message
    nothing was sampled, drawn or written. *)
Theorem main_rejects_bad_range (L : Lib) (w : World (ndarray L)) :
  (forall choice func_str smin smax rest e x_min x_max,
      stdin w = Line choice :: Line func_str :: Line smin :: Line smax
                     :: rest ->
      PyStr.strip choice = "1" ->
      sympify L (PyStr.replace "^" "**" func_str) = inr e ->
      float_of_string L smin = inr x_min ->
      float_of_string L smax = inr x_max ->
      SFeqb x_min x_max = true \/ SFltb x_max x_min = true ->
      exists w',
        FunctionPlotter.main_iteration L w = (Ok false, w') /\
        files w' = files w /\
        stdin w' = rest /\
        work (trace w') = work (trace w) /\
        trace w' =
          (trace w ++
           [Prompt "Enter 1 for function, 2 for equation: ";
            Prompt "Enter function f(x) = ";
            Prompt "Enter minimum x value: ";
            Prompt "Enter maximum x value: ";
            Print (LF ++ "Error: Minimum x value must be less than maximum x value");
            Print ("Please try again." ++ LF)])%list) /\
  (forall choice equation_str sxmin sxmax symin symax rest
          x_min x_max y_min y_max,
      stdin w = Line choice :: Line equation_str :: Line sxmin :: Line sxmax
                     :: Line symin :: Line symax :: rest ->
      PyStr.strip choice = "2" ->
      float_of_string L sxmin = inr x_min ->
      float_of_string L sxmax = inr x_max ->
      float_of_string L symin = inr y_min ->
      float_of_string L symax = inr y_max ->
      (SFeqb x_min x_max = true \/ SFltb x_max x_min = true) \/
      SFleb y_max y_min = true ->
      exists w',
        FunctionPlotter.main_iteration L w = (Ok false, w') /\
        files w' = files w /\
        stdin w' = rest /\
        work (trace w') = work (trace w) /\
        trace w' =
          (trace w ++
           [Prompt "Enter 1 for function, 2 for equation: ";
            Prompt "Enter equation in x and y (e.g., x^2 + y^2 = 1): ";
            Prompt "Enter minimum x value: ";
            Prompt "Enter maximum x value: ";
            Prompt "Enter minimum y value: ";
            Prompt "Enter maximum y value: ";
            Print (LF ++ "Error: Minimum values must be less than maximum values");
            Print ("Please try again." ++ LF)])%list).
Proof.
  split.
  - intros choice func_str smin smax rest e x_min x_max
           Hin Hc He Hmin Hmax Hbad.
    eexists. split.
    + apply (main_iteration_function_bad_range L w choice func_str smin smax
               rest e x_min x_max); try assumption.
      now apply float_ge_of_eq_or_gt.
    + cbn [trace files stdin]. repeat split. now apply work_console_only.
  - intros choice equation_str sxmin sxmax symin symax rest
           x_min x_max y_min y_max Hin Hc Hxmin Hxmax Hymin Hymax Hbad.
    eexists. split.
    + apply (main_iteration_equation_bad_range L w choice equation_str
               sxmin sxmax symin symax rest x_min x_max y_min y_max);
        try assumption.
      destruct Hbad as [Hx|Hy].
      * now rewrite (float_ge_of_eq_or_gt _ _ Hx).
      * unfold FunctionPlotter.float_ge at 2. rewrite Hy. apply orb_true_r.
    + cbn [trace files stdin]. repeat split. now apply work_console_only.
Qed.

Lemma main_rejects_bad_range_witness :
  let w := Toy.world ["output.svg"] ["1"; "x^2"; "2"; "2"; "1"; "out"] in
  exists w',
    FunctionPlotter.main_iteration Toy.lib w = (Ok false, w') /\
    files w' = ["output.svg"] /\
    stdin w' = [Line "1"; Line "out"] /\
    work (trace w') = [].
Proof.
  intros w.
  destruct (main_rejects_bad_range Toy.lib w) as [H _].
  destruct (H "1" "x^2" "2" "2" [Line "1"; Line "out"]
              (Toy.Parsed "x**2") Toy.two Toy.two)
    as (w' & H1 & H2 & H3 & H4 & _);
    try reflexivity.
  - left. reflexivity.
  - exists w'. repeat split; assumption.
Defined.

(** ** Typeset strings *)

Lemma replace_from_deletes (old : string) (c : ascii) (s : string) :
  forall skip,
    PyStr.contains (String c "") (PyStr.replace_from old "" skip s) = true ->
    PyStr.contains (String c "") s = true.
Proof.
  induction s as [|x s IH]; intros skip H; [exact H|].
  rewrite contains_char_cons. cbn [PyStr.replace_from] in H.
  destruct skip as [|skip].
  - destruct (prefix old (String x s)).
    + cbn [append] in H. rewrite (IH _ H). apply orb_true_r.
    + rewrite contains_char_cons in H.
      apply orb_true_iff in H as [H|H]; [now rewrite H|].
      rewrite (IH _ H). apply orb_true_r.
  - rewrite (IH _ H). apply orb_true_r.
Qed.

Lemma replace_char_removes (c : ascii) (s : string) :
  PyStr.contains (String c "") (PyStr.replace (String c "") "" s) = false.
Proof.
  induction s as [|x s IH]; [reflexivity|].
  rewrite replace_char_cons.
  destruct (Ascii.eqb x c) eqn:Hx; [exact IH|].
  now rewrite contains_char_cons, Hx, IH.
Qed.

(** no [$] is left in a sanitised string *)
Lemma sanitize_no_dollar (tex : string) :
  PyStr.contains "$" (sanitize tex) = false.
Proof.
  unfold sanitize, PyStr.replace.
  destruct (PyStr.contains "$" (PyStr.replace_from "\right" "" 0 _)) eqn:H;
    [|reflexivity].
  apply replace_from_deletes, replace_from_deletes in H.
  fold (PyStr.replace "$" "" tex) in H.
  now rewrite replace_char_removes in H.
Qed.

Section Titles.

Variable L : Lib.
Local Abbreviation Py := (M (ndarray L)).

Lemma clean_latex_expression_cleaned (expr : Expr L) :
  ensures (cleaned L expr) (FunctionPlotter.clean_latex_expression L expr).
Proof.
  intros w. unfold FunctionPlotter.clean_latex_expression,
              try_except_Exception, bind, call, print, log, ret, raise.
  destruct (latex L expr) as [e|tex] eqn:Hl; simpl.
  - right. now exists e.
  - left. now exists tex.
Qed.

(** the title of a function plot goes through the sanitisation *)
Lemma plot_function_title_cleaned
      (func_str : string) (x_min x_max : spec_float)
      (filename format : string) :
  emits title_text
        (fun ts => forall t, In t ts ->
                             exists expr tex_expr,
                               cleaned L expr tex_expr /\
                               t = "$f(x) = " ++ tex_expr ++ "$")
        (FunctionPlotter.plot_function L func_str x_min x_max
                                       filename format).
Proof.
  set (P := fun ts : list string =>
              forall t, In t ts ->
                        exists expr tex_expr,
                          cleaned L expr tex_expr /\
                          t = "$f(x) = " ++ tex_expr ++ "$").
  assert (P0 : P []) by (intros t []).
  unfold FunctionPlotter.plot_function.
  eapply emits_weaken.
  - apply (emits_try L title_text P (fun ws => ws = [])).
    + unfold FunctionPlotter.plot_function_body.
      apply emits_after_call; [exact P0 | intros expr _].
      do 3 (apply emits_after_quiet;
            [exact P0 | solve [quiet_solve] | intros ?]).
      apply (emits_bind_ensures L title_text (cleaned L expr));
        [ apply clean_latex_expression_cleaned
        | now apply quiet_clean_latex_expression
        | exact P0
        | intros tex_expr Hclean ].
      do 5 (apply emits_after_quiet;
            [exact P0 | solve [quiet_solve] | intros ?]).
      apply emits_before_quiet.
      * apply emits_plt. intros t [<-|[]]. now exists expr, tex_expr.
      * intros ?. unfold FunctionPlotter.save_with_fallback. quiet_solve.
        all: apply emits_savefig; reflexivity.
    + intros e. quiet_solve.
  - intros ws (p & q & -> & Hp & [->| ->]); now rewrite app_nil_r.
Qed.

(** the title of an equation plot is the raw [latex] between dollars *)
Lemma plot_equation_title_raw
      (equation_str : string) (x_min x_max y_min y_max : spec_float)
      (filename format : string) :
  emits title_text
        (fun ts => forall t, In t ts ->
                             exists eq raw,
                               latex L eq = inr raw /\
                               t = "$" ++ raw ++ "$")
        (FunctionPlotter.plot_equation L equation_str
           x_min x_max y_min y_max filename format).
Proof.
  set (P := fun ts : list string =>
              forall t, In t ts ->
                        exists eq raw,
                          latex L eq = inr raw /\ t = "$" ++ raw ++ "$").
  assert (P0 : P []) by (intros t []).
  unfold FunctionPlotter.plot_equation.
  eapply emits_weaken.
  - apply (emits_try L title_text P (fun ws => ws = [])).
    + unfold FunctionPlotter.plot_equation_body.
      apply emits_after_quiet;
        [exact P0 | apply quiet_parse_equation | intros [[n eq] expr]].
      apply emits_after_quiet;
        [exact P0 | now apply quiet_clean_latex_expression | intros ?].
      do 3 (apply emits_after_quiet;
            [exact P0 | solve [quiet_solve] | intros ?]).
      match goal with
      | |- emits _ _ (let (_, _) := ?p in _) => destruct p
      end.
      do 7 (apply emits_after_quiet;
            [exact P0 | solve [quiet_solve] | intros ?]).
      apply emits_after_call; [exact P0 | intros raw Hraw].
      apply emits_before_quiet.
      * apply emits_plt. intros t [<-|[]]. now exists eq, raw.
      * intros ?. unfold FunctionPlotter.save_with_fallback. quiet_solve.
        all: apply emits_savefig; reflexivity.
    + intros e. quiet_solve.
  - intros ws (p & q & -> & Hp & [->| ->]); now rewrite app_nil_r.
Qed.

End Titles.

(** C8 at a failing input.  For the equation [(x+y)^2=1] sympy typesets the
    equality with [\left] and [\right].  [clean_latex_expression] is called
    on it and gives the string without them, but the title is built from
    [latex(eq)] again: both in [plot_equation] and in the preview of the
    graphical program the displayed title keeps [\left] and [\right]. *)
Theorem equation_title_not_sanitized :
  let w := Toy.world [] [] in
  let eq := Toy.Equality (Toy.Parsed "(x+y)**2") (Toy.Parsed "1") in
  let cli :=
    FunctionPlotter.plot_equation Toy.lib "(x+y)^2=1"
      Toy.minus_two Toy.two Toy.minus_two Toy.two "curve.svg" "svg" w in
  let gui :=
    PlotterGui.plot_equation_gui_preview Toy.lib "(x+y)^2=1"
      Toy.minus_two Toy.two Toy.minus_two Toy.two w in
  fst (parse_equation Toy.lib "(x+y)^2=1" w)
    = Ok ("(x+y)**2=1", eq, Toy.Minus (Toy.Parsed "(x+y)**2") (Toy.Parsed "1")) /\
  fst (FunctionPlotter.clean_latex_expression Toy.lib eq w)
    = Ok "(x + y)^{2} = 1" /\
  fst cli = Ok true /\
  titles (trace (snd cli)) = ["$\left(x + y\right)^{2} = 1$"] /\
  fst gui = Ok tt /\
  titles (trace (snd gui)) = ["$\left(x + y\right)^{2} = 1$"] /\
  PyStr.contains "\left" "$\left(x + y\right)^{2} = 1$" = true /\
  PyStr.contains "\right" "$\left(x + y\right)^{2} = 1$" = true.
Proof. repeat split. Qed.


(** ** What is asked of numpy *)

Section Sampling.

Variable L : Lib.
Local Abbreviation Py := (M (ndarray L)).

Lemma emits_bind_with {X A B} (sel : action (ndarray L) -> list X)
      (Q : A -> Prop) (P1 P2 : list X -> Prop) (m : Py A) (k : A -> Py B) :
  ensures Q m -> emits sel P1 m ->
  (forall a, Q a -> emits sel P2 (k a)) ->
  emits sel
        (fun xs => exists p q, xs = (p ++ q)%list /\ P1 p /\ (q = [] \/ P2 q))
        (bind m k).
Proof.
  intros Hens Hm Hk w. unfold bind.
  specialize (Hens w). destruct (Hm w) as (p & Hp & HP).
  destruct (m w) as [[a|r|] w1]; simpl in *.
  - destruct (Hk a Hens w1) as (q & Hq & HQ).
    exists (p ++ q)%list. split.
    + now rewrite Hq, Hp, app_assoc.
    + exists p, q. auto.
  - exists p. split; [assumption|]. exists p, []. rewrite app_nil_r. auto.
  - exists p. split; [assumption|]. exists p, []. rewrite app_nil_r. auto.
Qed.

Lemma np_linspace_value (a b : spec_float) (n : nat) :
  ensures (fun xs => linspace L a b n = inr xs) (np_linspace L a b n).
Proof.
  intros w. unfold np_linspace, bind, log, call, ret, raise.
  destruct (linspace L a b n); simpl; auto.
Qed.

Lemma np_linspace_asks (a b : spec_float) (n : nat) :
  emits sampling (fun xs => xs = [Linspace a b n]) (np_linspace L a b n).
Proof.
  unfold np_linspace. apply emits_before_quiet.
  - now apply emits_log.
  - intros _. quiet_solve.
Qed.

Lemma evaluate_asks (f : callable L) (args : list (ndarray L)) :
  emits sampling (fun xs => xs = [Evaluate args]) (evaluate L f args).
Proof.
  unfold evaluate. apply emits_before_quiet.
  - now apply emits_log.
  - intros _. quiet_solve.
Qed.

Lemma quiet_save_with_fallback {X} (sel : action (ndarray L) -> list X)
      (input_str filename format : string) :
  (forall s, sel (Print s) = []) ->
  (forall f g, sel (Savefig f g) = []) ->
  quiet sel (FunctionPlotter.save_with_fallback L input_str filename format).
Proof.
  intros Hp Hs. unfold FunctionPlotter.save_with_fallback.
  apply quiet_try.
  - apply quiet_bind; [apply emits_savefig, Hs | intros _; quiet_solve].
  - intros e.
    apply quiet_bind; [apply emits_log, Hp | intros _].
    apply quiet_bind; [apply emits_log, Hp | intros _].
    apply quiet_bind; [apply emits_savefig, Hs | intros _; quiet_solve].
Qed.

(** [plot_function] asks for 1000 points from [x_min] to [x_max] and has the
    compiled one-variable function evaluated on exactly the array that
    [linspace] answered. *)
Lemma plot_function_samples
      (func_str : string) (x_min x_max : spec_float)
      (filename format : string) :
  emits sampling
        (fun xs =>
           xs = [] \/
           xs = [Linspace x_min x_max 1000] \/
           exists x_vals,
             linspace L x_min x_max 1000 = inr x_vals /\
             xs = [Linspace x_min x_max 1000; Evaluate [x_vals]])
        (FunctionPlotter.plot_function L func_str x_min x_max
                                       filename format).
Proof.
  set (P := fun xs : list (action (ndarray L)) =>
              xs = [] \/
              xs = [Linspace x_min x_max 1000] \/
              exists x_vals,
                linspace L x_min x_max 1000 = inr x_vals /\
                xs = [Linspace x_min x_max 1000; Evaluate [x_vals]]).
  assert (P0 : P []) by now left.
  unfold FunctionPlotter.plot_function.
  eapply emits_weaken.
  - apply (emits_try L sampling P (fun ws => ws = [])).
    + unfold FunctionPlotter.plot_function_body.
      apply emits_after_call; [exact P0 | intros expr _].
      apply emits_after_call; [exact P0 | intros f _].
      eapply emits_weaken.
      * apply (emits_bind_with sampling
                 (fun xs => linspace L x_min x_max 1000 = inr xs)
                 (fun xs => xs = [Linspace x_min x_max 1000])
                 (fun xs => exists x_vals,
                      linspace L x_min x_max 1000 = inr x_vals /\
                      xs = [Evaluate [x_vals]]));
          [apply np_linspace_value | apply np_linspace_asks |].
        intros x_vals Hx.
        apply emits_before_quiet.
        -- eapply emits_weaken; [apply evaluate_asks|].
           intros xs ->. now exists x_vals.
        -- intros y_vals.
           apply quiet_bind;
             [now apply quiet_clean_latex_expression | intros ?].
           repeat (apply quiet_bind;
                   [ solve [ quiet_solve
                           | now apply quiet_save_with_fallback ]
                   | intros ? ]).
           quiet_solve.
      * intros xs (p & q & -> & -> & [->|(x_vals & Hx & ->)]).
        -- right. now left.
        -- right. right. now exists x_vals.
    + intros e. quiet_solve.
  - intros ws (p & q & -> & Hp & [->| ->]); now rewrite app_nil_r.
Qed.

Lemma np_meshgrid_value (x_vals y_vals : ndarray L) :
  ensures (fun XY => meshgrid L x_vals y_vals = inr XY)
          (np_meshgrid L x_vals y_vals).
Proof.
  intros w. unfold np_meshgrid, bind, log, call, ret, raise.
  destruct (meshgrid L x_vals y_vals); simpl; auto.
Qed.

Lemma np_meshgrid_asks (x_vals y_vals : ndarray L) :
  emits sampling (fun xs => xs = [Meshgrid x_vals y_vals])
        (np_meshgrid L x_vals y_vals).
Proof.
  unfold np_meshgrid. apply emits_before_quiet.
  - now apply emits_log.
  - intros _. quiet_solve.
Qed.

(** [plot_equation] asks for 400 points on each axis, for the grid over the
    two arrays that [linspace] answered, and has the compiled two-variable
    function evaluated on the two arrays of that grid. *)
Lemma plot_equation_samples
      (equation_str : string) (x_min x_max y_min y_max : spec_float)
      (filename format : string) :
  emits sampling (grid_requests L x_min x_max y_min y_max)
        (FunctionPlotter.plot_equation L equation_str
           x_min x_max y_min y_max filename format).
Proof.
  assert (P0 : grid_requests L x_min x_max y_min y_max []) by now left.
  unfold FunctionPlotter.plot_equation.
  eapply emits_weaken.
  - apply (emits_try L sampling (grid_requests L x_min x_max y_min y_max)
             (fun ws => ws = [])).
    + unfold FunctionPlotter.plot_equation_body.
      apply emits_after_quiet;
        [exact P0 | apply quiet_parse_equation | intros [[n eq] expr]].
      apply emits_after_quiet;
        [exact P0 | now apply quiet_clean_latex_expression | intros ?].
      eapply emits_weaken.
      * apply (emits_bind_with sampling
                 (fun xs => linspace L x_min x_max 400 = inr xs)
                 (fun xs => xs = [Linspace x_min x_max 400])
                 (fun xs => exists x_vals,
                      linspace L x_min x_max 400 = inr x_vals /\
                      grid_from_y L y_min y_max x_vals xs));
          [apply np_linspace_value | apply np_linspace_asks |].
        intros x_vals Hx. eapply emits_weaken.
        -- apply (emits_bind_with sampling
                    (fun ys => linspace L y_min y_max 400 = inr ys)
                    (fun xs => xs = [Linspace y_min y_max 400])
                    (fun xs => exists y_vals,
                         linspace L y_min y_max 400 = inr y_vals /\
                         grid_from_meshgrid L x_vals y_vals xs));
             [apply np_linspace_value | apply np_linspace_asks |].
           intros y_vals Hy. eapply emits_weaken.
           ++ apply (emits_bind_with sampling
                       (fun XY => meshgrid L x_vals y_vals = inr XY)
                       (fun xs => xs = [Meshgrid x_vals y_vals])
                       (fun xs => exists X Y,
                            meshgrid L x_vals y_vals = inr (X, Y) /\
                            (xs = [] \/ xs = [Evaluate [X; Y]])));
                [apply np_meshgrid_value | apply np_meshgrid_asks |].
              intros [X Y] HXY.
              apply emits_after_call;
                [exists X, Y; now split; [|left] | intros f _].
              apply emits_before_quiet.
              ** eapply emits_weaken; [apply evaluate_asks|].
                 intros xs ->. exists X, Y. split; [assumption | now right].
              ** intros Z.
                 repeat (apply quiet_bind;
                         [ solve [ quiet_solve
                                 | now apply quiet_save_with_fallback ]
                         | intros ? ]).
                 quiet_solve.
           ++ intros xs (p & q & -> & -> & Hq). exists y_vals.
              split; [assumption|].
              destruct Hq as [->|(X & Y & HXY & [->| ->])].
              ** now left.
              ** now left.
              ** right. now exists X, Y.
        -- intros xs (p & q & -> & -> & Hq). exists x_vals.
           split; [assumption|].
           destruct Hq as [->|(y_vals & Hy & Hg)].
           ++ now left.
           ++ right. now exists y_vals, q.
      * intros xs (p & q & -> & -> & [->|(x_vals & Hx & Hg)]).
        -- right. now left.
        -- right. right. now exists x_vals, q.
    + intros e. quiet_solve.
  - intros ws (p & q & -> & Hp & [->| ->]); now rewrite app_nil_r.
Qed.

End Sampling.

(** After a fallback, [main] still names the file first asked for: the
    figure is in [output_6845.pdf], the message says [/readonly/a.pdf]. *)
Example main_names_the_requested_file_after_fallback :
  let r := FunctionPlotter.main Toy.lib 1
             (Toy.world [] ["2"; "(x+y)^2=1"; "-2"; "2"; "-2"; "2"; "2";
                            "/readonly/a"]) in
  fst r = Ok tt /\
  files (snd r) = ["output_6845.pdf"] /\
  written (trace (snd r)) = ["/readonly/a.pdf"; "output_6845.pdf"] /\
  last (trace (snd r)) (Print "") =
    Print (LF ++ "Equation plotted successfully and saved as '/readonly/a.pdf'").
Proof. repeat split. Qed.

(** * Further properties of the code *)

(** ** The two dependency checks *)

(** X1. The check of the command-line program and the check of the
    graphical program agree: the one lets the program go on exactly when
    the other answers [True], which is exactly when [latex], [dvipng] and
    one of the three ghostscript names are found; and when something is
    missing, what the command-line program prints before it exits with
    status 1 is the message of the graphical program, followed by one line
    feed. *)
Theorem check_latex_dependencies_agree (which : string -> bool) :
  let cli := CliStartup.check_latex_dependencies which in
  let gui := GuiStartup.check_latex_dependencies which in
  (fst gui = true <-> snd cli = None) /\
  (fst gui = true <->
   which "latex" = true /\ which "dvipng" = true /\
   (which "gs" = true \/ which "gswin64c" = true \/ which "gswin32c" = true)) /\
  (fst gui = true -> fst cli = [] /\ snd gui = "") /\
  (fst gui = false ->
   snd cli = Some 1%Z /\
   CliStartup.stdout_text (fst cli) = snd gui ++ LF).
Proof.
  unfold CliStartup.check_latex_dependencies,
         GuiStartup.check_latex_dependencies,
         CliStartup.missing, GuiStartup.missing,
         CliStartup.gs_names, GuiStartup.gs_names.
  cbn [existsb].
  destruct (which "latex"), (which "dvipng"), (which "gs"),
           (which "gswin64c"), (which "gswin32c");
    cbn; repeat split; intros; try discriminate; try reflexivity;
      try tauto;
      repeat match goal with
             | H : _ /\ _ |- _ => destruct H
             | H : _ \/ _ |- _ => destruct H
             end; try discriminate.
Qed.

(** ** Colours typed as hexadecimal codes *)

Lemma fullmatch_Empty (s : string) : Re.fullmatch Re.Empty s = false.
Proof. induction s as [|c s IH]; [reflexivity | exact IH]. Qed.

Lemma fullmatch_Alt (s : string) :
  forall a b,
    Re.fullmatch (Re.Alt a b) s = Re.fullmatch a s || Re.fullmatch b s.
Proof.
  induction s as [|c s IH]; intros a b; [reflexivity|].
  cbn [Re.fullmatch Re.deriv]. apply IH.
Qed.

Lemma fullmatch_Cat_Empty (s : string) (b : Re.regex) :
  Re.fullmatch (Re.Cat Re.Empty b) s = false.
Proof. induction s as [|c s IH]; [reflexivity | exact IH]. Qed.

Lemma fullmatch_Cat_Eps (s : string) (b : Re.regex) :
  Re.fullmatch (Re.Cat Re.Eps b) s = Re.fullmatch b s.
Proof.
  destruct s as [|c s]; [reflexivity|].
  cbn [Re.fullmatch Re.deriv Re.nullable].
  now rewrite fullmatch_Alt, fullmatch_Cat_Empty.
Qed.

Lemma fullmatch_Cat_Chr (d : ascii) (b : Re.regex) (s : string) :
  Re.fullmatch (Re.Cat (Re.Chr d) b) s =
  match s with
  | EmptyString => false
  | String c s' => Ascii.eqb c d && Re.fullmatch b s'
  end.
Proof.
  destruct s as [|c s]; [reflexivity|].
  cbn [Re.fullmatch Re.deriv Re.nullable].
  destruct (Ascii.eqb c d); cbn [andb].
  - apply fullmatch_Cat_Eps.
  - apply fullmatch_Cat_Empty.
Qed.

Lemma fullmatch_Cat_Class (ranges : list (ascii * ascii)) (b : Re.regex)
      (s : string) :
  Re.fullmatch (Re.Cat (Re.Class ranges) b) s =
  match s with
  | EmptyString => false
  | String c s' => existsb (Re.in_range c) ranges && Re.fullmatch b s'
  end.
Proof.
  destruct s as [|c s]; [reflexivity|].
  cbn [Re.fullmatch Re.deriv Re.nullable].
  destruct (existsb (Re.in_range c) ranges); cbn [andb].
  - apply fullmatch_Cat_Eps.
  - apply fullmatch_Cat_Empty.
Qed.

Lemma hex_class_is_hex_digit (c : ascii) :
  existsb (Re.in_range c) [("0", "9"); ("a", "f"); ("A", "F")]%char =
  Colour.is_hex_digit c.
Proof.
  unfold Colour.is_hex_digit, Re.in_range. cbn [existsb fst snd].
  change (nat_of_ascii "0") with 48. change (nat_of_ascii "9") with 57.
  change (nat_of_ascii "a") with 97. change (nat_of_ascii "f") with 102.
  change (nat_of_ascii "A") with 65. change (nat_of_ascii "F") with 70.
  now rewrite orb_false_r, orb_assoc.
Qed.

Lemma fullmatch_Eps (s : string) :
  Re.fullmatch Re.Eps s = true <-> s = "".
Proof.
  destruct s as [|c s]; [tauto|].
  cbn [Re.fullmatch Re.deriv]. rewrite fullmatch_Empty.
  split; discriminate.
Qed.

(** X2. [is_valid_hex_color] accepts a text exactly when, once the white
    space around it is removed, it is [#] followed by six hexadecimal
    digits of either case. *)
Theorem is_valid_hex_color_iff (s : string) :
  Colour.is_valid_hex_color s = true <->
  exists a b c d e f,
    forallb Colour.is_hex_digit [a; b; c; d; e; f] = true /\
    PyStr.strip s =
    String "#" (String a (String b (String c
      (String d (String e (String f EmptyString)))))).
Proof.
  unfold Colour.is_valid_hex_color, Colour.hex_color_re.
  set (t := PyStr.strip s). clearbody t. cbn [Re.times forallb].
  split.
  - intros H.
    rewrite fullmatch_Cat_Chr in H.
    destruct t as [|h t]; [discriminate|].
    apply andb_prop in H as [Hh H]. apply Ascii.eqb_eq in Hh. subst h.
    do 6 (rewrite fullmatch_Cat_Class in H;
          destruct t as [|? t]; [discriminate|];
          rewrite hex_class_is_hex_digit in H;
          apply andb_prop in H as [? H]).
    apply fullmatch_Eps in H. subst t.
    do 6 eexists. split; [|reflexivity].
    repeat (apply andb_true_intro; split; [assumption|]). reflexivity.
  - intros (a & b & c & d & e & f & Hhex & ->).
    repeat (apply andb_prop in Hhex as [? Hhex]).
    rewrite fullmatch_Cat_Chr, Ascii.eqb_refl. cbn [andb].
    repeat (rewrite fullmatch_Cat_Class, hex_class_is_hex_digit;
            apply andb_true_intro; split; [assumption|]).
    cbn [Re.fullmatch Re.nullable].
    reflexivity.
Qed.

(** ** Legend text *)

Lemma replace_char_wrapped (c : ascii) (u : string) :
  PyStr.contains (String c "") u = false ->
  PyStr.replace (String c "") "" (String c (u ++ String c "")) = u.
Proof.
  intros H.
  rewrite replace_char_cons, Ascii.eqb_refl. cbn [append].
  rewrite replace_char_append, (replace_char_absent c "" u H).
  rewrite replace_char_cons, Ascii.eqb_refl. cbn.
  apply append_empty_r.
Qed.

(** X3. [format_text] for a legend puts the text, with every [$] taken
    out, between two [$]; in every other case it hands the text back.
    Formatting what it returned changes nothing. *)
Theorem format_text_idempotent (text : string) (math for_legend : bool) :
  let once := FunctionPlotter.format_text text math for_legend in
  FunctionPlotter.format_text once math for_legend = once /\
  (math && for_legend = true ->
   exists inner,
     once = "$" ++ inner ++ "$" /\ PyStr.contains "$" inner = false) /\
  (math && for_legend = false -> once = text).
Proof.
  unfold FunctionPlotter.format_text.
  destruct (math && for_legend); cbn zeta.
  - pose proof (replace_char_removes "$" text) as Hfree.
    repeat split.
    + change ("$" ++ PyStr.replace "$" "" text ++ "$")
        with (String "$" (PyStr.replace "$" "" text ++ String "$" "")).
      now rewrite replace_char_wrapped.
    + intros _. now exists (PyStr.replace "$" "" text).
    + discriminate.
  - repeat split. discriminate.
Qed.

(** ** The fallback name *)

Lemma string_of_uint_no_sep (d : Decimal.uint) :
  PyStr.contains "/" (NilEmpty.string_of_uint d) = false.
Proof.
  induction d; cbn [NilEmpty.string_of_uint];
    [reflexivity | rewrite contains_char_cons, IHd; reflexivity ..].
Qed.

(** X4. The fallback name is [output_<n>.<format>] where [n] is the hash
    reduced into 0 .. 9999, whatever its sign; it has no directory part, so
    the fallback file goes to the working directory and not to the
    directory of the name that was asked for. *)
Theorem default_filename_in_working_directory (L : Lib) (s format : string) :
  PyStr.contains "/" format = false ->
  (exists n,
     (Z.of_nat n < 10000)%Z /\
     FunctionPlotter.default_filename L s format =
     "output_" ++ PyStr.str_of_nat n ++ "." ++ format) /\
  PyStr.contains "/" (FunctionPlotter.default_filename L s format) = false.
Proof.
  intros Hf. split.
  - exists (Z.to_nat (hash L s mod 10000)). split; [|reflexivity].
    pose proof (Z.mod_pos_bound (hash L s) 10000 ltac:(lia)). lia.
  - unfold FunctionPlotter.default_filename, PyStr.str_of_nat.
    rewrite !contains_char_append, string_of_uint_no_sep, Hf. reflexivity.
Qed.

Lemma default_filename_in_working_directory_witness :
  PyStr.contains "/"
    (FunctionPlotter.default_filename Toy.lib "x**2" "svg") = false.
Proof.
  apply (default_filename_in_working_directory Toy.lib "x**2" "svg").
  reflexivity.
Defined.

(** ** Validation, and what it hands on *)

Lemma replace_caret_no_caret (s : string) :
  PyStr.contains "^" (PyStr.replace "^" "**" s) = false.
Proof.
  induction s as [|c s IH]; [reflexivity|].
  rewrite replace_char_cons.
  destruct (Ascii.eqb c "^") eqn:Hc.
  - cbn [append]. now rewrite !contains_char_cons, IH.
  - now rewrite contains_char_cons, Hc, IH.
Qed.

(** X5. What [validate_function] returns has no [^] left, is accepted by
    the parser, and is returned unchanged when validated again; the world
    is not touched.  So the text that [main] passes on to [plot_function]
    is one that [sympify] parses. *)
Theorem validate_function_result
        (L : Lib) (s s' : string) (w w' : World (ndarray L)) :
  FunctionPlotter.validate_function L s w = (Ok s', w') ->
  w' = w /\
  s' = PyStr.replace "^" "**" s /\
  PyStr.contains "^" s' = false /\
  (exists e, sympify L s' = inr e) /\
  FunctionPlotter.validate_function L s' w = (Ok s', w).
Proof.
  rewrite !validate_function_unfold. intros H.
  destruct (sympify L (PyStr.replace "^" "**" s)) as [e|e] eqn:He;
    [discriminate|].
  injection H as <- <-.
  pose proof (replace_caret_no_caret s) as Hfree.
  rewrite (replace_char_absent "^" "**" _ Hfree), He.
  repeat split; try assumption. now exists e.
Qed.

Lemma validate_function_result_witness :
  PyStr.contains "^" "x**2+1" = false /\
  FunctionPlotter.validate_function Toy.lib "x**2+1" (Toy.world [] []) =
    (Ok "x**2+1", Toy.world [] []).
Proof.
  destruct (validate_function_result Toy.lib "x^2+1" "x**2+1"
              (Toy.world [] []) (Toy.world [] []) eq_refl)
    as (_ & _ & H1 & _ & H2).
  now split.
Defined.

(** ** The two copies of [clean_latex_expression] *)

(** X6. Neither copy of [clean_latex_expression] raises.  Both return the
    same text: the sanitised [latex] of the expression, or [str(expr)] when
    [latex] raised.  The copy of the graphical program leaves the world as
    it is; the copy of the command-line program prints one warning when
    [latex] raised and nothing otherwise. *)
Theorem clean_latex_expression_agree
        (L : Lib) (expr : Expr L) (w : World (ndarray L)) :
  exists tex_expr,
    cleaned L expr tex_expr /\
    PlotterGui.clean_latex_expression L expr w = (Ok tex_expr, w) /\
    fst (FunctionPlotter.clean_latex_expression L expr w) = Ok tex_expr /\
    snd (FunctionPlotter.clean_latex_expression L expr w) =
    match latex L expr with
    | inr _ => w
    | inl e =>
        mkWorld (files w) (stdin w)
          (trace w ++ [Print ("Warning: LaTeX conversion failed: "
                                ++ str_of_exception e)])
    end.
Proof.
  unfold PlotterGui.clean_latex_expression,
         FunctionPlotter.clean_latex_expression,
         try_except_Exception, bind, call, print, log, ret, raise, cleaned.
  destruct (latex L expr) as [e|tex]; cbn.
  - exists (str_of_expr L expr). repeat split. right. now exists e.
  - exists (sanitize tex). repeat split. left. now exists tex.
Qed.

(** ** Resolving a name twice *)

Lemma with_extension_fixed (name stem format : string) :
  name = stem ++ "." ++ format ->
  with_extension name format = name.
Proof.
  intros ->. unfold with_extension.
  destruct (String.eqb_spec (stem ++ "." ++ format) "") as [H|_].
  - apply (f_equal String.length) in H.
    rewrite length_append in H. simpl in H. lia.
  - now rewrite endswith_append.
Qed.

(** X7. A name that ends in [.format] and does not exist is returned as
    it is.  So the resolution is idempotent: when the extension was found
    by [splitext] (the last component of the name has a character other
    than a dot before [.format]), resolving the returned name again gives
    the same name. *)
Theorem get_safe_filename_idempotent
        (path_exists : string -> bool) (base_filename format stem : string)
        (fuel : nat) (r : string) :
  get_safe_filename path_exists fuel base_filename format = Some r ->
  with_extension base_filename format = stem ++ "." ++ format ->
  PyStr.contains "." format = false ->
  PyStr.contains "/" format = false ->
  only_dots (last_component stem) = false ->
  (exists stem', r = stem' ++ "." ++ format) /\
  forall fuel', get_safe_filename path_exists (S fuel') r format = Some r.
Proof.
  intros H Hb Hdot Hsep Hname.
  unfold get_safe_filename in H.
  apply (safe_loop_some path_exists _ fuel 0) in H.
  destruct H as (k & _ & _ & Hr & Hfree & _).
  assert (Hshape : exists stem', r = stem' ++ "." ++ format).
  { destruct k as [|k].
    - exists stem. now rewrite Hr.
    - exists (stem ++ "_" ++ PyStr.str_of_nat (S k)).
      rewrite Hr. cbn [attempt]. unfold candidate.
      rewrite Hb, (splitext_with_suffix stem format Hdot Hsep), Hname.
      now rewrite !append_assoc. }
  split; [assumption|].
  intros fuel'. destruct Hshape as (stem' & Hs).
  unfold get_safe_filename.
  rewrite (with_extension_fixed r stem' format Hs).
  cbn [safe_loop]. now rewrite Hfree.
Qed.

Lemma get_safe_filename_idempotent_witness :
  let taken p := existsb (String.eqb p) ["plot.pdf"; "plot_1.pdf"] in
  get_safe_filename taken 5 "plot" "pdf" = Some "plot_2.pdf" /\
  get_safe_filename taken 1 "plot_2.pdf" "pdf" = Some "plot_2.pdf".
Proof.
  intros taken.
  destruct (get_safe_filename_idempotent taken "plot" "pdf" "plot" 5
              "plot_2.pdf" eq_refl eq_refl eq_refl eq_refl eq_refl)
    as [_ H].
  split; [reflexivity | apply H].
Defined.

(** ** Choosing the output format *)

Section OutputFormat.

Variable L : Lib.

Lemma get_output_format_loop_turn
      (fuel : nat) (line : string) (rest : list stdin_item)
      (fs : list string) (t : list (action (ndarray L))) :
  FunctionPlotter.get_output_format_loop L (S fuel)
    (mkWorld fs (Line line :: rest) t) =
  if String.eqb (PyStr.strip line) "1"
  then (Ok "svg", mkWorld fs rest (t ++ format_menu))
  else if String.eqb (PyStr.strip line) "2"
       then (Ok "pdf", mkWorld fs rest (t ++ format_menu))
       else FunctionPlotter.get_output_format_loop L fuel
              (mkWorld fs rest
                 (t ++ format_menu
                    ++ [Print "Invalid choice. Please enter 1 for SVG or 2 for PDF."])).
Proof.
  cbn [FunctionPlotter.get_output_format_loop].
  unfold bind, print, log, input, ret, format_menu. cbn [files stdin trace].
  rewrite <- !app_assoc. cbn [app].
  destruct (String.eqb (PyStr.strip line) "1"); [reflexivity|].
  destruct (String.eqb (PyStr.strip line) "2"); [reflexivity|].
  cbn [files stdin trace]. repeat rewrite <- app_assoc. reflexivity.
Qed.

Lemma get_output_format_loop_spec (fuel : nat) :
  forall (w : World (ndarray L)),
    List.length (stdin w) < fuel ->
    match FunctionPlotter.get_output_format_loop L fuel w with
    | (Ok format, w') =>
        (format = "svg" \/ format = "pdf") /\
        files w' = files w /\
        List.length (stdin w') < List.length (stdin w)
    | (Raise (Exc e), w') =>
        e = OtherError "EOF when reading a line" /\
        stdin w' = [] /\ files w' = files w
    | (Raise KeyboardInterrupt, w') =>
        files w' = files w /\
        List.length (stdin w') < List.length (stdin w)
    | (Diverge, _) => False
    end.
Proof.
  induction fuel as [|fuel IH]; intros [fs si t] Hlen; [simpl in Hlen; lia|].
  destruct si as [|[line|] rest].
  - cbn. auto.
  - rewrite get_output_format_loop_turn. cbn [stdin files] in *.
    destruct (String.eqb (PyStr.strip line) "1");
      [cbn; repeat split; auto; lia|].
    destruct (String.eqb (PyStr.strip line) "2");
      [cbn; repeat split; auto; lia|].
    specialize (IH (mkWorld fs rest
                      (t ++ format_menu
                         ++ [Print "Invalid choice. Please enter 1 for SVG or 2 for PDF."]))).
    cbn [stdin files] in IH. simpl in Hlen.
    destruct (FunctionPlotter.get_output_format_loop L fuel _)
      as [[format|[e|]|] w']; try (apply IH; lia).
    + destruct IH as (H1 & H2 & H3); [lia|]. repeat split; auto. simpl. lia.
    + destruct IH as (H1 & H2); [lia|]. split; auto. simpl. lia.
  - cbn. split; auto.
Qed.

End OutputFormat.

(** X8. [get_output_format] always comes back: with ["svg"] or ["pdf"] and
    nothing else, or - when the input ends before a valid answer - with the
    end-of-file error, or with the interrupt.  It creates no file. *)
Theorem get_output_format_answers (L : Lib) (w : World (ndarray L)) :
  match FunctionPlotter.get_output_format L w with
  | (Ok format, w') =>
      (format = "svg" \/ format = "pdf") /\ files w' = files w
  | (Raise (Exc e), w') =>
      e = OtherError "EOF when reading a line" /\
      stdin w' = [] /\ files w' = files w
  | (Raise KeyboardInterrupt, w') => files w' = files w
  | (Diverge, _) => False
  end.
Proof.
  unfold FunctionPlotter.get_output_format.
  pose proof (get_output_format_loop_spec L (S (List.length (stdin w))) w
                ltac:(lia)) as H.
  destruct (FunctionPlotter.get_output_format_loop L _ w)
    as [[format|[e|]|] w']; try tauto.
Qed.

(** X9. [get_output_format] asks again after every line that is neither
    [1] nor [2] (white space aside): it shows the menu and the complaint
    for each of them, takes the first valid line, and leaves the lines
    after it unread. *)
Theorem get_output_format_retries
        (L : Lib) (bad : list string) (answer : string)
        (rest : list stdin_item) (fs : list string)
        (t : list (action (ndarray L))) :
  forallb other_choice bad = true ->
  other_choice answer = false ->
  FunctionPlotter.get_output_format L
    (mkWorld fs (List.map Line bad ++ Line answer :: rest) t) =
  (Ok (if String.eqb (PyStr.strip answer) "1" then "svg" else "pdf"),
   mkWorld fs rest (t ++ refused_turns bad ++ format_menu)).
Proof.
  intros Hbad Hans. unfold FunctionPlotter.get_output_format.
  cbn [stdin]. rewrite length_app, length_map. cbn [List.length].
  assert (Hgen : forall extra (t0 : list (action (ndarray L))),
             FunctionPlotter.get_output_format_loop L
               (S (List.length bad + extra))
               (mkWorld fs (List.map Line bad ++ Line answer :: rest) t0) =
             (Ok (if String.eqb (PyStr.strip answer) "1"
                  then "svg" else "pdf"),
              mkWorld fs rest (t0 ++ refused_turns bad ++ format_menu))).
  { clear t. induction bad as [|b bad IH]; intros extra t0.
    - cbn [List.map app List.length Nat.add refused_turns flat_map].
      rewrite get_output_format_loop_turn.
      unfold other_choice in Hans.
      destruct (String.eqb (PyStr.strip answer) "1"); [reflexivity|].
      destruct (String.eqb (PyStr.strip answer) "2"); [reflexivity|].
      discriminate.
    - cbn [forallb] in Hbad. apply andb_prop in Hbad as [Hb Hbad].
      cbn [List.map app List.length Nat.add].
      rewrite get_output_format_loop_turn.
      unfold other_choice in Hb.
      destruct (String.eqb (PyStr.strip b) "1"); [discriminate|].
      destruct (String.eqb (PyStr.strip b) "2"); [discriminate|].
      rewrite (IH Hbad). cbn [refused_turns flat_map].
      now rewrite <- !app_assoc. }
  replace (List.length bad + S (List.length rest))
    with (List.length bad + S (List.length rest) + 0) by lia.
  replace (S (List.length bad + S (List.length rest) + 0))
    with (S (List.length bad + (S (List.length rest) + 0))) by lia.
  apply Hgen.
Qed.

Lemma get_output_format_retries_witness :
  FunctionPlotter.get_output_format Toy.lib
    (Toy.world [] ["3"; "svg"; " 2 "; "out"]) =
  (Ok "pdf",
   mkWorld [] [Line "out"]
           (refused_turns ["3"; "svg"] ++ format_menu)).
Proof.
  apply (get_output_format_retries Toy.lib ["3"; "svg"] " 2 " [Line "out"]
           [] []); reflexivity.
Defined.

(** ** Relating the world before and after a run *)

Section Steps.

Variable L : Lib.
Local Abbreviation Py := (M (ndarray L)).
Variable R : World (ndarray L) -> World (ndarray L) -> Prop.
Hypothesis R_refl : forall w, R w w.
Hypothesis R_trans : forall w1 w2 w3, R w1 w2 -> R w2 w3 -> R w1 w3.

Lemma steps_ret {A} (a : A) : steps R (ret a : Py A).
Proof. intros w. apply R_refl. Qed.

Lemma steps_raise {A} (e : exception) : steps R (raise e : Py A).
Proof. intros w. apply R_refl. Qed.

Lemma steps_call {A} (r : exception + A) : steps R (call r : Py A).
Proof. intros w. destruct r; apply R_refl. Qed.

Lemma steps_bind {A B} (m : Py A) (k : A -> Py B) :
  steps R m -> (forall a, steps R (k a)) -> steps R (bind m k).
Proof.
  intros Hm Hk w. unfold bind. specialize (Hm w).
  destruct (m w) as [[a|r|] w1]; simpl in *; try assumption.
  eapply R_trans; [exact Hm | apply Hk].
Qed.

Lemma steps_try {A} (body : Py A) (handler : exception -> Py A) :
  steps R body -> (forall e, steps R (handler e)) ->
  steps R (try_except_Exception body handler).
Proof.
  intros Hb Hh w. unfold try_except_Exception. specialize (Hb w).
  destruct (body w) as [[a|[e|]|] w1]; simpl in *; try assumption.
  eapply R_trans; [exact Hb | apply Hh].
Qed.

Lemma steps_try_all {A} (body handler : Py A) :
  steps R body -> steps R handler -> steps R (try_except_all L body handler).
Proof.
  intros Hb Hh w. unfold try_except_all. specialize (Hb w).
  destruct (body w) as [[a|r|] w1]; simpl in *; try assumption.
  eapply R_trans; [exact Hb | apply Hh].
Qed.

(** actions that only add to the trace *)
Hypothesis R_trace :
  forall w a, R w (mkWorld (files w) (stdin w) (trace w ++ [a])).



Lemma steps_get_safe_filename_io (base_filename format : string) :
  steps R (get_safe_filename_io L base_filename format).
Proof.
  intros w. unfold get_safe_filename_io.
  destruct (get_safe_filename _ _ _ _); apply R_refl.
Qed.

End Steps.

(** ** Runs that end *)

Section Halts.

Variable L : Lib.
Local Abbreviation Py := (M (ndarray L)).

Lemma halts_of_ensures {A} (P : A -> Prop) (m : Py A) :
  ensures P m -> halts m.
Proof.
  intros H w Hd. specialize (H w). now rewrite Hd in H.
Qed.

Lemma halts_ret {A} (a : A) : halts (ret a : Py A).
Proof. intros w. discriminate. Qed.

Lemma halts_input (prompt : string) : halts (input prompt : Py string).
Proof.
  intros w. unfold input. destruct (stdin w) as [|[s|] rest]; discriminate.
Qed.

Lemma halts_bind {A B} (m : Py A) (k : A -> Py B) :
  halts m -> (forall a, halts (k a)) -> halts (bind m k).
Proof.
  intros Hm Hk w. unfold bind. specialize (Hm w).
  destruct (m w) as [[a|r|] w1]; simpl in *;
    [apply Hk | discriminate | contradiction].
Qed.

Lemma halts_validate_function (func_str : string) :
  halts (FunctionPlotter.validate_function L func_str).
Proof.
  intros w. rewrite validate_function_unfold.
  destruct (sympify L _); discriminate.
Qed.

Lemma halts_input_float (prompt : string) :
  halts (FunctionPlotter.input_float L prompt).
Proof.
  unfold FunctionPlotter.input_float.
  apply halts_bind; [apply halts_input | intros s].
  apply (halts_of_ensures (fun _ => True)), ensures_call.
Qed.

Lemma halts_get_output_format : halts (FunctionPlotter.get_output_format L).
Proof.
  intros w Hd. unfold FunctionPlotter.get_output_format in Hd.
  pose proof (get_output_format_loop_spec L (S (List.length (stdin w))) w
                ltac:(lia)) as H.
  destruct (FunctionPlotter.get_output_format_loop L _ w)
    as [[format|[e|]|] w']; try discriminate. exact H.
Qed.

Lemma halts_ask_filename (format : string) :
  halts (FunctionPlotter.ask_filename L format).
Proof.
  unfold FunctionPlotter.ask_filename.
  apply halts_bind; [apply halts_input | intros s w].
  destruct (get_safe_filename_io_returns L (PyStr.strip s) format w)
    as (r & Hr & _).
  rewrite Hr. discriminate.
Qed.

Lemma halts_plot_function (func_str : string) (x_min x_max : spec_float)
      (filename format : string) :
  halts (FunctionPlotter.plot_function L func_str x_min x_max filename format).
Proof.
  apply (halts_of_ensures (fun _ => True)).
  unfold FunctionPlotter.plot_function. apply ensures_try.
  - eapply ensures_weaken; [apply ensures_plot_function_body | auto].
  - intros e. unfold print. repeat ensures_step.
Qed.

Lemma halts_plot_equation (equation_str : string)
      (x_min x_max y_min y_max : spec_float) (filename format : string) :
  halts (FunctionPlotter.plot_equation L equation_str x_min x_max y_min y_max
           filename format).
Proof.
  apply (halts_of_ensures (fun _ => True)).
  unfold FunctionPlotter.plot_equation. apply ensures_try.
  - eapply ensures_weaken; [apply ensures_plot_equation_body | auto].
  - intros e. unfold print. repeat ensures_step.
Qed.

Lemma halts_print (s : string) : halts (print s : Py unit).
Proof. intros w. discriminate. Qed.

Lemma halts_raise {A} (e : exception) : halts (raise e : Py A).
Proof. intros w. discriminate. Qed.

Lemma halts_main_try : halts (FunctionPlotter.main_try L).
Proof.
  unfold FunctionPlotter.main_try.
  repeat first
    [ apply halts_ret
    | apply halts_raise
    | apply halts_print
    | apply halts_input
    | apply halts_input_float
    | apply halts_validate_function
    | apply halts_get_output_format
    | apply halts_ask_filename
    | apply halts_plot_function
    | apply halts_plot_equation
    | match goal with
      | |- halts (if ?c then _ else _) => destruct c
      end
    | apply halts_bind; [|intros ?] ].
Qed.

End Halts.


(** ** The console input is only consumed *)

Section InputConsumed.

Variable L : Lib.
Local Abbreviation Py := (M (ndarray L)).
Local Abbreviation W := (World (ndarray L)).








End InputConsumed.


Section MainEnds.

Variable L : Lib.
Local Abbreviation Py := (M (ndarray L)).
Local Abbreviation W := (World (ndarray L)).










End MainEnds.



(** ** Nothing written, no file changed *)

Section DiskUntouched.

Variable L : Lib.
Local Abbreviation Py := (M (ndarray L)).
Local Abbreviation W := (World (ndarray L)).

Lemma disk_untouched_refl (w : W) : disk_untouched w w.
Proof. now split. Qed.

Lemma disk_untouched_trans (w1 w2 w3 : W) :
  disk_untouched w1 w2 -> disk_untouched w2 w3 -> disk_untouched w1 w3.
Proof. intros [H1 H2] [H3 H4]. split; congruence. Qed.

Lemma written_snoc (t : list (action (ndarray L))) (a : action (ndarray L)) :
  written (t ++ [a]) = (written t ++ savefig_name a)%list.
Proof. unfold written. apply flat_map_snoc. Qed.

Lemma disk_untouched_trace (w : W) (si : list stdin_item)
      (a : action (ndarray L)) :
  savefig_name a = [] ->
  disk_untouched w (mkWorld (files w) si (trace w ++ [a])).
Proof.
  intros H. split; [reflexivity|]. cbn [trace].
  now rewrite written_snoc, H, app_nil_r.
Qed.

Lemma steps_log_disk (a : action (ndarray L)) :
  savefig_name a = [] -> steps disk_untouched (log a : Py unit).
Proof. intros H w. now apply disk_untouched_trace. Qed.

Lemma steps_plt_disk (c : plt_call (ndarray L)) :
  steps disk_untouched (plt L c).
Proof.
  intros w. unfold plt.
  destruct (plt_raises L (trace w) c); now apply disk_untouched_trace.
Qed.

Lemma steps_input_disk (prompt : string) :
  steps disk_untouched (input prompt : Py string).
Proof.
  intros w. unfold input.
  destruct (stdin w) as [|[s|] rest]; now apply disk_untouched_trace.
Qed.

End DiskUntouched.

(** proves [steps disk_untouched m] for parts that do not call [savefig] *)
Ltac steps_disk_untouched :=
  repeat first
    [ apply steps_ret; exact (disk_untouched_refl _)
    | apply steps_raise; exact (disk_untouched_refl _)
    | apply steps_call; exact (disk_untouched_refl _)
    | apply steps_get_safe_filename_io; exact (disk_untouched_refl _)
    | apply steps_log_disk; reflexivity
    | apply steps_plt_disk
    | apply steps_input_disk
    | match goal with
      | |- steps _ (if ?c then _ else _) => destruct c
      | |- steps _ (let (_, _) := ?p in _) => destruct p
      | |- steps _ (match ?l with [] => _ | _ :: _ => _ end) => destruct l
      end
    | apply steps_bind; [exact (disk_untouched_trans _) | | intros ?]
    | apply steps_try; [exact (disk_untouched_trans _) | | intros ?]
    | apply steps_try_all; [exact (disk_untouched_trans _) | | ]
    | progress unfold np_linspace, np_meshgrid, evaluate, unpack2, print,
                      parse_equation, FunctionPlotter.input_float,
                      FunctionPlotter.clean_latex_expression,
                      PlotterGui.clean_latex_expression ].

(** ** Triples *)

Section Hoare.

Variable L : Lib.
Local Abbreviation Py := (M (ndarray L)).
Local Abbreviation W := (World (ndarray L)).

Lemma hoare_bind {A B} (P : W -> Prop) (R : A -> W -> Prop)
      (Q : B -> W -> Prop) (E : raised -> W -> Prop)
      (m : Py A) (k : A -> Py B) :
  hoare P m R E -> (forall a, hoare (R a) (k a) Q E) -> hoare P (bind m k) Q E.
Proof.
  intros Hm Hk w HP. unfold bind. specialize (Hm w HP).
  destruct (m w) as [[a|r|] w1]; [apply Hk, Hm | exact Hm | exact I].
Qed.

Lemma hoare_conseq {A} (P P' : W -> Prop) (Q Q' : A -> W -> Prop)
      (E E' : raised -> W -> Prop) (m : Py A) :
  hoare P m Q E ->
  (forall w, P' w -> P w) ->
  (forall a w, Q a w -> Q' a w) ->
  (forall r w, E r w -> E' r w) ->
  hoare P' m Q' E'.
Proof.
  intros Hm HP HQ HE w HP'. specialize (Hm w (HP w HP')).
  destruct (m w) as [[a|r|] w1]; auto.
Qed.

(** a part that keeps a relation to the starting world *)
Lemma hoare_of_steps {A} (R : W -> W -> Prop) (w0 : W) (m : Py A) :
  (forall w1 w2 w3, R w1 w2 -> R w2 w3 -> R w1 w3) ->
  steps R m ->
  hoare (R w0) m (fun _ => R w0) (fun _ => R w0).
Proof.
  intros Htrans Hm w HP. specialize (Hm w).
  destruct (m w) as [[a|r|] w1]; simpl in Hm; try exact I;
    eapply Htrans; eassumption.
Qed.

Lemma hoare_bind_steps {A B} (R : W -> W -> Prop) (w0 : W)
      (Q : B -> W -> Prop) (E : raised -> W -> Prop)
      (m : Py A) (k : A -> Py B) :
  (forall w1 w2 w3, R w1 w2 -> R w2 w3 -> R w1 w3) ->
  (forall r w, R w0 w -> E r w) ->
  steps R m ->
  (forall a, hoare (R w0) (k a) Q E) ->
  hoare (R w0) (bind m k) Q E.
Proof.
  intros Htrans HE Hm Hk.
  apply (hoare_bind _ (fun _ => R w0)); [|exact Hk].
  eapply hoare_conseq; [apply (hoare_of_steps R w0 m Htrans Hm) | auto ..].
Qed.

End Hoare.

(** ** The first name written is new *)

Section FirstWrite.

Variable L : Lib.
Local Abbreviation Py := (M (ndarray L)).
Local Abbreviation W := (World (ndarray L)).

Lemma wrote_since_untouched (w0 w : W) :
  disk_untouched w0 w -> wrote_since w0 w.
Proof.
  intros [_ H]. exists []. rewrite app_nil_r. split; [assumption | now left].
Qed.

Lemma wrote_since_trace (w0 w : W) (a : action (ndarray L)) :
  savefig_name a = [] ->
  wrote_since w0 w ->
  wrote_since w0 (mkWorld (files w) (stdin w) (trace w ++ [a])).
Proof.
  intros Ha (ws & Hws & Hfresh). exists ws. cbn [trace].
  now rewrite written_snoc, Ha, app_nil_r.
Qed.

Lemma wrote_since_same_written (w0 w w' : W) :
  written (trace w') = written (trace w) ->
  wrote_since w0 w -> wrote_since w0 w'.
Proof. intros H (ws & Hws & Hfresh). exists ws. now rewrite H. Qed.

Lemma steps_get_output_format_disk :
  steps disk_untouched (FunctionPlotter.get_output_format L).
Proof.
  intros w. unfold FunctionPlotter.get_output_format.
  generalize (S (List.length (stdin w))). intros fuel. revert w.
  induction fuel as [|fuel IH]; intros w; [apply disk_untouched_refl|].
  revert w. change (steps disk_untouched
                      (FunctionPlotter.get_output_format_loop L (S fuel))).
  cbn [FunctionPlotter.get_output_format_loop].
  steps_disk_untouched. exact IH.
Qed.

Lemma steps_validate_function_disk (func_str : string) :
  steps disk_untouched (FunctionPlotter.validate_function L func_str).
Proof.
  intros w. rewrite validate_function_unfold.
  destruct (sympify L _); apply disk_untouched_refl.
Qed.

(** the name that [ask_filename] returns does not exist *)
Lemma ask_filename_fresh (w0 : W) (format : string) :
  hoare (disk_untouched w0) (FunctionPlotter.ask_filename L format)
        (fun r w => disk_untouched w0 w /\ file_exists w r = false)
        (fun _ w => disk_untouched w0 w).
Proof.
  intros w Hw. unfold FunctionPlotter.ask_filename, bind.
  pose proof (steps_input_disk L
                ("Enter output filename (default: output." ++ format ++ "): ")
                w) as Hin.
  destruct (input _ w) as [[s|r|] w1]; simpl in Hin.
  - destruct (get_safe_filename_io_returns L (PyStr.strip s) format w1)
      as (r & -> & Hr).
    split; [|exact Hr]. eapply disk_untouched_trans; eassumption.
  - eapply disk_untouched_trans; eassumption.
  - exact I.
Qed.

Lemma fresh_since (w0 w : W) (r : string) :
  disk_untouched w0 w -> file_exists w r = false -> file_exists w0 r = false.
Proof. intros [Hf _]. unfold file_exists. now rewrite Hf. Qed.

(** a plot started on a new name, and the message after it *)
Lemma plot_then_report {A} (w0 : W) (r fallback : string)
      (plot : Py bool) (k : bool -> Py A) :
  emits savefig_name (at_most_one_fallback r fallback) plot ->
  (forall ok, steps disk_untouched (k ok)) ->
  hoare (fun w => disk_untouched w0 w /\ file_exists w r = false)
        (bind plot k)
        (fun _ => wrote_since w0) (fun _ => wrote_since w0).
Proof.
  intros Hplot Hk w [Hw Hr]. unfold bind.
  destruct (Hplot w) as (ws & Hws & Hshape).
  pose proof (fresh_since w0 w r Hw Hr) as Hr0.
  assert (Hafter : wrote_since w0 (snd (plot w))).
  { exists ws. destruct Hw as [_ Hw]. unfold written in *.
    rewrite Hws, Hw. split; [reflexivity|].
    destruct Hshape as [->|[->| ->]].
    - now left.
    - right. exists r, []. repeat split; auto.
    - right. exists r, [fallback]. repeat split; auto. }
  destruct (plot w) as [[ok|e|] w1]; simpl in Hafter; try assumption;
    [|exact I].
  specialize (Hk ok w1).
  destruct (k ok w1) as [[a|e|] w2]; simpl in Hk; try exact I;
    destruct Hafter as (ws' & Hws' & Hfresh); destruct Hk as [_ Hk];
      exists ws'; now rewrite Hk.
Qed.

End FirstWrite.

Section MainWrites.

Variable L : Lib.
Local Abbreviation Py := (M (ndarray L)).
Local Abbreviation W := (World (ndarray L)).

Lemma hoare_leaf_untouched {A} (w0 : W) (m : Py A) :
  steps disk_untouched m ->
  hoare (disk_untouched w0) m
        (fun _ => wrote_since w0) (fun _ => wrote_since w0).
Proof.
  intros Hm.
  eapply hoare_conseq;
    [ apply (hoare_of_steps L disk_untouched w0 m
               (disk_untouched_trans L) Hm)
    | auto
    | intros; now apply wrote_since_untouched
    | intros; now apply wrote_since_untouched ].
Qed.

Lemma hoare_ask_filename {A} (w0 : W) (format : string)
      (Q : A -> W -> Prop) (E : raised -> W -> Prop) (k : string -> Py A) :
  (forall r w, disk_untouched w0 w -> E r w) ->
  (forall r,
      hoare (fun w => disk_untouched w0 w /\ file_exists w r = false)
            (k r) Q E) ->
  hoare (disk_untouched w0)
        (bind (FunctionPlotter.ask_filename L format) k) Q E.
Proof.
  intros HE Hk.
  apply (hoare_bind L _
           (fun r w => disk_untouched w0 w /\ file_exists w r = false));
    [|exact Hk].
  eapply hoare_conseq; [apply (ask_filename_fresh L w0 format) | auto ..].
Qed.

Lemma main_try_writes (w0 : W) :
  hoare (disk_untouched w0) (FunctionPlotter.main_try L)
        (fun _ => wrote_since w0) (fun _ => wrote_since w0).
Proof.
  unfold FunctionPlotter.main_try.
  repeat first
    [ match goal with
      | |- hoare _ (bind (FunctionPlotter.ask_filename _ _) _) _ _ =>
          apply hoare_ask_filename;
          [ intros; now apply wrote_since_untouched | intros ?; cbv beta ]
      | |- hoare _ (bind (FunctionPlotter.plot_function _ _ _ _ _ _) _) _ _ =>
          eapply plot_then_report;
          [ apply plot_function_writes
          | intros ?; solve [steps_disk_untouched] ]
      | |- hoare _ (bind (FunctionPlotter.plot_equation _ _ _ _ _ _ _ _) _)
                 _ _ =>
          eapply plot_then_report;
          [ apply plot_equation_writes
          | intros ?; solve [steps_disk_untouched] ]
      | |- hoare _ (if ?c then _ else _) _ _ => destruct c
      end
    | apply hoare_bind_steps;
      [ exact (disk_untouched_trans L)
      | intros; now apply wrote_since_untouched
      | solve [ apply steps_get_output_format_disk
              | apply steps_validate_function_disk
              | steps_disk_untouched ]
      | intros ? ]
    | apply hoare_leaf_untouched; solve [steps_disk_untouched] ].
Qed.

End MainWrites.

(** X12. In a turn of the loop of [main], whatever is typed and whatever
    the libraries answer, the first name handed to [savefig] is one that
    did not exist when the turn began, and at most one more name - the
    fallback - is written after it.  The name typed is never written over
    by the first write. *)
Theorem main_first_write_is_new (L : Lib) (w : World (ndarray L)) :
  exists ws,
    written (trace (snd (FunctionPlotter.main_iteration L w))) =
    (written (trace w) ++ ws)%list /\
    (ws = [] \/
     exists r rest,
       ws = r :: rest /\ file_exists w r = false /\ List.length rest <= 1).
Proof.
  pose proof (main_try_writes L w w (disk_untouched_refl L w)) as H.
  unfold FunctionPlotter.main_iteration.
  change (wrote_since w
            (snd (match FunctionPlotter.main_try L w with
                  | (Raise (Exc (ValueError msg)), w') =>
                      (print (LF ++ "Error: " ++ msg) ;;;
                       print ("Please try again." ++ LF) ;;;
                       ret false) w'
                  | (Raise KeyboardInterrupt, w') =>
                      (print (LF ++ "Exiting...") ;;; ret true) w'
                  | (Raise (Exc (OtherError msg)), w') =>
                      (print (LF ++ "Unexpected error: " ++ msg) ;;;
                       print ("Please try again." ++ LF) ;;;
                       ret false) w'
                  | r => r
                  end))).
  pose proof (halts_main_try L w) as Hh.
  destruct (FunctionPlotter.main_try L w) as [[b|[[msg|msg]|]|] w1].
  - exact H.
  - apply (wrote_since_same_written L w w1); [|exact H].
    cbn. unfold written. now rewrite !flat_map_app, !app_nil_r.
  - apply (wrote_since_same_written L w w1); [|exact H].
    cbn. unfold written. now rewrite !flat_map_app, !app_nil_r.
  - apply (wrote_since_same_written L w w1); [|exact H].
    cbn. unfold written. now rewrite !flat_map_app, !app_nil_r.
  - now contradiction Hh.
Qed.

(** ** The Export button *)

(** X13. The Export handler of the graphical program never raises.
    Without a figure it writes nothing and says so.  With a figure it makes
    exactly one write, to a name that did not exist; when that write
    succeeds the file is there afterwards and the status names it, and when
    it fails no file is added and the status carries the error. *)
Theorem export_plot_writes_one_new_file
        (L : Lib) (has_fig : bool) (format_ filename : string)
        (w : World (ndarray L)) :
  (has_fig = false ->
   PlotterGui.export_plot L has_fig format_ filename w =
   (Ok (false, "No plot to export."), w)) /\
  (has_fig = true ->
   exists r,
     file_exists w r = false /\
     get_safe_filename_io L (PyStr.strip filename) format_ w = (Ok r, w) /\
     PlotterGui.export_plot L has_fig format_ filename w =
     match savefig_raises L (trace w) r format_ with
     | None =>
         (Ok (true, "Plot exported as '" ++ r ++ "'"),
          mkWorld (r :: files w) (stdin w) (trace w ++ [Savefig r format_]))
     | Some e =>
         (Ok (false, "Error exporting plot: " ++ str_of_exception e),
          mkWorld (files w) (stdin w) (trace w ++ [Savefig r format_]))
     end).
Proof.
  split; intros ->; [reflexivity|].
  destruct (get_safe_filename_io_returns L (PyStr.strip filename) format_ w)
    as (r & Hr & Hfree).
  exists r. split; [assumption|]. split; [assumption|].
  unfold PlotterGui.export_plot, bind. rewrite Hr.
  unfold PlotterGui.export_current_figure, try_except_Exception, bind,
         savefig, ret.
  destruct (savefig_raises L (trace w) r format_); reflexivity.
Qed.

Lemma export_plot_writes_one_new_file_witness :
  PlotterGui.export_plot Toy.lib true "svg" " plot " (Toy.world ["plot.svg"] [])
  = (Ok (true, "Plot exported as 'plot_1.svg'"),
     mkWorld ["plot_1.svg"; "plot.svg"] [] [Savefig "plot_1.svg" "svg"]).
Proof.
  destruct (export_plot_writes_one_new_file Toy.lib true "svg" " plot "
              (Toy.world ["plot.svg"] [])) as [_ H].
  destruct (H eq_refl) as (r & _ & Hr & Hrun).
  vm_compute in Hr. injection Hr as <-. exact Hrun.
Defined.

(** ** The previews of the graphical program *)

Section OnlyComputes.

Variable L : Lib.
Local Abbreviation Py := (M (ndarray L)).
Local Abbreviation W := (World (ndarray L)).

Lemma only_computes_refl (w : W) : only_computes w w.
Proof. repeat split. Qed.

Lemma only_computes_trans (w1 w2 w3 : W) :
  only_computes w1 w2 -> only_computes w2 w3 -> only_computes w1 w3.
Proof.
  intros (H1 & H2 & H3 & H4) (H5 & H6 & H7 & H8).
  repeat split; congruence.
Qed.

Lemma console_snoc (t : list (action (ndarray L))) (a : action (ndarray L)) :
  console (t ++ [a]) = (console t ++ console_text a)%list.
Proof. unfold console. apply flat_map_snoc. Qed.

Lemma only_computes_trace (w : W) (a : action (ndarray L)) :
  savefig_name a = [] -> console_text a = [] ->
  only_computes w (mkWorld (files w) (stdin w) (trace w ++ [a])).
Proof.
  intros H1 H2. repeat split; cbn [trace].
  - now rewrite written_snoc, H1, app_nil_r.
  - now rewrite console_snoc, H2, app_nil_r.
Qed.

Lemma steps_log_computes (a : action (ndarray L)) :
  savefig_name a = [] -> console_text a = [] ->
  steps only_computes (log a : Py unit).
Proof. intros H1 H2 w. now apply only_computes_trace. Qed.

Lemma steps_plt_computes (c : plt_call (ndarray L)) :
  steps only_computes (plt L c).
Proof.
  intros w. unfold plt.
  destruct (plt_raises L (trace w) c); now apply only_computes_trace.
Qed.

End OnlyComputes.

Ltac steps_only_computes :=
  repeat first
    [ apply steps_ret; exact (only_computes_refl _)
    | apply steps_raise; exact (only_computes_refl _)
    | apply steps_call; exact (only_computes_refl _)
    | apply steps_log_computes; reflexivity
    | apply steps_plt_computes
    | match goal with
      | |- steps _ (if ?c then _ else _) => destruct c
      | |- steps _ (let (_, _) := ?p in _) => destruct p
      | |- steps _ (match ?l with [] => _ | _ :: _ => _ end) => destruct l
      end
    | apply steps_bind; [exact (only_computes_trans _) | | intros ?]
    | apply steps_try; [exact (only_computes_trans _) | | intros ?]
    | progress unfold np_linspace, np_meshgrid, evaluate, unpack2,
                      parse_equation, PlotterGui.clean_latex_expression ].

Ltac ensures_go :=
  repeat first
    [ apply ensures_ret; exact I
    | apply ensures_raise
    | apply ensures_call
    | apply ensures_log
    | apply ensures_plt
    | apply ensures_np_linspace
    | apply ensures_np_meshgrid
    | apply ensures_evaluate
    | apply ensures_parse_equation
    | match goal with
      | |- ensures _ (if ?c then _ else _) => destruct c
      | |- ensures _ (let (_, _) := ?p in _) => destruct p
      end
    | apply (ensures_bind _ (fun _ => True)); [|intros ?]
    | apply ensures_try; [|intros ?] ].

(** X14. Building a preview in the graphical program only computes and
    draws: it writes no file, leaves the files as they are, reads nothing
    from the console and prints nothing.  When a library fails, the preview
    ends with that exception (there is no handler in these two functions);
    it never hangs. *)
Theorem previews_only_compute
        (L : Lib) (func_str equation_str color legend_loc : string)
        (x_min x_max y_min y_max : spec_float) :
  steps only_computes
        (PlotterGui.plot_function_gui L func_str x_min x_max color legend_loc) /\
  steps only_computes
        (PlotterGui.plot_equation_gui_preview L equation_str
           x_min x_max y_min y_max) /\
  ensures (fun _ => True)
          (PlotterGui.plot_function_gui L func_str x_min x_max
                                        color legend_loc) /\
  ensures (fun _ => True)
          (PlotterGui.plot_equation_gui_preview L equation_str
             x_min x_max y_min y_max).
Proof.
  split; [|split; [|split]].
  - unfold PlotterGui.plot_function_gui. steps_only_computes.
  - unfold PlotterGui.plot_equation_gui_preview. steps_only_computes.
  - unfold PlotterGui.plot_function_gui, PlotterGui.clean_latex_expression.
    ensures_go.
  - unfold PlotterGui.plot_equation_gui_preview,
           PlotterGui.clean_latex_expression.
    ensures_go.
Qed.

(** ** What the answer [True] of a plot function means *)

Section Saved.

Variable L : Lib.
Local Abbreviation Py := (M (ndarray L)).
Local Abbreviation W := (World (ndarray L)).

Lemma hoare_any {A} (P : W -> Prop) (m : Py A) :
  hoare P m (fun _ _ => True) (fun _ _ => True).
Proof. intros w _. destruct (m w) as [[a|r|] w1]; exact I. Qed.

Lemma hoare_of_ensures {A} (P : W -> Prop) (Q : A -> Prop) (m : Py A) :
  ensures Q m -> hoare P m (fun a _ => Q a) (fun _ _ => True).
Proof.
  intros H w _. specialize (H w).
  destruct (m w) as [[a|r|] w1]; simpl in H; auto.
Qed.

Lemma hoare_pure {A} (P0 : Prop) (m : Py A)
      (Q : A -> W -> Prop) (E : raised -> W -> Prop) :
  (P0 -> hoare (fun _ => True) m Q E) -> hoare (fun _ => P0) m Q E.
Proof. intros H w HP. now apply H. Qed.

Lemma file_exists_head (fs : list string) (si : list stdin_item)
      (t : list (action (ndarray L))) (name : string) :
  file_exists (mkWorld (name :: fs) si t) name = true.
Proof. unfold file_exists. cbn. now rewrite String.eqb_refl. Qed.

Lemma save_with_fallback_saved (input_str filename format : string) :
  hoare (fun _ => True)
        (FunctionPlotter.save_with_fallback L input_str filename format)
        (fun name w' =>
           (name = filename \/
            name = FunctionPlotter.default_filename L input_str format) /\
           file_exists w' name = true)
        (fun _ _ => True).
Proof.
  intros w _.
  destruct (savefig_raises L (trace w) filename format) as [e|] eqn:He.
  - rewrite (save_with_fallback_on_failure L input_str filename format w e He).
    cbv zeta.
    match goal with
    | |- context [match ?x with Some _ => _ | None => _ end] => destruct x
    end; [exact I|].
    split; [now right | apply file_exists_head].
  - rewrite (save_with_fallback_on_success L input_str filename format w He).
    split; [now left | apply file_exists_head].
Qed.

(** closing the figure keeps the file *)
Lemma close_keeps_file (name : string) :
  hoare (fun w => file_exists w name = true)
        (plt L Close ;;; ret true)
        (fun _ w' => file_exists w' name = true)
        (fun _ _ => True).
Proof.
  intros w Hw. unfold bind, plt, ret.
  destruct (plt_raises L (trace w) Close); [exact I | exact Hw].
Qed.

Lemma save_then_close (input_str filename format : string) :
  hoare (fun _ => True)
        (_ <- FunctionPlotter.save_with_fallback L input_str filename format ;;
         plt L Close ;;; ret true)
        (fun _ w' =>
           file_exists w' filename = true \/
           file_exists w'
             (FunctionPlotter.default_filename L input_str format) = true)
        (fun _ _ => True).
Proof.
  eapply hoare_bind; [apply save_with_fallback_saved|].
  intros name. cbv beta.
  intros w [[->| ->] Hw].
  - pose proof (close_keeps_file filename w Hw) as H.
    destruct ((plt L Close ;;; ret true) w) as [[b|r|] w1]; auto.
  - pose proof (close_keeps_file _ w Hw) as H.
    destruct ((plt L Close ;;; ret true) w) as [[b|r|] w1]; auto.
Qed.

Lemma plot_function_body_saved
      (func_str : string) (x_min x_max : spec_float)
      (filename format : string) :
  hoare (fun _ => True)
        (FunctionPlotter.plot_function_body L func_str x_min x_max
                                            filename format)
        (fun _ w' =>
           file_exists w' filename = true \/
           file_exists w'
             (FunctionPlotter.default_filename L func_str format) = true)
        (fun _ _ => True).
Proof.
  unfold FunctionPlotter.plot_function_body.
  repeat first
    [ match goal with
      | |- hoare _ (bind (FunctionPlotter.save_with_fallback _ _ _ _) _) _ _ =>
          apply save_then_close
      end
    | eapply hoare_bind; [apply hoare_any | intros ?; cbv beta] ].
Qed.

Lemma plot_equation_body_saved
      (equation_str : string) (x_min x_max y_min y_max : spec_float)
      (filename format : string) :
  hoare (fun _ => True)
        (FunctionPlotter.plot_equation_body L equation_str
           x_min x_max y_min y_max filename format)
        (fun _ w' =>
           file_exists w' filename = true \/
           file_exists w'
             (FunctionPlotter.default_filename
                L (PyStr.replace "^" "**" equation_str) format) = true)
        (fun _ _ => True).
Proof.
  unfold FunctionPlotter.plot_equation_body.
  eapply hoare_bind;
    [apply (hoare_of_ensures _ _ _ (parse_equation_normalises L equation_str))|].
  intros [[n eq] expr]. cbn [fst].
  apply hoare_pure. intros ->.
  repeat first
    [ match goal with
      | |- hoare _ (bind (FunctionPlotter.save_with_fallback _ _ _ _) _) _ _ =>
          apply save_then_close
      | |- hoare _ (let (_, _) := ?p in _) _ _ => destruct p
      end
    | eapply hoare_bind; [apply hoare_any | intros ?; cbv beta] ].
Qed.

End Saved.

(** X15. When [plot_function] or [plot_equation] answers [True], the
    figure is on the disk: a file exists under the name that was asked for
    or under the fallback name. *)
Theorem plot_true_means_saved
        (L : Lib) (func_str equation_str : string)
        (x_min x_max y_min y_max : spec_float) (filename format : string)
        (w w' : World (ndarray L)) :
  (FunctionPlotter.plot_function L func_str x_min x_max filename format w
   = (Ok true, w') ->
   file_exists w' filename = true \/
   file_exists w' (FunctionPlotter.default_filename L func_str format)
   = true) /\
  (FunctionPlotter.plot_equation L equation_str x_min x_max y_min y_max
                                 filename format w
   = (Ok true, w') ->
   file_exists w' filename = true \/
   file_exists w'
     (FunctionPlotter.default_filename
        L (PyStr.replace "^" "**" equation_str) format) = true).
Proof.
  split.
  - unfold FunctionPlotter.plot_function, try_except_Exception.
    pose proof (plot_function_body_saved L func_str x_min x_max filename
                  format w I) as H.
    destruct (FunctionPlotter.plot_function_body L _ _ _ _ _ w)
      as [[b|[e|]|] w1]; intros Heq; try discriminate Heq.
    injection Heq as Hb Hw. subst. exact H.
  - unfold FunctionPlotter.plot_equation, try_except_Exception.
    pose proof (plot_equation_body_saved L equation_str x_min x_max
                  y_min y_max filename format w I) as H.
    destruct (FunctionPlotter.plot_equation_body L _ _ _ _ _ _ _ w)
      as [[b|[e|]|] w1]; intros Heq; try discriminate Heq.
    injection Heq as Hb Hw. subst. exact H.
Qed.

Lemma plot_true_means_saved_witness :
  file_exists
    (snd (FunctionPlotter.plot_function Toy.lib "x**2" Toy.minus_two Toy.two
            "/readonly/a.svg" "svg" (Toy.world [] [])))
    "output_9331.svg" = true.
Proof.
  assert (E : FunctionPlotter.plot_function Toy.lib "x**2" Toy.minus_two
                Toy.two "/readonly/a.svg" "svg" (Toy.world [] []) =
              (Ok true,
               snd (FunctionPlotter.plot_function Toy.lib "x**2"
                      Toy.minus_two Toy.two "/readonly/a.svg" "svg"
                      (Toy.world [] []))))
    by (vm_compute; reflexivity).
  destruct (proj1 (plot_true_means_saved Toy.lib "x**2" "" Toy.minus_two
                     Toy.two Toy.minus_two Toy.two "/readonly/a.svg" "svg"
                     (Toy.world [] []) _) E) as [H1|H1].
  - vm_compute in H1. discriminate H1.
  - exact H1.
Defined.

(** ** The handlers of the window *)

Section PreviewFacts.

Variable L : Lib.

Lemma plot_function_gui_computes
      (func_str : string) (x_min x_max : spec_float)
      (color legend_loc : string) :
  steps only_computes
        (PlotterGui.plot_function_gui L func_str x_min x_max color legend_loc).
Proof. unfold PlotterGui.plot_function_gui. steps_only_computes. Qed.

Lemma plot_equation_gui_preview_computes
      (equation_str : string) (x_min x_max y_min y_max : spec_float) :
  steps only_computes
        (PlotterGui.plot_equation_gui_preview L equation_str
           x_min x_max y_min y_max).
Proof. unfold PlotterGui.plot_equation_gui_preview. steps_only_computes. Qed.

Lemma plot_function_gui_ends
      (func_str : string) (x_min x_max : spec_float)
      (color legend_loc : string) :
  ensures (fun _ => True)
          (PlotterGui.plot_function_gui L func_str x_min x_max
                                        color legend_loc).
Proof.
  unfold PlotterGui.plot_function_gui, PlotterGui.clean_latex_expression.
  ensures_go.
Qed.

Lemma plot_equation_gui_preview_ends
      (equation_str : string) (x_min x_max y_min y_max : spec_float) :
  ensures (fun _ => True)
          (PlotterGui.plot_equation_gui_preview L equation_str
             x_min x_max y_min y_max).
Proof.
  unfold PlotterGui.plot_equation_gui_preview,
         PlotterGui.clean_latex_expression.
  ensures_go.
Qed.

End PreviewFacts.

Section HandlerFacts.

Import PlotterGUI.

Variable L : Lib.
Variable which : string -> bool.
Variable float_of_expr : Expr L -> exception + spec_float.
Variable slider_rgb : Z -> Z * Z * Z.
Variable canvas_raises : list (action (ndarray L)) -> option exception.
Variable draw_raises : list (action (ndarray L)) -> option exception.

Local Abbreviation W := (World (ndarray L)).
Local Abbreviation Hd := (H L).

Lemma hruns_ret {A} (a : A) s (w : W) Q E :
  Q a s w -> hruns (hret L a) s w Q E.
Proof. intros HQ. exact HQ. Qed.

Lemma hruns_raise {A} (e : exception) s (w : W)
      (Q : A -> Tab -> W -> Prop) E :
  E e s w -> hruns (hraise L e) s w Q E.
Proof. intros HE. exact HE. Qed.

Lemma hruns_bind {A B} (m : Hd A) (k : A -> Hd B) s (w : W) Q E :
  hruns m s w (fun a s' w' => hruns (k a) s' w' Q E) E ->
  hruns (hbind L m k) s w Q E.
Proof.
  unfold hruns, hbind.
  destruct (m s w) as [[a|[e|]|] [s1 w1]]; intros Hm; exact Hm.
Qed.

Lemma hruns_try {A} (body : Hd A) (handler : exception -> Hd A)
      s (w : W) Q E :
  hruns body s w Q (fun e s' w' => hruns (handler e) s' w' Q E) ->
  hruns (htry L body handler) s w Q E.
Proof.
  unfold hruns, htry.
  destruct (body s w) as [[a|[e|]|] [s1 w1]]; intros Hm; exact Hm.
Qed.

Lemma hruns_read s (w : W) Q E : Q s s w -> hruns (read L) s w Q E.
Proof. intros HQ. exact HQ. Qed.

Lemma hruns_update (f : Tab -> Tab) s (w : W) Q E :
  Q tt (f s) w -> hruns (update L f) s w Q E.
Proof. intros HQ. exact HQ. Qed.

Lemma hruns_call {A} (r : exception + A) s (w : W) Q E :
  (forall a, r = inr a -> Q a s w) ->
  (forall e, r = inl e -> E e s w) ->
  hruns (lift L (call r)) s w Q E.
Proof.
  intros HQ HE. unfold hruns, lift, call, ret, raise.
  destruct r as [e|a]; [now apply HE | now apply HQ].
Qed.

(** a function of the program that keeps a relation on the world and
    ends *)
Lemma hruns_lift {A} (R : W -> W -> Prop) (m : M (ndarray L) A)
      s (w : W) Q E :
  steps R m -> ensures (fun _ => True) m ->
  (forall a w', R w w' -> Q a s w') ->
  (forall e w', R w w' -> E e s w') ->
  hruns (lift L m) s w Q E.
Proof.
  intros Hs He HQ HE. unfold hruns, lift.
  specialize (Hs w). specialize (He w).
  destruct (m w) as [[a|[e|]|] w1]; simpl in *;
    [now apply HQ | now apply HE | contradiction | contradiction].
Qed.

Lemma hruns_new_canvas (f : figure) s (w : W) Q E :
  Q tt (mkTab (status s) (export_btn s) (Some f) (fig s)) w ->
  (forall e, E e s w) ->
  hruns (new_canvas L canvas_raises f) s w Q E.
Proof.
  intros HQ HE. unfold hruns, new_canvas.
  destruct (canvas_raises (trace w)); [apply HE | exact HQ].
Qed.

Lemma hruns_canvas_draw s (w : W) Q E :
  Q tt s w -> (forall e, E e s w) ->
  hruns (canvas_draw L draw_raises) s w Q E.
Proof.
  intros HQ HE. unfold hruns, canvas_draw.
  destruct (draw_raises (trace w)); [apply HE | exact HQ].
Qed.

Lemma hruns_weaken {A} (m : Hd A) s (w : W)
      (Q Q' : A -> Tab -> W -> Prop) (E E' : exception -> Tab -> W -> Prop) :
  hruns m s w Q E ->
  (forall a s' w', Q a s' w' -> Q' a s' w') ->
  (forall e s' w', E e s' w' -> E' e s' w') ->
  hruns m s w Q' E'.
Proof.
  unfold hruns. destruct (m s w) as [[a|[e|]|] [s1 w1]]; auto.
Qed.

(** what a run that returns or raises nothing looks like *)
Lemma hruns_returns {A} (m : Hd A) s (w : W) Q :
  hruns m s w Q (fun _ _ _ => False) ->
  exists a s' w', m s w = (Ok a, (s', w')) /\ Q a s' w'.
Proof.
  unfold hruns. destruct (m s w) as [[a|[e|]|] [s1 w1]];
    intros Hm; try contradiction.
  now exists a, s1, w1.
Qed.

Lemma hruns_returns_tt (m : Hd unit) s (w : W) (Q : Tab -> W -> Prop) :
  hruns m s w (fun _ => Q) (fun _ _ _ => False) ->
  exists s' w', m s w = (Ok tt, (s', w')) /\ Q s' w'.
Proof.
  intros Hm. apply hruns_returns in Hm as ([] & s' & w' & Hm & HQ).
  now exists s', w'.
Qed.

(** the body of the [except] clauses: it cannot fail *)
Lemma hruns_generate_failed (text : string) s (w : W) Q E :
  (forall s', refused s s' ->
              (canvas s = None -> fig s' = fig s) -> Q tt s' w) ->
  hruns (generate_failed L text) s w Q E.
Proof.
  intros HQ. unfold generate_failed, config_status, config_export_btn,
                    drop_canvas, set_canvas, set_fig.
  apply hruns_bind, hruns_update. cbv beta.
  apply hruns_bind, hruns_update. cbv beta.
  apply hruns_bind, hruns_read. cbv beta.
  cbn [canvas]. destruct (canvas s) as [c|] eqn:Hc.
  - apply hruns_bind, hruns_update. cbv beta. apply hruns_update.
    apply HQ; [|discriminate]. unfold refused. cbn [status export_btn canvas fig snd].
    auto.
  - apply hruns_ret. apply HQ; [|reflexivity].
    unfold refused. cbn [status export_btn canvas fig snd]. repeat split; auto. congruence.
Qed.

Ltac hstep :=
  cbv beta iota; cbn [status export_btn canvas fig];
  lazymatch goal with
  | |- hruns (hbind _ _ _) _ _ _ _ => apply hruns_bind
  | |- hruns (htry _ _ _) _ _ _ _ => apply hruns_try
  | |- hruns (hret _ _) _ _ _ _ => apply hruns_ret
  | |- hruns (hraise _ _) _ _ _ _ => apply hruns_raise
  | |- hruns (update _ _) _ _ _ _ => apply hruns_update
  | |- hruns (read _) _ _ _ _ => apply hruns_read
  | |- hruns (lift _ (call _)) _ _ _ _ =>
      apply hruns_call; [intros ? _ | intros ? _]
  | |- hruns (generate_failed _ _) _ _ _ _ =>
      apply hruns_generate_failed; intros ? ? ?
  | |- hruns (new_canvas _ _ _) _ _ _ _ =>
      apply hruns_new_canvas; [|intros ?]
  | |- hruns (canvas_draw _ _) _ _ _ _ =>
      apply hruns_canvas_draw; [|intros ?]
  | |- hruns (if ?b then _ else _) _ _ _ _ => destruct b eqn:?
  end.

(** a failure after a step that left the canvas as it was, or put a new
    one *)
Lemma refused_after (s s1 s' : Tab) :
  canvas s1 = canvas s \/ canvas s1 <> None ->
  refused s1 s' -> refused s s'.
Proof.
  intros Hc (H1 & H2 & H3 & H4). repeat split; try assumption.
  intros Hs. apply H4. destruct Hc as [Hc|Hc]; congruence.
Qed.

(** the lines of a Generate handler from the call of the preview function
    on, inside the outer [try] *)
Lemma hruns_make_and_show (m : M (ndarray L) unit) (f : figure) s (w0 w : W) :
  steps only_computes m -> ensures (fun _ => True) m ->
  only_computes w0 w ->
  hruns
    (hbind L
       (htry L (hbind L (lift L m) (fun _ => hret L true))
          (fun e =>
             hbind L
               (generate_failed L ("Error generating plot: "
                                     ++ str_of_exception e))
               (fun _ => hret L false)))
       (fun made : bool =>
          if made then show_figure L canvas_raises draw_raises f
          else hret L tt))
    s w
    (fun _ s' w' => only_computes w0 w' /\ (shows f s' \/ refused s s'))
    (fun e s' w' =>
       only_computes w0 w' /\
       (canvas s' = canvas s \/ canvas s' <> None)).
Proof.
  intros Hs He Hw.
  hstep. hstep. hstep.
  apply (hruns_lift only_computes); [assumption | assumption | |].
  - intros [] w1 Hw1. hstep.
    unfold show_figure, set_fig, config_status, config_export_btn.
    hstep. hstep. hstep. hstep.
    + hstep. hstep.
      * hstep. hstep. hstep.
        split; [eapply only_computes_trans; eassumption|].
        left. reflexivity.
      * split; [eapply only_computes_trans; eassumption|].
        right. discriminate.
    + split; [eapply only_computes_trans; eassumption|].
      left. reflexivity.
  - intros e w1 Hw1. hstep. hstep. hstep. hstep.
    split; [eapply only_computes_trans; eassumption|]. now right.
Qed.


Lemma hruns_float_of_entry (text : string) s (w : W) Q E :
  (forall x, entry_value L float_of_expr text x -> Q x s w) ->
  (forall e, E e s w) ->
  hruns (float_of_entry L float_of_expr (PyStr.strip text)) s w Q E.
Proof.
  intros HQ HE. unfold float_of_entry.
  apply hruns_bind, hruns_call; [intros expr Hexpr | intros e _; apply HE].
  apply hruns_call; [intros x Hx | intros e _; apply HE].
  apply HQ. now exists expr.
Qed.

(** a Generate click when the start-up check failed *)
Lemma generate_function_plot_without_latex
      (func_entry xmin_entry xmax_entry color_hex : string)
      (slider : Z) (legend_pos : string) (s : Tab) (w : W) :
  latex_ok which = false ->
  generate_function_plot L which float_of_expr slider_rgb canvas_raises
    draw_raises func_entry xmin_entry xmax_entry color_hex slider legend_pos
    s w
  = (Ok tt, (mkTab (latex_msg which, "red") (export_btn s) (canvas s) (fig s),
             w)).
Proof. intros Hl. unfold generate_function_plot. now rewrite Hl. Qed.

Lemma generate_equation_plot_without_latex
      (eqn_entry xmin_entry xmax_entry ymin_entry ymax_entry : string)
      (s : Tab) (w : W) :
  latex_ok which = false ->
  generate_equation_plot L which float_of_expr canvas_raises draw_raises
    eqn_entry xmin_entry xmax_entry ymin_entry ymax_entry s w
  = (Ok tt, (mkTab (latex_msg which, "red") (export_btn s) (canvas s) (fig s),
             w)).
Proof. intros Hl. unfold generate_equation_plot. now rewrite Hl. Qed.

(** the outer [except] clause, after a failure inside the [try] *)
Ltac outer_handler :=
  hstep;
  match goal with
  | H : refused _ _ |- _ =>
      split; [assumption | right; eapply refused_after; [|exact H]]
  end.

Lemma generate_function_plot_with_latex
      (func_entry xmin_entry xmax_entry color_hex : string)
      (slider : Z) (legend_pos : string) (s : Tab) (w : W) :
  latex_ok which = true ->
  exists s' w',
    generate_function_plot L which float_of_expr slider_rgb canvas_raises
      draw_raises func_entry xmin_entry xmax_entry color_hex slider
      legend_pos s w
    = (Ok tt, (s', w')) /\
    only_computes w w' /\
    ((exists x_min x_max,
        entry_value L float_of_expr xmin_entry x_min /\
        entry_value L float_of_expr xmax_entry x_max /\
        FunctionPlotter.float_ge x_min x_max = false /\
        shows (FunctionFigure (PyStr.strip func_entry) x_min x_max
                 (get_func_plot_color slider_rgb color_hex slider)
                 legend_pos) s') \/
     refused s s').
Proof.
  intros Hl.
  apply hruns_returns_tt.
  unfold generate_function_plot. rewrite Hl. cbn [negb]. cbv zeta.
  pose proof (only_computes_refl L w) as Hw.
  hstep. hstep.
  apply hruns_float_of_entry; [intros x_min Hmin | intros e; outer_handler].
  2: now left.
  hstep.
  apply hruns_float_of_entry; [intros x_max Hmax | intros e; outer_handler].
  2: now left.
  hstep.
  - hstep. outer_handler. now left.
  - eapply hruns_weaken.
    + apply (hruns_make_and_show _ _ s w w);
        [apply plot_function_gui_computes | apply plot_function_gui_ends
        | exact Hw].
    + intros _ s' w' [Hw' [Hs|Hs]]; (split; [exact Hw'|]).
      * left. now exists x_min, x_max.
      * now right.
    + intros e s' w' [Hw' Hc]. cbv beta. outer_handler. exact Hc.
Qed.

Lemma generate_equation_plot_with_latex
      (eqn_entry xmin_entry xmax_entry ymin_entry ymax_entry : string)
      (s : Tab) (w : W) :
  latex_ok which = true ->
  exists s' w',
    generate_equation_plot L which float_of_expr canvas_raises draw_raises
      eqn_entry xmin_entry xmax_entry ymin_entry ymax_entry s w
    = (Ok tt, (s', w')) /\
    only_computes w w' /\
    ((exists x_min x_max y_min y_max,
        entry_value L float_of_expr xmin_entry x_min /\
        entry_value L float_of_expr xmax_entry x_max /\
        entry_value L float_of_expr ymin_entry y_min /\
        entry_value L float_of_expr ymax_entry y_max /\
        FunctionPlotter.float_ge x_min x_max = false /\
        FunctionPlotter.float_ge y_min y_max = false /\
        shows (EquationFigure (PyStr.strip eqn_entry)
                 x_min x_max y_min y_max) s') \/
     refused s s').
Proof.
  intros Hl.
  apply hruns_returns_tt.
  unfold generate_equation_plot. rewrite Hl. cbn [negb]. cbv zeta.
  pose proof (only_computes_refl L w) as Hw.
  hstep. hstep.
  apply hruns_float_of_entry; [intros x_min Hxmin | intros e; outer_handler].
  2: now left.
  hstep.
  apply hruns_float_of_entry; [intros x_max Hxmax | intros e; outer_handler].
  2: now left.
  hstep.
  apply hruns_float_of_entry; [intros y_min Hymin | intros e; outer_handler].
  2: now left.
  hstep.
  apply hruns_float_of_entry; [intros y_max Hymax | intros e; outer_handler].
  2: now left.
  hstep.
  - hstep. outer_handler. now left.
  - match goal with
    | Hb : _ || _ = false |- _ => apply orb_false_iff in Hb as [Hx Hy]
    end.
    eapply hruns_weaken.
    + apply (hruns_make_and_show _ _ s w w);
        [apply plot_equation_gui_preview_computes
        | apply plot_equation_gui_preview_ends | exact Hw].
    + intros _ s' w' [Hw' [Hs|Hs]]; (split; [exact Hw'|]).
      * left. now exists x_min, x_max, y_min, y_max.
      * now right.
    + intros e s' w' [Hw' Hc]. cbv beta. outer_handler. exact Hc.
Qed.

(** *** Export *)

Lemma file_exists_in (w : W) (name : string) :
  file_exists w name = true <-> In name (files w).
Proof.
  unfold file_exists. rewrite existsb_exists. split.
  - intros (x & Hx & Heq). apply String.eqb_eq in Heq. now subst.
  - intros Hn. exists name. split; [exact Hn | apply String.eqb_refl].
Qed.

Lemma file_exists_not_in (w : W) (name : string) :
  file_exists w name = false <-> ~ In name (files w).
Proof.
  rewrite <- file_exists_in. destruct (file_exists w name); split;
    congruence.
Qed.

(** what a click on Export does to the tab and to the world *)
Lemma export_tab_plot_runs (format_ filename : string) (s : Tab) (w : W) :
  exists text colour w' ws,
    export_tab_plot L format_ filename s w
    = (Ok tt, (mkTab (text, colour) (export_btn s) (canvas s) (fig s), w')) /\
    wrote_new_files w w' ws /\
    List.length ws <= 1 /\
    (fig s = None -> ws = []).
Proof.
  unfold export_tab_plot, hbind, read, lift, config_status, update.
  cbv beta iota.
  destruct (fig s) as [f|] eqn:Hf.
  - destruct (get_safe_filename_io_returns L (PyStr.strip filename) format_ w)
      as (r & Hr & Hfree).
    unfold PlotterGui.export_plot, bind. rewrite Hr.
    unfold PlotterGui.export_current_figure, try_except_Exception, bind,
           savefig, ret.
    assert (Hws : forall name, In name [r] -> file_exists w name = false)
      by (intros name [<-|[]]; exact Hfree).
    destruct (savefig_raises L (trace w) r format_) as [e|].
    + eexists _, _, _, [r]. split; [rewrite Hf; reflexivity|].
      split; [|split; [cbn; lia | discriminate]].
      unfold wrote_new_files. cbn [stdin trace files].
      rewrite written_snoc, console_snoc. cbn [savefig_name console_text].
      rewrite app_nil_r.
      split; [reflexivity|]. split; [reflexivity|]. split; [reflexivity|].
      split; [exact Hws|].
      exists []. split; [reflexivity|]. split; [constructor|].
      intros name [].
    + eexists _, _, _, [r]. split; [rewrite Hf; reflexivity|].
      split; [|split; [cbn; lia | discriminate]].
      unfold wrote_new_files. cbn [stdin trace files].
      rewrite written_snoc, console_snoc. cbn [savefig_name console_text].
      rewrite app_nil_r.
      split; [reflexivity|]. split; [reflexivity|]. split; [reflexivity|].
      split; [exact Hws|].
      exists [r]. split; [reflexivity|].
      split; [repeat constructor; intros []|]. apply incl_refl.
  - cbn. eexists _, _, _, []. split; [rewrite ?Hf; reflexivity|].
    split; [|split; [cbn; lia | reflexivity]].
    unfold wrote_new_files. rewrite app_nil_r.
    split; [reflexivity|]. split; [reflexivity|]. split; [reflexivity|].
    split; [intros name []|].
    exists []. split; [reflexivity|]. split; [constructor|]. intros name [].
Qed.

Lemma wrote_new_files_refl (w : W) : wrote_new_files w w [].
Proof.
  unfold wrote_new_files. rewrite app_nil_r.
  split; [reflexivity|]. split; [reflexivity|]. split; [reflexivity|].
  split; [intros name []|].
  exists []. split; [reflexivity|]. split; [constructor|]. intros name [].
Qed.

Lemma wrote_new_files_trans (w1 w2 w3 : W) (ws ws' : list string) :
  wrote_new_files w1 w2 ws -> wrote_new_files w2 w3 ws' ->
  wrote_new_files w1 w3 (ws ++ ws').
Proof.
  intros (A1 & A2 & A3 & A4 & made & A5 & A6 & A7)
         (B1 & B2 & B3 & B4 & made' & B5 & B6 & B7).
  unfold wrote_new_files.
  split; [congruence|]. split; [congruence|].
  split; [rewrite B3, A3; now rewrite app_assoc|].
  assert (Hfresh : forall name, In name ws' -> ~ In name (made ++ files w1)).
  { intros name Hn. rewrite <- A5. apply file_exists_not_in. now apply B4. }
  split.
  - intros name [Hn|Hn]%in_app_or; [now apply A4|].
    apply file_exists_not_in. intros Hx.
    apply (Hfresh name Hn). apply in_or_app. now right.
  - exists (made' ++ made)%list.
    split; [rewrite B5, A5; now rewrite app_assoc|]. split.
    + apply NoDup_app; [exact B6 | exact A6 |].
      intros name Hn Hm. apply (Hfresh name); [now apply B7|].
      apply in_or_app. now left.
    + intros name [Hn|Hn]%in_app_or; apply in_or_app;
        [right; now apply B7 | left; now apply A7].
Qed.

Lemma wrote_new_files_computes (w w' : W) :
  only_computes w w' -> wrote_new_files w w' [].
Proof.
  intros (H1 & H2 & H3 & H4). unfold wrote_new_files.
  rewrite app_nil_r.
  split; [exact H3|]. split; [exact H4|]. split; [exact H2|].
  split; [intros name []|].
  exists []. split; [exact H1|]. split; [constructor|]. intros name [].
Qed.

(** *** Sessions *)

Lemma tab_ok_status (st : string * string) (s : Tab) :
  tab_ok s -> tab_ok (mkTab st (export_btn s) (canvas s) (fig s)).
Proof. intros Hs. exact Hs. Qed.

Lemma tab_ok_shows (f : figure) (s' : Tab) : shows f s' -> tab_ok s'.
Proof. intros ->. unfold tab_ok. cbn. auto. Qed.

Lemma tab_ok_refused (s s' : Tab) : refused s s' -> tab_ok s'.
Proof. intros (_ & Hb & Hc & _). unfold tab_ok. now rewrite Hc. Qed.

(** what a Generate click on the function tab does, with or without
    LaTeX *)
Lemma generate_function_plot_runs
      (func_entry xmin_entry xmax_entry color_hex : string)
      (slider : Z) (legend_pos : string) (s : Tab) (w : W) :
  exists s' w',
    generate_function_plot L which float_of_expr slider_rgb canvas_raises
      draw_raises func_entry xmin_entry xmax_entry color_hex slider
      legend_pos s w
    = (Ok tt, (s', w')) /\
    only_computes w w' /\
    (tab_ok s -> tab_ok s').
Proof.
  destruct (latex_ok which) eqn:Hl.
  - destruct (generate_function_plot_with_latex func_entry xmin_entry
                xmax_entry color_hex slider legend_pos s w Hl)
      as (s' & w' & Hrun & Hw & [(x1 & x2 & _ & _ & _ & Hs)|Hs]);
      exists s', w'; (split; [exact Hrun|]); (split; [exact Hw|]); intros _.
    + eapply tab_ok_shows, Hs.
    + eapply tab_ok_refused, Hs.
  - rewrite generate_function_plot_without_latex by exact Hl.
    eexists _, _. split; [reflexivity|].
    split; [apply only_computes_refl|]. apply tab_ok_status.
Qed.

Lemma generate_equation_plot_runs
      (eqn_entry xmin_entry xmax_entry ymin_entry ymax_entry : string)
      (s : Tab) (w : W) :
  exists s' w',
    generate_equation_plot L which float_of_expr canvas_raises draw_raises
      eqn_entry xmin_entry xmax_entry ymin_entry ymax_entry s w
    = (Ok tt, (s', w')) /\
    only_computes w w' /\
    (tab_ok s -> tab_ok s').
Proof.
  destruct (latex_ok which) eqn:Hl.
  - destruct (generate_equation_plot_with_latex eqn_entry xmin_entry
                xmax_entry ymin_entry ymax_entry s w Hl)
      as (s' & w' & Hrun & Hw &
          [(x1 & x2 & y1 & y2 & _ & _ & _ & _ & _ & _ & Hs)|Hs]);
      exists s', w'; (split; [exact Hrun|]); (split; [exact Hw|]); intros _.
    + eapply tab_ok_shows, Hs.
    + eapply tab_ok_refused, Hs.
  - rewrite generate_equation_plot_without_latex by exact Hl.
    eexists _, _. split; [reflexivity|].
    split; [apply only_computes_refl|]. apply tab_ok_status.
Qed.

Local Abbreviation fire_ :=
  (fire L which float_of_expr slider_rgb canvas_raises draw_raises).
Local Abbreviation session_ :=
  (session L which float_of_expr slider_rgb canvas_raises draw_raises).

(** one click: the handler returns, writes at most one file and only on
    Export, and keeps the tabs in order *)
Lemma fire_runs (ev : event) (g : Gui) (w : W) :
  exists g' w' ws,
    fire_ ev g w = (Ok tt, (g', w')) /\
    wrote_new_files w w' ws /\
    List.length ws <= (if is_export ev then 1 else 0) /\
    (gui_ok g -> gui_ok g').
Proof.
  destruct ev as [a b c d e f | format_ filename | a b c d e
                  | format_ filename];
    cbn [fire is_export]; unfold on_func_tab, on_eqn_tab.
  - destruct (generate_function_plot_runs a b c d e f (func_tab g) w)
      as (s' & w' & -> & Hw & Hs).
    eexists _, _, []. split; [reflexivity|].
    split; [now apply wrote_new_files_computes|]. split; [cbn; lia|].
    intros [H1 H2]. split; [now apply Hs | exact H2].
  - destruct (export_btn (func_tab g)).
    + destruct (export_tab_plot_runs format_ filename (func_tab g) w)
        as (text & colour & w' & ws & -> & Hw & Hlen & _).
      eexists _, _, ws. split; [reflexivity|].
      split; [exact Hw|]. split; [exact Hlen|].
      intros [H1 H2]. split; [now apply tab_ok_status | exact H2].
    + exists g, w, []. split; [reflexivity|].
      split; [apply wrote_new_files_refl|]. split; [cbn; lia | auto].
  - destruct (generate_equation_plot_runs a b c d e (eqn_tab g) w)
      as (s' & w' & -> & Hw & Hs).
    eexists _, _, []. split; [reflexivity|].
    split; [now apply wrote_new_files_computes|]. split; [cbn; lia|].
    intros [H1 H2]. split; [exact H1 | now apply Hs].
  - destruct (export_btn (eqn_tab g)).
    + destruct (export_tab_plot_runs format_ filename (eqn_tab g) w)
        as (text & colour & w' & ws & -> & Hw & Hlen & _).
      eexists _, _, ws. split; [reflexivity|].
      split; [exact Hw|]. split; [exact Hlen|].
      intros [H1 H2]. split; [exact H1 | now apply tab_ok_status].
    + exists g, w, []. split; [reflexivity|].
      split; [apply wrote_new_files_refl|]. split; [cbn; lia | auto].
Qed.

Lemma session_runs (evs : list event) :
  forall (g : Gui) (w : W),
  exists g' w' ws,
    session_ evs g w = (Ok tt, (g', w')) /\
    wrote_new_files w w' ws /\
    List.length ws <= List.length (filter is_export evs) /\
    (gui_ok g -> gui_ok g').
Proof.
  induction evs as [|ev evs IH]; intros g w.
  - exists g, w, []. split; [reflexivity|].
    split; [apply wrote_new_files_refl|]. split; [cbn; lia | auto].
  - destruct (fire_runs ev g w) as (g1 & w1 & ws1 & Hfire & Hw1 & Hl1 & Hg1).
    destruct (IH g1 w1) as (g2 & w2 & ws2 & Hrun & Hw2 & Hl2 & Hg2).
    exists g2, w2, (ws1 ++ ws2)%list.
    cbn [session]. rewrite Hfire. split; [exact Hrun|].
    split; [eapply wrote_new_files_trans; eassumption|].
    split; [|auto].
    rewrite length_app. cbn [filter].
    destruct (is_export ev); cbn [List.length]; lia.
Qed.

(** without LaTeX a click changes the status line at most *)
Lemma fire_without_latex (ev : event) (g : Gui) (w : W) :
  latex_ok which = false ->
  idle (func_tab g) -> idle (eqn_tab g) ->
  exists g',
    fire_ ev g w = (Ok tt, (g', w)) /\
    idle (func_tab g') /\ idle (eqn_tab g').
Proof.
  intros Hl Hf He.
  destruct ev as [a b c d e f | format_ filename | a b c d e
                  | format_ filename];
    cbn [fire]; unfold on_func_tab, on_eqn_tab.
  - rewrite generate_function_plot_without_latex by exact Hl.
    eexists. split; [reflexivity|]. split; [exact Hf | exact He].
  - destruct Hf as (Hb & Hc & Hfig). rewrite Hb.
    exists g. repeat split; auto. apply He. apply He. apply He.
  - rewrite generate_equation_plot_without_latex by exact Hl.
    eexists. split; [reflexivity|]. split; [exact Hf | exact He].
  - destruct He as (Hb & Hc & Hfig). rewrite Hb.
    exists g. repeat split; auto. apply Hf. apply Hf. apply Hf.
Qed.

Lemma session_without_latex (evs : list event) :
  latex_ok which = false ->
  forall (g : Gui) (w : W),
    idle (func_tab g) -> idle (eqn_tab g) ->
    exists g',
      session_ evs g w = (Ok tt, (g', w)) /\
      idle (func_tab g') /\ idle (eqn_tab g').
Proof.
  intros Hl. induction evs as [|ev evs IH]; intros g w Hf He.
  - now exists g.
  - destruct (fire_without_latex ev g w Hl Hf He) as (g1 & Hfire & Hf1 & He1).
    cbn [session]. rewrite Hfire. now apply IH.
Qed.

End HandlerFacts.

(** ** The colour of the curve *)

Section ColourFacts.

Import PlotterGUI.

Lemma fullmatch_hex_color (t : string) :
  Re.fullmatch Colour.hex_color_re t = true <->
  exists a b c d e f,
    forallb Colour.is_hex_digit [a; b; c; d; e; f] = true /\
    t = String "#" (String a (String b (String c
          (String d (String e (String f EmptyString)))))).
Proof.
  unfold Colour.hex_color_re. cbn [Re.times forallb].
  split.
  - intros H.
    rewrite fullmatch_Cat_Chr in H.
    destruct t as [|h t]; [discriminate|].
    apply andb_prop in H as [Hh H]. apply Ascii.eqb_eq in Hh. subst h.
    do 6 (rewrite fullmatch_Cat_Class in H;
          destruct t as [|? t]; [discriminate|];
          rewrite hex_class_is_hex_digit in H;
          apply andb_prop in H as [? H]).
    apply fullmatch_Eps in H. subst t.
    do 6 eexists. split; [|reflexivity].
    repeat (apply andb_true_intro; split; [assumption|]). reflexivity.
  - intros (a & b & c & d & e & f & Hhex & ->).
    repeat (apply andb_prop in Hhex as [? Hhex]).
    rewrite fullmatch_Cat_Chr, Ascii.eqb_refl. cbn [andb].
    repeat (rewrite fullmatch_Cat_Class, hex_class_is_hex_digit;
            apply andb_true_intro; split; [assumption|]).
    cbn [Re.fullmatch Re.nullable].
    reflexivity.
Qed.

(** *** [strip] *)

Lemma rstrip_idempotent (s : string) :
  PyStr.rstrip (PyStr.rstrip s) = PyStr.rstrip s.
Proof.
  induction s as [|c s IH]; [reflexivity|].
  cbn [PyStr.rstrip].
  destruct (PyStr.rstrip s) as [|d r] eqn:Hr.
  - destruct (PyStr.is_space c) eqn:Hc; [reflexivity|].
    cbn [PyStr.rstrip]. now rewrite Hc.
  - change (PyStr.rstrip (String c (String d r)))
      with (match PyStr.rstrip (String d r) with
            | EmptyString =>
                if PyStr.is_space c then EmptyString else String c EmptyString
            | r' => String c r'
            end).
    now rewrite IH.
Qed.

Lemma lstrip_head (s : string) :
  PyStr.lstrip s = "" \/
  exists c t, PyStr.lstrip s = String c t /\ PyStr.is_space c = false.
Proof.
  induction s as [|c s IH]; [now left|].
  cbn [PyStr.lstrip]. destruct (PyStr.is_space c) eqn:Hc; [exact IH|].
  right. now exists c, s.
Qed.

Lemma rstrip_keeps_head (c : ascii) (t : string) :
  PyStr.is_space c = false ->
  exists t', PyStr.rstrip (String c t) = String c t'.
Proof.
  intros Hc. cbn [PyStr.rstrip]. rewrite Hc.
  destruct (PyStr.rstrip t); eauto.
Qed.

Lemma strip_idempotent (s : string) :
  PyStr.strip (PyStr.strip s) = PyStr.strip s.
Proof.
  unfold PyStr.strip.
  destruct (lstrip_head s) as [->|(c & t & -> & Hc)]; [reflexivity|].
  destruct (rstrip_keeps_head c t Hc) as (t' & Ht).
  rewrite Ht. cbn [PyStr.lstrip]. rewrite Hc, <- Ht.
  apply rstrip_idempotent.
Qed.

Lemma is_valid_hex_color_strip (s : string) :
  Colour.is_valid_hex_color (PyStr.strip s) = Colour.is_valid_hex_color s.
Proof. unfold Colour.is_valid_hex_color. now rewrite strip_idempotent. Qed.

Lemma rstrip_ends_in_other (s : string) (c : ascii) :
  PyStr.is_space c = false ->
  PyStr.rstrip (s ++ String c "") = s ++ String c "".
Proof.
  intros Hc. induction s as [|d s IH].
  - cbn. now rewrite Hc.
  - cbn [append PyStr.rstrip]. rewrite IH.
    destruct s; reflexivity.
Qed.

(** *** [%02x] *)

Lemma hex_loop_acc (fuel : nat) :
  forall n acc, hex_loop fuel n acc = hex_loop fuel n "" ++ acc.
Proof.
  induction fuel as [|fuel IH]; intros n acc; [reflexivity|].
  cbn [hex_loop]. destruct (n / 16 =? 0)%N; [reflexivity|].
  rewrite IH, (IH _ (String _ "")), append_assoc. reflexivity.
Qed.

(** the digits end in the digit of the units *)
Lemma hex_last (n : N) :
  exists u, hex n = u ++ String (hex_digit (n mod 16)) "".
Proof.
  unfold hex. cbn [hex_loop].
  destruct (n / 16 =? 0)%N; [now exists ""|].
  rewrite hex_loop_acc. eauto.
Qed.

Lemma hex_digit_not_space (n : N) :
  PyStr.is_space (hex_digit (n mod 16)) = false.
Proof.
  assert (H : (n mod 16 < 16)%N) by (apply N.mod_lt; discriminate).
  set (d := (n mod 16)%N) in *. clearbody d.
  assert (Hd : d = N.of_nat (N.to_nat d)) by now rewrite N2Nat.id.
  assert (Hk : N.to_nat d < 16) by lia.
  rewrite Hd. set (k := N.to_nat d) in *. clearbody k.
  do 16 (destruct k as [|k]; [reflexivity|]). lia.
Qed.

Lemma length_zeros (k : nat) : String.length (zeros k) = k.
Proof. induction k as [|k IH]; [reflexivity | cbn; now rewrite IH]. Qed.

Lemma length_format_02x (n : Z) : 2 <= String.length (format_02x n).
Proof.
  unfold format_02x. destruct (n <? 0)%Z.
  - cbn [append String.length]. rewrite length_append, length_zeros. lia.
  - rewrite length_append, length_zeros. lia.
Qed.

Lemma length_hex_loop (fuel : nat) (n : N) (acc : string) :
  String.length acc + (match fuel with O => 0 | S _ => 1 end)
  <= String.length (hex_loop fuel n acc).
Proof.
  rewrite hex_loop_acc, length_append.
  destruct fuel as [|fuel]; [lia|].
  cbn [hex_loop]. destruct (n / 16 =? 0)%N; [cbn; lia|].
  rewrite hex_loop_acc, length_append. cbn. lia.
Qed.

Lemma size_nat_large (n : N) : (2 <= n)%N -> 2 <= N.size_nat n.
Proof.
  destruct n as [|p]; [lia|]. intros Hn. cbn [N.size_nat].
  destruct p as [p|p|]; [| |lia]; cbn [Pos.size_nat];
    destruct p; cbn [Pos.size_nat]; lia.
Qed.

Lemma length_hex_large (n : N) : (256 <= n)%N -> 3 <= String.length (hex n).
Proof.
  intros Hn. unfold hex.
  pose proof (size_nat_large n ltac:(lia)) as Hs.
  destruct (N.size_nat n) as [|[|fuel]]; [lia | lia |].
  cbn [hex_loop].
  assert (H1 : (n / 16 =? 0)%N = false).
  { apply N.eqb_neq. intros H0.
    apply N.div_small_iff in H0; [lia | discriminate]. }
  rewrite H1.
  assert (H2 : (n / 16 / 16 =? 0)%N = false).
  { apply N.eqb_neq. intros H0.
    apply N.div_small_iff in H0; [|discriminate].
    assert (16 <= n / 16)%N; [|lia].
    apply N.div_le_lower_bound; [discriminate | lia]. }
  rewrite H2.
  destruct (n / 16 / 16 / 16 =? 0)%N; [cbn [String.length]; lia|].
  match goal with
  | |- _ <= String.length (hex_loop ?f ?m ?acc) =>
      pose proof (length_hex_loop f m acc) as Hl
  end.
  cbn [String.length] in Hl. lia.
Qed.

(** a byte gives two hexadecimal digits *)
Lemma format_02x_byte (n : Z) :
  is_byte n ->
  exists a b,
    format_02x n = String a (String b "") /\
    Colour.is_hex_digit a = true /\ Colour.is_hex_digit b = true.
Proof.
  intros Hn.
  assert (Hall :
            forallb
              (fun k =>
                 match format_02x (Z.of_nat k) with
                 | String a (String b EmptyString) =>
                     Colour.is_hex_digit a && Colour.is_hex_digit b
                 | _ => false
                 end) (seq 0 256) = true) by (vm_compute; reflexivity).
  rewrite forallb_forall in Hall.
  specialize (Hall (Z.to_nat n)).
  unfold is_byte in Hn.
  rewrite Z2Nat.id in Hall by lia.
  assert (Hin : In (Z.to_nat n) (seq 0 256)) by (apply in_seq; lia).
  specialize (Hall Hin).
  destruct (format_02x n) as [|a [|b [|]]]; try discriminate.
  apply andb_prop in Hall as [Ha Hb]. now exists a, b.
Qed.

(** and only a byte does *)
Lemma format_02x_two_hex (n : Z) (a b : ascii) :
  format_02x n = String a (String b "") ->
  Colour.is_hex_digit a = true ->
  is_byte n.
Proof.
  intros Hf Ha. unfold is_byte.
  destruct (Z.ltb_spec n 0) as [Hneg|Hpos].
  - unfold format_02x in Hf.
    destruct (Z.ltb_spec n 0); [|lia].
    cbn [append] in Hf. injection Hf as <- _. discriminate Ha.
  - split; [exact Hpos|].
    destruct (Z.ltb_spec n 256) as [Hlt|Hge]; [exact Hlt|].
    assert (Hn : (256 <= Z.abs_N n)%N)
      by (apply N2Z.inj_le; rewrite N2Z.inj_abs_N; cbn; lia).
    pose proof (length_hex_large (Z.abs_N n) Hn) as Hl.
    unfold format_02x in Hf.
    destruct (Z.ltb_spec n 0); [lia|].
    apply (f_equal String.length) in Hf.
    rewrite length_append, length_zeros in Hf.
    cbn [String.length] in Hf. lia.
Qed.

Lemma append_two (x y : string) (a b : ascii) (rest : string) :
  2 <= String.length x ->
  String.length (x ++ y) = 2 + String.length rest ->
  String.length rest <= String.length y ->
  x ++ y = String a (String b rest) ->
  x = String a (String b "") /\ y = rest.
Proof.
  intros Hx Hlen Hy Heq.
  destruct x as [|a' [|b' x]]; cbn in Hx; try lia.
  cbn [append] in Heq. injection Heq as -> -> Heq.
  destruct x as [|c x]; [now split|].
  rewrite length_append in Hlen. cbn in Hlen. lia.
Qed.

Lemma strip_format_rgb (rgb : Z * Z * Z) :
  PyStr.strip (format_rgb rgb) = format_rgb rgb.
Proof.
  destruct rgb as [[r g] b]. unfold format_rgb, PyStr.strip.
  cbn [append PyStr.lstrip].
  change (PyStr.is_space "#") with false. cbv iota.
  assert (Hend : exists u c,
             format_02x b = u ++ String c "" /\ PyStr.is_space c = false).
  { unfold format_02x.
    destruct (hex_last (Z.abs_N b)) as (u & Hu). rewrite Hu.
    destruct (b <? 0)%Z.
    - eexists _, _. rewrite <- !append_assoc. split; [reflexivity|].
      apply hex_digit_not_space.
    - eexists _, _. rewrite <- !append_assoc. split; [reflexivity|].
      apply hex_digit_not_space. }
  destruct Hend as (u & c & Hu & Hc). rewrite Hu.
  change (String "#" (format_02x r ++ format_02x g ++ u ++ String c ""))
    with (String "#" (format_02x r) ++ format_02x g ++ u ++ String c "").
  rewrite <- !append_assoc.
  now apply rstrip_ends_in_other.
Qed.

(** the formatted colour is accepted exactly when the channels are
    bytes *)
Lemma format_rgb_valid (rgb : Z * Z * Z) :
  Colour.is_valid_hex_color (format_rgb rgb) = true <-> bytes rgb.
Proof.
  unfold Colour.is_valid_hex_color. rewrite strip_format_rgb.
  rewrite fullmatch_hex_color.
  destruct rgb as [[r g] b]. unfold format_rgb, bytes. split.
  - intros (a1 & a2 & a3 & a4 & a5 & a6 & Hhex & Heq).
    cbn [forallb] in Hhex.
    repeat (apply andb_prop in Hhex as [? Hhex]).
    cbn [append] in Heq. injection Heq as Heq.
    pose proof (length_format_02x r) as Lr.
    pose proof (length_format_02x g) as Lg.
    pose proof (length_format_02x b) as Lb.
    pose proof (f_equal String.length Heq) as Hlen.
    rewrite !length_append in Hlen. cbn [String.length] in Hlen.
    apply append_two in Heq as [Hr Heq];
      [|lia | rewrite !length_append; cbn [String.length]; lia
       | rewrite length_append; cbn [String.length]; lia].
    apply append_two in Heq as [Hg Hb];
      [|lia | rewrite !length_append; cbn [String.length]; lia
       | cbn [String.length]; lia].
    repeat split; eapply format_02x_two_hex; eassumption.
  - intros (Hr & Hg & Hb).
    destruct (format_02x_byte r Hr) as (a1 & a2 & -> & H1 & H2).
    destruct (format_02x_byte g Hg) as (a3 & a4 & -> & H3 & H4).
    destruct (format_02x_byte b Hb) as (a5 & a6 & -> & H5 & H6).
    exists a1, a2, a3, a4, a5, a6. split; [|reflexivity].
    cbn [forallb]. now rewrite H1, H2, H3, H4, H5, H6.
Qed.

End ColourFacts.

(** X16. The colour handed to the plot: what is typed in the Hex entry
    when that is a valid colour, the slider's colour written as
    [#rrggbb] otherwise.  It is a valid colour in the sense of
    [is_valid_hex_color] exactly when the entry is one or the three
    channels of the slider's colour are bytes. *)
Theorem plot_color_valid
        (slider_rgb : Z -> Z * Z * Z) (color_hex : string) (slider : Z) :
  let color := PlotterGUI.get_func_plot_color slider_rgb color_hex slider in
  (Colour.is_valid_hex_color color_hex = true ->
   color = PyStr.strip color_hex) /\
  (Colour.is_valid_hex_color color_hex = false ->
   color = PlotterGUI.format_rgb (slider_rgb slider)) /\
  (Colour.is_valid_hex_color color = true <->
   Colour.is_valid_hex_color color_hex = true \/ bytes (slider_rgb slider)).
Proof.
  unfold PlotterGUI.get_func_plot_color. cbv zeta.
  rewrite is_valid_hex_color_strip.
  destruct (Colour.is_valid_hex_color color_hex) eqn:Hv.
  - split; [reflexivity|]. split; [discriminate|].
    rewrite is_valid_hex_color_strip, Hv. tauto.
  - split; [discriminate|]. split; [reflexivity|].
    rewrite format_rgb_valid. split; [now right|].
    intros [H|H]; [discriminate | exact H].
Qed.

(** ** Clicks and sessions *)



(** X18. Through a whole session - any clicks on Generate and Export of
    either tab, with anything in the entries - no handler raises, and on
    each tab Export is on exactly when a canvas is shown, the figure that
    Export saves being the one on the canvas.  So a click on Export always
    finds a figure. *)
Theorem export_enabled_iff_figure_shown
        (L : Lib) (which : string -> bool)
        (float_of_expr : Expr L -> exception + spec_float)
        (slider_rgb : Z -> Z * Z * Z)
        (canvas_raises draw_raises :
           list (action (ndarray L)) -> option exception)
        (evs : list PlotterGUI.event) (w : World (ndarray L)) :
  exists g' w',
    PlotterGUI.session L which float_of_expr slider_rgb canvas_raises
                       draw_raises evs new_gui w
    = (Ok tt, (g', w')) /\
    gui_ok g' /\
    (PlotterGUI.export_btn (PlotterGUI.func_tab g') = true ->
     PlotterGUI.fig (PlotterGUI.func_tab g') <> None) /\
    (PlotterGUI.export_btn (PlotterGUI.eqn_tab g') = true ->
     PlotterGUI.fig (PlotterGUI.eqn_tab g') <> None).
Proof.
  destruct (session_runs L which float_of_expr slider_rgb canvas_raises
              draw_raises evs new_gui w)
    as (g' & w' & ws & Hrun & _ & _ & Hok).
  exists g', w'. split; [exact Hrun|].
  assert (Hg : gui_ok g') by (apply Hok; split; reflexivity).
  split; [exact Hg|].
  destruct Hg as [Hf He]. unfold tab_ok in Hf, He.
  split; intros Hb.
  - destruct (PlotterGUI.canvas (PlotterGUI.func_tab g'));
      [destruct Hf as [-> _]; discriminate | congruence].
  - destruct (PlotterGUI.canvas (PlotterGUI.eqn_tab g'));
      [destruct He as [-> _]; discriminate | congruence].
Qed.

(** X19. A session of the window never writes over a file: from any
    state of the window, after any clicks, nothing was read from the
    console or printed, every file that existed is still there, [savefig]
    was called at most once for each click on Export and each time with a
    name that did not exist before the session, and the files added are
    among those names, none of them twice. *)
Theorem session_writes_only_new_files
        (L : Lib) (which : string -> bool)
        (float_of_expr : Expr L -> exception + spec_float)
        (slider_rgb : Z -> Z * Z * Z)
        (canvas_raises draw_raises :
           list (action (ndarray L)) -> option exception)
        (evs : list PlotterGUI.event)
        (g : PlotterGUI.Gui) (w : World (ndarray L)) :
  exists g' w' ws,
    PlotterGUI.session L which float_of_expr slider_rgb canvas_raises
                       draw_raises evs g w
    = (Ok tt, (g', w')) /\
    wrote_new_files w w' ws /\
    List.length ws <= List.length (filter is_export evs).
Proof.
  destruct (session_runs L which float_of_expr slider_rgb canvas_raises
              draw_raises evs g w)
    as (g' & w' & ws & Hrun & Hw & Hlen & _).
  now exists g', w', ws.
Qed.

(** X20. When the start-up check failed, the window does nothing but
    show the message: after any clicks the world is as it was - nothing
    parsed, sampled, drawn or written - and on both tabs Export is still
    off, with no canvas and no figure. *)
Theorem session_without_latex_is_inert
        (L : Lib) (which : string -> bool)
        (float_of_expr : Expr L -> exception + spec_float)
        (slider_rgb : Z -> Z * Z * Z)
        (canvas_raises draw_raises :
           list (action (ndarray L)) -> option exception)
        (evs : list PlotterGUI.event) (w : World (ndarray L)) :
  PlotterGUI.latex_ok which = false ->
  exists g',
    PlotterGUI.session L which float_of_expr slider_rgb canvas_raises
                       draw_raises evs new_gui w
    = (Ok tt, (g', w)) /\
    idle (PlotterGUI.func_tab g') /\ idle (PlotterGUI.eqn_tab g').
Proof.
  intros Hl.
  apply session_without_latex; [exact Hl | |]; repeat split.
Qed.

Lemma session_without_latex_is_inert_witness :
  exists g',
    PlotterGUI.session
      Toy.lib (fun _ => false) (fun e => Toy.to_float (Toy.str e))
      (fun _ => (0, 0, 255)%Z) (fun _ => None) (fun _ => None)
      [PlotterGUI.GenerateFunction "x^2" "-2" "2" "" 0 "auto";
       PlotterGUI.ExportFunction "svg" "plot"]
      new_gui (Toy.world [] [])
    = (Ok tt, (g', Toy.world [] [])) /\
    idle (PlotterGUI.func_tab g') /\ idle (PlotterGUI.eqn_tab g').
Proof.
  exact (session_without_latex_is_inert
           Toy.lib (fun _ => false) (fun e => Toy.to_float (Toy.str e))
           (fun _ => (0, 0, 255)%Z) (fun _ => None) (fun _ => None)
           [PlotterGUI.GenerateFunction "x^2" "-2" "2" "" 0 "auto";
            PlotterGUI.ExportFunction "svg" "plot"]
           (Toy.world [] []) eq_refl).
Defined.

(** ** The plot functions and the interrupt *)

Section Interrupts.

Variable L : Lib.
Variable ctrl_c : list (action (ndarray L)) -> bool.
Local Abbreviation Py := (M (ndarray L)).

Lemma unless_interrupted_refl {A} (m : Py A) : unless_interrupted ctrl_c m m.
Proof. intros w. now left. Qed.

Lemma unless_interrupted_checked {A} (m : Py A) :
  unless_interrupted ctrl_c (Interruptible.checked L ctrl_c m) m.
Proof.
  intros w. unfold Interruptible.checked.
  destruct (ctrl_c (trace w)) eqn:Hc; [right; now exists w | now left].
Qed.

Lemma unless_interrupted_bind {A B} (m' m : Py A) (k' k : A -> Py B) :
  unless_interrupted ctrl_c m' m ->
  (forall a, unless_interrupted ctrl_c (k' a) (k a)) ->
  unless_interrupted ctrl_c (bind m' k') (bind m k).
Proof.
  intros Hm Hk w. unfold bind.
  destruct (Hm w) as [->|(w' & -> & Hc)]; [|right; now exists w'].
  destruct (m w) as [[a|r|] w1]; [apply Hk | now left | now left].
Qed.

Lemma unless_interrupted_try {A} (body' body : Py A)
      (handler' handler : exception -> Py A) :
  unless_interrupted ctrl_c body' body ->
  (forall e, unless_interrupted ctrl_c (handler' e) (handler e)) ->
  unless_interrupted ctrl_c (try_except_Exception body' handler')
                     (try_except_Exception body handler).
Proof.
  intros Hb Hh w. unfold try_except_Exception.
  destruct (Hb w) as [->|(w' & -> & Hc)]; [|right; now exists w'].
  destruct (body w) as [[a|[e|]|] w1]; [now left | apply Hh | now left ..].
Qed.

Ltac interrupts :=
  repeat first
    [ apply unless_interrupted_checked
    | apply unless_interrupted_refl
    | apply unless_interrupted_try; [|intros ?]
    | apply unless_interrupted_bind; [|intros ?]
    | match goal with
      | |- unless_interrupted _ (if ?c then _ else _) (if ?c then _ else _) =>
          destruct c
      | |- unless_interrupted _ (let (_, _) := ?p in _) _ => destruct p
      end ].

Lemma plot_function_unless_interrupted
      (func_str : string) (x_min x_max : spec_float)
      (filename format : string) :
  unless_interrupted ctrl_c
    (Interruptible.plot_function L ctrl_c func_str x_min x_max filename format)
    (FunctionPlotter.plot_function L func_str x_min x_max filename format).
Proof.
  unfold Interruptible.plot_function, FunctionPlotter.plot_function,
         Interruptible.plot_function_body, FunctionPlotter.plot_function_body,
         Interruptible.clean_latex_expression,
         FunctionPlotter.clean_latex_expression,
         Interruptible.save_with_fallback, FunctionPlotter.save_with_fallback.
  interrupts.
Qed.

Lemma plot_equation_unless_interrupted
      (equation_str : string) (x_min x_max y_min y_max : spec_float)
      (filename format : string) :
  unless_interrupted ctrl_c
    (Interruptible.plot_equation L ctrl_c equation_str x_min x_max
                                 y_min y_max filename format)
    (FunctionPlotter.plot_equation L equation_str x_min x_max
                                   y_min y_max filename format).
Proof.
  unfold Interruptible.plot_equation, FunctionPlotter.plot_equation,
         Interruptible.plot_equation_body, FunctionPlotter.plot_equation_body,
         Interruptible.clean_latex_expression,
         FunctionPlotter.clean_latex_expression,
         Interruptible.save_with_fallback, FunctionPlotter.save_with_fallback.
  interrupts.
Qed.

End Interrupts.

(** ** How a run of a plot function ends *)

Section Outcome.

Variable L : Lib.
Local Abbreviation Py := (M (ndarray L)).
Local Abbreviation W := (World (ndarray L)).













End Outcome.

(** without the interrupt the checked functions are the plain ones *)
Lemma plot_function_uninterrupted
      (L : Lib) (ctrl_c : list (action (ndarray L)) -> bool)
      (func_str : string) (x_min x_max : spec_float)
      (filename format : string) (w : World (ndarray L)) :
  (forall t, ctrl_c t = false) ->
  Interruptible.plot_function L ctrl_c func_str x_min x_max filename format w
  = FunctionPlotter.plot_function L func_str x_min x_max filename format w.
Proof.
  intros Hnever.
  destruct (plot_function_unless_interrupted L ctrl_c func_str x_min x_max
              filename format w) as [H|(w' & _ & Hc)]; [exact H|].
  rewrite Hnever in Hc. discriminate Hc.
Qed.

Lemma plot_equation_uninterrupted
      (L : Lib) (ctrl_c : list (action (ndarray L)) -> bool)
      (equation_str : string) (x_min x_max y_min y_max : spec_float)
      (filename format : string) (w : World (ndarray L)) :
  (forall t, ctrl_c t = false) ->
  Interruptible.plot_equation L ctrl_c equation_str x_min x_max y_min y_max
                              filename format w
  = FunctionPlotter.plot_equation L equation_str x_min x_max y_min y_max
                                  filename format w.
Proof.
  intros Hnever.
  destruct (plot_equation_unless_interrupted L ctrl_c equation_str
              x_min x_max y_min y_max filename format w)
    as [H|(w' & _ & Hc)]; [exact H|].
  rewrite Hnever in Hc. discriminate Hc.
Qed.



